(** * MedBot: symptom extraction, knowledge-graph queries and ranking

    A shallow embedding of the retrieval pipeline of the MedBot sources
    ([src/nlp_processor.py], [src/query_engine.py], [src/llm_engine.py]) and
    the properties of it that the specification states.

    Conventions of the embedding.
    - A Python [str] is a [string]; case mapping ([str.lower], [str.upper])
      and white space ([str.strip]) are those of the ASCII range.
    - A Python [float] score or confidence is an exact rational of [Qc]: the
      quotients and the decimal constants of the sources are read as the
      rationals they denote.
    - A Python [dict] that is iterated is an association list in insertion
      order; a Python [set] is a [gset].
    - A Python function that may raise returns a [result]; [try]/[except] is
      [try_except]. *)

From Stdlib Require Import Ascii QArith Qcanon.
From Stdlib Require String.
From stdpp Require Import base numbers list strings gmap pretty sorting.

(** ** Python text *)

Module Py.

Definition code (c : ascii) : nat := nat_of_ascii c.

(** [str.isspace] on one character: TAB, LF, VT, FF, CR, the four
    separators FS, GS, RS, US, and the space. *)
Definition isspace (c : ascii) : bool :=
  ((9 <=? code c) && (code c <=? 13)) || ((28 <=? code c) && (code c <=? 32)).

Definition isupper (c : ascii) : bool := (65 <=? code c) && (code c <=? 90).
Definition islower (c : ascii) : bool := (97 <=? code c) && (code c <=? 122).

Definition lower_char (c : ascii) : ascii :=
  if isupper c then ascii_of_nat (code c + 32) else c.
Definition upper_char (c : ascii) : ascii :=
  if islower c then ascii_of_nat (code c - 32) else c.

Fixpoint map_chars (f : ascii -> ascii) (s : string) : string :=
  match s with
  | EmptyString => EmptyString
  | String c s' => String (f c) (map_chars f s')
  end.

(** [s.lower()] and [s.upper()]. *)
Definition lower : string -> string := map_chars lower_char.
Definition upper : string -> string := map_chars upper_char.

(** [s.lstrip()], [s.rstrip()], [s.strip()]. *)
Fixpoint lstrip (s : string) : string :=
  match s with
  | EmptyString => EmptyString
  | String c s' => if isspace c then lstrip s' else s
  end.

Fixpoint rstrip (s : string) : string :=
  match s with
  | EmptyString => EmptyString
  | String c s' =>
      match rstrip s' with
      | EmptyString => if isspace c then EmptyString else String c EmptyString
      | r => String c r
      end
  end.

Definition strip (s : string) : string := rstrip (lstrip s).

(** [s] consists of white space only. *)
Fixpoint all_space (s : string) : bool :=
  match s with
  | EmptyString => true
  | String c s' => isspace c && all_space s'
  end.

(** [s.replace(old, new)] for one-character [old] and [new]. *)
Definition replace (old new : ascii) : string -> string :=
  map_chars (fun c => if Ascii.eqb c old then new else c).

(** [sub in s]. *)
Fixpoint contains (sub s : string) : bool :=
  String.prefix sub s ||
  match s with
  | EmptyString => false
  | String _ s' => contains sub s'
  end.

(** [c * n] for a character [c]. *)
Fixpoint repeat_char (c : ascii) (n : nat) : string :=
  match n with
  | O => EmptyString
  | S n' => String c (repeat_char c n')
  end.

(** [s.split()]: the maximal runs of characters that are not white space. *)
Fixpoint split_aux (cur : string) (s : string) : list string :=
  match s with
  | EmptyString => if String.eqb cur EmptyString then [] else [cur]
  | String c s' =>
      if isspace c then
        (if String.eqb cur EmptyString then [] else [cur]) ++ split_aux EmptyString s'
      else split_aux (cur +:+ String c EmptyString) s'
  end.
Definition split (s : string) : list string := split_aux EmptyString s.

(** [sep.join(l)]. *)
Fixpoint join (sep : string) (l : list string) : string :=
  match l with
  | [] => EmptyString
  | [x] => x
  | x :: l' => x +:+ sep +:+ join sep l'
  end.

(** [l[-n:]] for [n > 0]. *)
Definition last_n {A} (n : nat) (l : list A) : list A := drop (length l - n) l.

(** [l.sort(key=key, reverse=True)]. CPython's sort is stable, and stays
    so under [reverse=True]: the result is in descending key order and
    elements with equal keys keep their order. [lt] is [<] on the keys.
    The result of a stable sort is unique, so it is given here by
    insertion from the right, each element going in front of the first
    one that is not greater. *)
Section Sort.
Context {A K : Type} (key : A -> K) (lt : K -> K -> bool).

Fixpoint insert_desc (x : A) (l : list A) : list A :=
  match l with
  | [] => [x]
  | y :: l' =>
      if lt (key x) (key y) then y :: insert_desc x l' else x :: y :: l'
  end.

Definition sort_reverse (l : list A) : list A := foldr insert_desc [] l.

(** [x] may stand before [y] in a descending order: its key is not smaller. *)
Definition not_below (x y : A) : Prop := lt (key x) (key y) = false.
End Sort.

(** An insertion-ordered [dict] with string keys. *)
Section Dict.
Context {V : Type}.

Fixpoint dict_get (k : string) (d : list (string * V)) : option V :=
  match d with
  | [] => None
  | (k', v) :: d' => if String.eqb k k' then Some v else dict_get k d'
  end.

(** [d[k] = v]: a present key keeps its place, a new key goes last. *)
Fixpoint dict_set (k : string) (v : V) (d : list (string * V)) : list (string * V) :=
  match d with
  | [] => [(k, v)]
  | (k', v') :: d' =>
      if String.eqb k k' then (k, v) :: d' else (k', v') :: dict_set k v d'
  end.

Definition dict_values (d : list (string * V)) : list V := snd <$> d.
Definition dict_keys (d : list (string * V)) : list string := fst <$> d.
End Dict.

End Py.

(** ** [nlp_processor.py]: normalisation *)

(** [SymptomExtractor._normalize_symptom_name]:
    [symptom.lower().strip().replace(' ', '_').replace('-', '_')]. *)
Definition _normalize_symptom_name (symptom : string) : string :=
  Py.replace "-" "_" (Py.replace " " "_" (Py.strip (Py.lower symptom))).

(** The normalisation as the specification words it: lower-case, trim,
    collapse each run of internal white space to one space, then replace
    spaces and hyphens with the separator. *)
Fixpoint collapse_whitespace (s : string) : string :=
  match s with
  | EmptyString => EmptyString
  | String c s' =>
      if Py.isspace c then
        match s' with
        | String c' _ =>
            if Py.isspace c' then collapse_whitespace s'
            else String " " (collapse_whitespace s')
        | EmptyString => String " " EmptyString
        end
      else String c (collapse_whitespace s')
  end.

Definition spec_normalize (surface_form : string) : string :=
  Py.replace "-" "_"
    (Py.replace " " "_" (collapse_whitespace (Py.strip (Py.lower surface_form)))).

(** What the normalisation does to a string that has no white space at its
    ends: lower-case, and one underscore for each space and each hyphen. *)
Definition lower_and_separate (s : string) : string :=
  Py.replace "-" "_" (Py.replace " " "_" (Py.lower s)).

(** ** [nlp_processor.py]: the symptom extractor *)

(** One extracted symptom: the [dict] with keys ['symptom'], ['normalized'],
    ['confidence'], ['method']. *)
Record Extraction := {
  symptom : string;
  normalized : string;
  confidence : Qc;
  method : string
}.

(** A loaded spaCy pipeline, seen through the only use the extractor makes of
    it: the texts of the noun chunks of a document. *)
Definition Chunker := string -> list string.

(** The state of a [SymptomExtractor]: the two optional spaCy models
    ([None] when the model is not installed), the vocabulary
    [symptoms_dict] (normalised token to display name) and the synonym
    table. *)
Record SymptomExtractor := {
  nlp_fr : option Chunker;
  nlp_en : option Chunker;
  symptoms_dict : list (string * string);
  symptom_synonyms : list (string * string)
}.

(** The table that [_build_symptom_synonyms] installs. *)
Definition symptom_synonyms_table : list (string * string) := [
    ("fièvre", "fever");
    ("toux", "cough");
    ("mal de tête", "headache");
    ("maux de tête", "headache");
    ("céphalée", "headache");
    ("douleur", "pain");
    ("fatigue", "fatigue");
    ("fatigué", "fatigue");
    ("nausée", "nausea");
    ("nausées", "nausea");
    ("vomissement", "vomiting");
    ("vomissements", "vomiting");
    ("diarrhée", "diarrhea");
    ("diarrhee", "diarrhea");
    ("déshydraté", "dehydration");
    ("deshydrate", "dehydration");
    ("déshydratation", "dehydration");
    ("constipation", "constipation");
    ("éruption cutanée", "skin_rash");
    ("eruption cutanee", "skin_rash");
    ("démangeaison", "itching");
    ("demangeaison", "itching");
    ("démangeaisons", "itching");
    ("essoufflement", "breathlessness");
    ("difficulté à respirer", "breathlessness");
    ("difficulte a respirer", "breathlessness");
    ("douleur thoracique", "chest_pain");
    ("douleur abdominale", "stomach_pain");
    ("mal de ventre", "stomach_pain");
    ("mal au ventre", "stomach_pain");
    ("vertige", "dizziness");
    ("vertiges", "dizziness");
    ("voyage", "travel");
    ("headaches", "headache");
    ("coughing", "cough");
    ("painful", "pain");
    ("stomach ache", "stomach_pain");
    ("belly pain", "stomach_pain");
    ("chest pain", "chest_pain");
    ("skin rash", "skin_rash");
    ("difficulty breathing", "breathlessness");
    ("shortness of breath", "breathlessness");
    ("dehydrated", "dehydration");
    ("diarrhea", "diarrhoea")
  ].

(** The decimal constants of the sources. *)
Definition dec (n : Z) (d : positive) : Qc := Q2Qc (n # d).
Definition conf_0_9 : Qc := dec 9 10.
Definition conf_0_85 : Qc := dec 85 100.
Definition conf_0_8 : Qc := dec 8 10.
Definition conf_0_75 : Qc := dec 75 100.
Definition conf_0_7 : Qc := dec 7 10.

Definition Qc_ltb (x y : Qc) : bool := bool_decide (x < y)%Qc.

(** [detect_language]. *)
Definition french_words : gset string :=
  list_to_set ["je"; "tu"; "il"; "elle"; "nous"; "vous"; "ils"; "elles";
               "le"; "la"; "les"; "de"; "du"; "des"; "un"; "une";
               "ai"; "as"; "avons"; "suis"; "est"; "sont"].

Definition detect_language (text : string) : string :=
  let words : gset string := list_to_set (Py.split (Py.lower text)) in
  let french_count := size (words ∩ french_words) in
  if 2 <=? french_count then "fr" else "en".

(** Method 1 of both extraction modes: every vocabulary entry whose token or
    lower-cased display name occurs in the lower-cased text. *)
Definition known_symptom_matches (self : SymptomExtractor) (conf : Qc)
    (meth : string) (text_lower : string) : list Extraction :=
  symptoms_dict self ≫= (fun kv : string * string =>
    let (symptom_key, symptom_value) := kv in
    if Py.contains symptom_key text_lower
       || Py.contains (Py.lower symptom_value) text_lower
    then [{| symptom := symptom_value; normalized := symptom_key;
             confidence := conf; method := meth |}]
    else []).

(** Method 2 of both modes: every synonym that occurs in the text and whose
    normalised target is in the vocabulary. *)
Definition synonym_matches (self : SymptomExtractor) (conf : Qc)
    (meth : string) (text_lower : string) : list Extraction :=
  symptom_synonyms self ≫= (fun st : string * string =>
    let (synonym, target) := st in
    if Py.contains synonym text_lower then
      let normalized := _normalize_symptom_name target in
      match Py.dict_get normalized (symptoms_dict self) with
      | Some display =>
          [{| symptom := display; normalized := normalized;
              confidence := conf; method := meth |}]
      | None => []
      end
    else []).

(** Method 3 of the full mode: every noun chunk whose normalised text is in
    the vocabulary. *)
Definition noun_chunk_matches (self : SymptomExtractor) (nlp : Chunker)
    (text_lower : string) : list Extraction :=
  nlp text_lower ≫= (fun chunk : string =>
    let chunk_text := Py.lower chunk in
    let normalized := _normalize_symptom_name chunk_text in
    match Py.dict_get normalized (symptoms_dict self) with
    | Some display =>
        [{| symptom := display; normalized := normalized;
            confidence := conf_0_7; method := "noun_chunk" |}]
    | None => []
    end).

(** The de-duplication loop of [extract_symptoms]: an entry enters
    [unique_symptoms] when its token is new or its confidence is greater
    than the stored one. *)
Definition keep_highest (unique_symptoms : list (string * Extraction))
    (s : Extraction) : list (string * Extraction) :=
  let key := normalized s in
  match Py.dict_get key unique_symptoms with
  | None => Py.dict_set key s unique_symptoms
  | Some old =>
      if Qc_ltb (confidence old) (confidence s)
      then Py.dict_set key s unique_symptoms
      else unique_symptoms
  end.

(** The de-duplication loop of [_fallback_extraction]: only new tokens enter. *)
Definition keep_first (unique_symptoms : list (string * Extraction))
    (s : Extraction) : list (string * Extraction) :=
  let key := normalized s in
  match Py.dict_get key unique_symptoms with
  | None => Py.dict_set key s unique_symptoms
  | Some _ => unique_symptoms
  end.

(** The candidates of the fallback mode, in the order they are appended. *)
Definition fallback_candidates (self : SymptomExtractor) (text : string)
    : list Extraction :=
  let text_lower := Py.lower text in
  known_symptom_matches self conf_0_8 "keyword_match" text_lower
  ++ synonym_matches self conf_0_75 "synonym_keyword" text_lower.

(** [_fallback_extraction]. *)
Definition _fallback_extraction (self : SymptomExtractor) (text : string)
    : list Extraction :=
  let extracted_symptoms := fallback_candidates self text in
  let unique_symptoms := fold_left keep_first extracted_symptoms [] in
  Py.dict_values unique_symptoms.

(** The candidates of the full mode, in the order they are appended. *)
Definition full_candidates (self : SymptomExtractor) (nlp : Chunker)
    (text : string) : list Extraction :=
  let text_lower := Py.lower text in
  known_symptom_matches self conf_0_9 "exact_match" text_lower
  ++ synonym_matches self conf_0_85 "synonym_match" text_lower
  ++ noun_chunk_matches self nlp text_lower.

(** The model that [extract_symptoms] selects for a language. *)
Definition select_nlp (self : SymptomExtractor) (language : string)
    : option Chunker :=
  if String.eqb language "fr" then nlp_fr self else nlp_en self.

(** [extract_symptoms]. *)
Definition extract_symptoms (self : SymptomExtractor) (text : string)
    (language : option string) : list Extraction :=
  let language :=
    match language with
    | None => detect_language text
    | Some l => l
    end in
  match select_nlp self language with
  | None => _fallback_extraction self text
  | Some nlp =>
      let extracted_symptoms := full_candidates self nlp text in
      let unique_symptoms := fold_left keep_highest extracted_symptoms [] in
      let result := Py.dict_values unique_symptoms in
      Py.sort_reverse confidence Qc_ltb result
  end.

(** The candidates that [extract_symptoms] collects for a text, in the mode
    that the language selects. *)
Definition candidates (self : SymptomExtractor) (text : string)
    (language : option string) : list Extraction :=
  let language :=
    match language with
    | None => detect_language text
    | Some l => l
    end in
  match select_nlp self language with
  | None => fallback_candidates self text
  | Some nlp => full_candidates self nlp text
  end.

(** The distinct tokens of a candidate list, in the order in which each is
    first seen. *)
Definition see (seen : list string) (token : string) : list string :=
  if bool_decide (token ∈ seen) then seen else seen ++ [token].

Definition first_seen_order (cands : list Extraction) : list string :=
  fold_left see (normalized <$> cands) [].

(** [x] may stand before [y]: its confidence is not smaller. *)
Definition confidence_ge (x y : Extraction) : Prop :=
  (confidence y ≤ confidence x)%Qc.

(** ** Exceptions *)

Inductive exn :=
  | FileNotFoundError (msg : string)
  | Exception (msg : string).

Definition exn_message (e : exn) : string :=
  match e with FileNotFoundError m | Exception m => m end.

(** The outcome of a Python call: a value, or a raised exception. *)
Inductive result (A : Type) :=
  | Ok (a : A)
  | Raise (e : exn).
Arguments Ok {A} a.
Arguments Raise {A} e.

Global Instance result_ret : MRet result := fun A a => Ok a.
Global Instance result_bind : MBind result := fun A B f m =>
  match m with
  | Ok a => f a
  | Raise e => Raise e
  end.

(** [try: body / except Exception as e: handler e]. *)
Definition try_except {A} (body : result A) (handler : exn -> result A) : result A :=
  match body with
  | Ok a => Ok a
  | Raise e => handler e
  end.

Definition raises {A} (r : result A) : Prop := ∃ e, r = Raise e.

(** ** Logging

    The records that the loader writes. The logger calls of the other
    functions do not affect what they return and are left out. *)

Inductive LogLevel := INFO | WARNING | ERROR.
Definition LogRecord : Type := LogLevel * string.

(** ** [query_engine.py]: the knowledge graph *)

(** An RDF term in object position. Subjects and predicates are IRIs, held
    as their strings. *)
Inductive Node :=
  | URIRef (iri : string)
  | Literal (lexical : string).

Global Instance Node_eq_dec : EqDecision Node.
Proof. solve_decision. Defined.

Definition Triple : Type := string * string * Node.

(** [str(node)]. *)
Definition node_str (n : Node) : string :=
  match n with URIRef s | Literal s => s end.

(** [str(x) if x else default] for a possibly unbound variable of a row: an
    unbound variable is [None], and a term with empty text is false. *)
Definition str_or (default : string) (x : option Node) : string :=
  match x with
  | Some n => if String.eqb (node_str n) "" then default else node_str n
  | None => default
  end.

Definition MED (local : string) : string := "http://medbot.org/ontology#" +:+ local.
Definition RDF_type : string := "http://www.w3.org/1999/02/22-rdf-syntax-ns#type".

(** *** Graph patterns

    An rdflib graph is a set of triples, held here as a list. The solutions
    of a triple pattern are distinct, so each pattern removes duplicates. *)

(** The objects [?o] of [<s> <p> ?o]. *)
Definition objects (g : list Triple) (s p : string) : list Node :=
  remove_dups (omap (fun t : Triple =>
    let '(s', p', o) := t in
    if bool_decide (s' = s ∧ p' = p) then Some o else None) g).

(** The subjects [?s] of [?s rdf:type <cls>]. *)
Definition instances (g : list Triple) (cls : string) : list string :=
  remove_dups (omap (fun t : Triple =>
    let '(s, p, o) := t in
    if bool_decide (p = RDF_type ∧ o = URIRef cls) then Some s else None) g).

(** The objects of [<s> <p> ?o] that can be subjects of a further pattern. *)
Definition object_iris (g : list Triple) (s p : string) : list string :=
  omap (fun o => match o with URIRef i => Some i | Literal _ => None end)
       (objects g s p).

(** [OPTIONAL { ... }]: the solutions of the optional part, or one solution
    that leaves its variables unbound when there is none. *)
Definition optional {A} (solutions : list A) : list (option A) :=
  match solutions with
  | [] => [None]
  | _ => map Some solutions
  end.

(** [FILTER(?symptomName IN ("s1", "s2", ...))], on the strings [terms]
    that the texts between the quotes stand for. *)
Definition in_filter (symptomName : Node) (terms : list string) : bool :=
  match symptomName with
  | Literal n => bool_decide (n ∈ terms)
  | URIRef _ => false
  end.

(** *** The text of a query

    The engine writes its parameters into the text of the query: each
    symptom name between double quotes, a disease IRI between angle
    brackets. rdflib expands the code point escapes of the text before it
    parses it. [pasted ok s] is the string that the text [s] stands for
    inside such a token: a character for which [ok] holds stands for itself,
    and [\uXXXX] with four hexadecimal digits, not followed by four
    further ones, stands for the character of that code point when that is
    an ASCII character for which [ok] holds. For any other text the result is [None]:
    the token ends early, or holds an escape of another form, and the query
    is not the one the patterns below describe. *)
Definition hex_value (c : ascii) : option nat :=
  let n := Py.code c in
  if (48 <=? n) && (n <=? 57) then Some (n - 48)
  else if (97 <=? n) && (n <=? 102) then Some (n - 87)
  else if (65 <=? n) && (n <=? 70) then Some (n - 55)
  else None.

Definition code_point (h1 h2 h3 h4 : ascii) : option nat :=
  a ← hex_value h1; b ← hex_value h2; c ← hex_value h3; d ← hex_value h4;
  Some (((a * 16 + b) * 16 + c) * 16 + d).

Definition starts_with_hex (s : string) : bool :=
  match s with
  | String h1 (String h2 (String h3 (String h4 _))) =>
      bool_decide (is_Some (code_point h1 h2 h3 h4))
  | _ => false
  end.

Fixpoint pasted (ok : ascii → bool) (s : string) : option string :=
  match s with
  | EmptyString => Some EmptyString
  | String c s' =>
      if Py.code c =? 92 then
        match s' with
        | String u (String h1 (String h2 (String h3 (String h4 rest)))) =>
            match code_point h1 h2 h3 h4 with
            | Some n =>
                if (Py.code u =? 117) && (n <? 128) && ok (ascii_of_nat n)
                   && negb (starts_with_hex rest)
                then String (ascii_of_nat n) <$> pasted ok rest
                else None
            | None => None
            end
        | _ => None
        end
      else if ok c then String c <$> pasted ok s' else None
  end.

(** Every character of [s] satisfies [ok]. *)
Fixpoint all_chars (ok : ascii → bool) (s : string) : bool :=
  match s with
  | EmptyString => true
  | String c s' => ok c && all_chars ok s'
  end.

(** The characters that stand for themselves between double quotes: all but
    the quote, the backslash, the line feed and the carriage return. *)
Definition literal_char (c : ascii) : bool :=
  negb (bool_decide (Py.code c ∈ [34; 92; 10; 13])).

(** The characters that stand for themselves between angle brackets: above
    the space, and none of [<], [>], the quote, the braces, the bar, the
    caret, the grave accent and the backslash. *)
Definition iri_char (c : ascii) : bool :=
  (32 <? Py.code c)
  && negb (bool_decide (Py.code c ∈ [60; 62; 34; 123; 125; 124; 94; 96; 92])).

(** ["{s}"], [<{s}>] and the list ["{s1}", "{s2}", ...]. *)
Definition string_literal (s : string) : option string := pasted literal_char s.
Definition iri_ref (s : string) : option string := pasted iri_char s.
Definition in_list (symptom_names : list string) : option (list string) :=
  mapM string_literal symptom_names.

(** A text that stands for itself between quotes, or between brackets. *)
Definition plain_literal (s : string) : Prop := string_literal s = Some s.
Definition plain_iri (s : string) : Prop := iri_ref s = Some s.

(** A solution of a query, in the order of its [SELECT]. *)
Definition Solution : Type := list (option Node).

(** The five queries that the engine sends, by the parameter it writes into
    their text. *)
Inductive SparqlQuery :=
  | DiseasesBySymptoms (symptom_names : list string)
  | DiseaseSymptoms (disease_uri : string)
  | DiseaseDetailsOf (disease_uri : string)
  | SpecialtyFor (disease_uri : string)
  | PrecautionsFor (disease_uri : string).

(** The patterns below take the terms that the pasted texts stand for:
    [terms] for the list of the filter, [iri] for the text between the
    angle brackets. *)

(** The query of [query_diseases_by_symptoms]:
    [SELECT DISTINCT ?disease ?diseaseName ?description ?urgency]. *)
Definition select_diseases_by_symptoms (g : list Triple) (terms : list string)
    : list (string * Node * option Node * option Node) :=
  remove_dups (
    disease ← instances g (MED "Disease");
    diseaseName ← objects g disease (MED "diseaseName");
    symptom ← object_iris g disease (MED "hasSymptom");
    symptomName ← objects g symptom (MED "symptomName");
    if in_filter symptomName terms then
      description ← optional (objects g disease (MED "description"));
      urgency ← optional (objects g disease (MED "urgencyLevel"));
      [(disease, diseaseName, description, urgency)]
    else []).

(** The query of [_get_disease_symptoms]: [SELECT ?symptomName]. *)
Definition select_disease_symptoms (g : list Triple) (iri : string)
    : list Node :=
  symptom ← object_iris g iri (MED "hasSymptom");
  symptomName ← objects g symptom (MED "symptomName");
  [symptomName].

(** The query of [get_disease_details]:
    [SELECT ?diseaseName ?description ?urgency]. *)
Definition select_disease_details (g : list Triple) (iri : string)
    : list (Node * option Node * option Node) :=
  if bool_decide ((iri, RDF_type, URIRef (MED "Disease")) ∈ g) then
    diseaseName ← objects g iri (MED "diseaseName");
    description ← optional (objects g iri (MED "description"));
    urgency ← optional (objects g iri (MED "urgencyLevel"));
    [(diseaseName, description, urgency)]
  else [].

(** The query of [get_specialty_for_disease]:
    [SELECT ?specialtyName ?department ?location], the department and,
    inside it, the location being optional. *)
Definition select_specialty (g : list Triple) (iri : string)
    : list (Node * option Node * option Node) :=
  specialty ← object_iris g iri (MED "treatedBy");
  specialtyName ← objects g specialty (MED "specialtyName");
  in_dept ← optional (
    dept ← object_iris g specialty (MED "belongsToDepartment");
    department ← objects g dept (MED "departmentName");
    location ← optional (objects g dept (MED "location"));
    [(department, location)]);
  match in_dept : option (Node * option Node) with
  | Some (department, location) => [(specialtyName, Some department, location)]
  | None => [(specialtyName, None, None)]
  end.

(** The query of [get_precautions_for_disease]: [SELECT ?precaution]. *)
Definition select_precautions (g : list Triple) (iri : string)
    : list Node :=
  objects g iri (MED "hasPrecaution").

(** *** Result records *)

(** The [dict] of [get_specialty_for_disease]. *)
Record Specialty := {
  specialty_name : string;
  department : string;
  location : string
}.

(** A disease [dict] as it travels from the query engine through the
    application to the response generator. The keys read with [.get] and a
    default, or tested with [in], are optional; ['specialty'] and
    ['precautions'] are added by the application after ranking, and an
    absent key and a false value are not told apart by any reader. *)
Record Disease := {
  uri : string;
  name : string;
  description : string;
  urgency : option string;
  symptoms : list string;
  matched_symptoms : list string;
  match_score : option Qc;
  match_percentage : option Qc;
  specialty : option Specialty;
  precautions : list string
}.

(** The [dict] of [get_disease_details]. *)
Record DiseaseDetails := {
  details_uri : string;
  details_name : string;
  details_description : string;
  details_urgency : string;
  details_symptoms : list string;
  details_specialty : option Specialty;
  details_precautions : list string
}.

(** The state of a [MedicalKnowledgeGraph]. *)
Record MedicalKnowledgeGraph := {
  graph : list Triple;
  ontology_path : string
}.

(** *** Scoring and ranking *)

Definition Qc_of_nat (n : nat) : Qc := Qc_of_Z (Z.of_nat n).

(** [min(a, b)]: [b] when [b < a], else [a]. *)
Definition Qc_min (a b : Qc) : Qc := if Qc_ltb b a then b else a.

(** [_calculate_match_score]. *)
Definition _calculate_match_score (user_symptoms disease_symptoms : list string) : Qc :=
  if bool_decide (user_symptoms = []) || bool_decide (disease_symptoms = []) then
    Qc_of_nat 0
  else
    let matched : gset string :=
      list_to_set user_symptoms ∩ list_to_set disease_symptoms in
    let match_ratio := (Qc_of_nat (size matched) / Qc_of_nat (length user_symptoms))%Qc in
    let score := (match_ratio * Qc_of_nat 10)%Qc in
    Qc_min score (Qc_of_nat 10).

Definition urgency_priority : list (string * nat) :=
  [("high", 3); ("medium", 2); ("low", 1)].

(** [urgency_priority.get(disease.get('urgency', 'medium').lower(), 2)]. *)
Definition urgency_score (disease : Disease) : nat :=
  default 2 (Py.dict_get (Py.lower (default "medium" (urgency disease)))
                         urgency_priority).

(** [sort_key] of [rank_diseases]. *)
Definition sort_key (disease : Disease) : Qc * nat :=
  let urgency_score := urgency_score disease in
  let match_score := default (Qc_of_nat 0) (match_score disease) in
  (match_score, urgency_score).

(** [<] on the key tuples: lexicographic. *)
Definition sort_key_lt (a b : Qc * nat) : bool :=
  Qc_ltb a.1 b.1 || (bool_decide (a.1 = b.1) && (a.2 <? b.2)).

(** [rank_diseases]: [diseases.sort(key=sort_key, reverse=True)]. *)
Definition rank_diseases (diseases : list Disease) (user_symptoms : list string)
    : list Disease :=
  Py.sort_reverse sort_key sort_key_lt diseases.

(** The match score that [sort_key] reads: [disease.get('match_score', 0)]. *)
Definition score (disease : Disease) : Qc :=
  default (Qc_of_nat 0) (match_score disease).

(** [a] may stand before [b] in a ranking: its score is greater, or the
    scores are equal and its urgency rank is not smaller. *)
Definition ranked_before (a b : Disease) : Prop :=
  (score b < score a)%Qc ∨ (score a = score b ∧ urgency_score b ≤ urgency_score a).

(** The urgency rank of the specification, read on the lower-cased
    urgency: high 3, medium 2, low 1, and 2 for any other or a missing
    urgency. *)
Definition urgency_rank (urgency : option string) : nat :=
  match urgency with
  | None => 2
  | Some u =>
      if String.eqb (Py.lower u) "high" then 3
      else if String.eqb (Py.lower u) "medium" then 2
      else if String.eqb (Py.lower u) "low" then 1
      else 2
  end.

(** The match score as the specification words it, on the set of input
    tokens and the set of symptoms of a disease. *)
Definition clamp (lo hi x : Qc) : Qc :=
  if Qc_ltb x lo then lo else if Qc_ltb hi x then hi else x.

Definition spec_match_score (input_tokens symptoms_of_d : gset string) : Qc :=
  clamp (Qc_of_nat 0) (Qc_of_nat 10)
    (Qc_of_nat (size (input_tokens ∩ symptoms_of_d)) / Qc_of_nat (size input_tokens)
     * Qc_of_nat 10)%Qc.

(** *** The queries of the engine *)

Section QueryEngine.

(** rdflib may reject or fail on a query; [query_error q] is the exception
    it raises on [q], if any. *)
Variable query_error : SparqlQuery -> option exn.

(** What rdflib answers when the text of [q] is not the query that the
    patterns describe, because of what a parameter holds. *)
Variable foreign : SparqlQuery -> list Solution.

(** [self.graph.query(...)] with the rows the query selects. *)
Definition graph_query {A} (q : SparqlQuery) (rows : list A) : result (list A) :=
  match query_error q with
  | Some e => Raise e
  | None => Ok rows
  end.

(** The rows of [q]: those of the patterns, [meant], when the parameters
    stand for terms, and otherwise those of the solutions of rdflib that
    have the shape of a row. *)
Definition rows_of {A} (q : SparqlQuery) (meant : option (list A))
    (shape : Solution -> option A) : list A :=
  match meant with
  | Some rows => rows
  | None => omap shape (foreign q)
  end.

Definition one_term (r : Solution) : option Node :=
  match r with
  | [Some n] => Some n
  | _ => None
  end.

Definition three_terms (r : Solution) : option (Node * option Node * option Node) :=
  match r with
  | [Some n; a; b] => Some (n, a, b)
  | _ => None
  end.

(** A row of the disease query. Whatever the names hold, the patterns
    [?disease rdf:type med:Disease] and [?disease med:diseaseName
    ?diseaseName] stand before them in the group of the query, so every
    solution satisfies them. *)
Definition disease_solution (g : list Triple) (r : Solution)
    : option (string * Node * option Node * option Node) :=
  match r with
  | [Some (URIRef disease); Some diseaseName; description; urgency] =>
      if bool_decide ((disease, RDF_type, URIRef (MED "Disease")) ∈ g
                      ∧ (disease, MED "diseaseName", diseaseName) ∈ g)
      then Some (disease, diseaseName, description, urgency)
      else None
  | _ => None
  end.

(** The rows of the five queries. *)
Definition symptom_rows (self : MedicalKnowledgeGraph) (disease_uri : string)
    : list Node :=
  rows_of (DiseaseSymptoms disease_uri)
          (select_disease_symptoms (graph self) <$> iri_ref disease_uri) one_term.

Definition precaution_rows (self : MedicalKnowledgeGraph) (disease_uri : string)
    : list Node :=
  rows_of (PrecautionsFor disease_uri)
          (select_precautions (graph self) <$> iri_ref disease_uri) one_term.

Definition specialty_rows (self : MedicalKnowledgeGraph) (disease_uri : string)
    : list (Node * option Node * option Node) :=
  rows_of (SpecialtyFor disease_uri)
          (select_specialty (graph self) <$> iri_ref disease_uri) three_terms.

Definition details_rows (self : MedicalKnowledgeGraph) (disease_uri : string)
    : list (Node * option Node * option Node) :=
  rows_of (DiseaseDetailsOf disease_uri)
          (select_disease_details (graph self) <$> iri_ref disease_uri) three_terms.

Definition disease_rows (self : MedicalKnowledgeGraph) (symptom_names : list string)
    : list (string * Node * option Node * option Node) :=
  rows_of (DiseasesBySymptoms symptom_names)
          (select_diseases_by_symptoms (graph self) <$> in_list symptom_names)
          (disease_solution (graph self)).

(** [_get_disease_symptoms]. *)
Definition _get_disease_symptoms (self : MedicalKnowledgeGraph) (disease_uri : string)
    : result (list string) :=
  try_except
    (qres ← graph_query (DiseaseSymptoms disease_uri) (symptom_rows self disease_uri);
     Ok (map node_str qres))
    (fun e => Ok []).

(** [get_precautions_for_disease]. *)
Definition get_precautions_for_disease (self : MedicalKnowledgeGraph)
    (disease_uri : string) : result (list string) :=
  try_except
    (qres ← graph_query (PrecautionsFor disease_uri)
                        (precaution_rows self disease_uri);
     Ok (map node_str qres))
    (fun e => Ok []).

(** [get_specialty_for_disease]. *)
Definition get_specialty_for_disease (self : MedicalKnowledgeGraph)
    (disease_uri : string) : result (option Specialty) :=
  try_except
    (qres ← graph_query (SpecialtyFor disease_uri) (specialty_rows self disease_uri);
     match qres with
     | (specialtyName, department, location) :: _ =>
         Ok (Some {| specialty_name := node_str specialtyName;
                     department := str_or "General" department;
                     location := str_or "Main Building" location |})
     | [] => Ok None
     end)
    (fun e => Ok None).

(** [get_disease_details]. *)
Definition get_disease_details (self : MedicalKnowledgeGraph) (disease_uri : string)
    : result (option DiseaseDetails) :=
  try_except
    (qres ← graph_query (DiseaseDetailsOf disease_uri) (details_rows self disease_uri);
     match qres with
     | (diseaseName, description, urgency) :: _ =>
         symptoms ← _get_disease_symptoms self disease_uri;
         specialty ← get_specialty_for_disease self disease_uri;
         precautions ← get_precautions_for_disease self disease_uri;
         Ok (Some {| details_uri := disease_uri;
                     details_name := node_str diseaseName;
                     details_description := str_or "" description;
                     details_urgency := str_or "medium" urgency;
                     details_symptoms := symptoms;
                     details_specialty := specialty;
                     details_precautions := precautions |})
     | [] => Ok None
     end)
    (fun e => Ok None).

(** The body of the row loop of [query_diseases_by_symptoms]. *)
Definition disease_of_row (self : MedicalKnowledgeGraph) (symptom_names : list string)
    (row : string * Node * option Node * option Node) : result Disease :=
  let '(disease, diseaseName, description, urgency) := row in
  let disease_uri := disease in
  let disease_name := str_or "Unknown" (Some diseaseName) in
  let description := str_or "" description in
  let urgency := str_or "medium" urgency in
  disease_symptoms ← _get_disease_symptoms self disease_uri;
  let match_score := _calculate_match_score symptom_names disease_symptoms in
  Ok {| uri := disease_uri;
        name := disease_name;
        description := description;
        urgency := Some urgency;
        symptoms := disease_symptoms;
        matched_symptoms :=
          filter (fun s => s ∈ disease_symptoms) symptom_names;
        match_score := Some match_score;
        match_percentage := Some (match_score * Qc_of_nat 10)%Qc;
        specialty := None;
        precautions := [] |}.

(** The row loop: [results] grows by one entry per row; an exception
    leaves the loop with the entries appended so far. *)
Fixpoint collect_rows (self : MedicalKnowledgeGraph) (symptom_names : list string)
    (rows : list (string * Node * option Node * option Node))
    (results : list Disease) : list Disease * option exn :=
  match rows with
  | [] => (results, None)
  | row :: rows' =>
      match disease_of_row self symptom_names row with
      | Ok d => collect_rows self symptom_names rows' (results ++ [d])
      | Raise e => (results, Some e)
      end
  end.

(** [query_diseases_by_symptoms]: [results] is what the function holds
    when it leaves the [try] block, ranked if the block completed. *)
Definition query_diseases_by_symptoms (self : MedicalKnowledgeGraph)
    (symptom_names : list string) : result (list Disease) :=
  if bool_decide (symptom_names = []) then Ok []
  else
    match graph_query (DiseasesBySymptoms symptom_names)
                      (disease_rows self symptom_names) with
    | Raise e => Ok []
    | Ok qres =>
        match collect_rows self symptom_names qres [] with
        | (results, None) => Ok (rank_diseases results symptom_names)
        | (results, Some e) => Ok results
        end
    end.

End QueryEngine.

(** A disease is linked to the input when one of its symptoms carries a
    name of the input list. *)
Definition linked_to_input (g : list Triple) (disease_uri : string)
    (symptom_names : list string) : Prop :=
  ∃ symptom n,
    (disease_uri, MED "hasSymptom", URIRef symptom) ∈ g
    ∧ (symptom, MED "symptomName", Literal n) ∈ g
    ∧ n ∈ symptom_names.

(** A disease id is known to the store when the graph types it as a
    disease. *)
Definition known_disease (g : list Triple) (disease_uri : string) : Prop :=
  (disease_uri, RDF_type, URIRef (MED "Disease")) ∈ g.

(** *** Loading *)

(** What [Graph.parse] does with the file at a path: it adds the triples it
    reads to the graph and returns; or it finds no file, and raises
    [FileNotFoundError] before it reads anything; or it raises another
    exception, possibly after it has added the triples read so far. *)
Inductive ParseOutcome :=
  | Parsed (triples : list Triple)
  | FileMissing (msg : string)
  | ParseRaised (msg : string) (added : list Triple).

(** [_load_graph]: the object after the call, the log, and whether the call
    raised. *)
Definition _load_graph (parse : string -> ParseOutcome) (self : MedicalKnowledgeGraph)
    : result MedicalKnowledgeGraph * list LogRecord :=
  let log0 := [(INFO, "Loading medical ontology from " +:+ ontology_path self)] in
  match parse (ontology_path self) with
  | Parsed triples =>
      let self' := {| graph := graph self ++ triples;
                      ontology_path := ontology_path self |} in
      (Ok self',
       log0 ++ [(INFO, "✓ Loaded graph with " +:+ pretty (length (graph self'))
                       +:+ " triples")])
  | FileMissing _ =>
      (Ok self,
       log0 ++ [(ERROR, "Ontology file not found: " +:+ ontology_path self)])
  | ParseRaised msg added =>
      let self' := {| graph := graph self ++ added;
                      ontology_path := ontology_path self |} in
      (Ok self', log0 ++ [(ERROR, "Error loading graph: " +:+ msg)])
  end.

(** [MedicalKnowledgeGraph.__init__]: [getenv] is the value of the
    environment variable [ONTOLOGY_PATH], if set. The namespace bindings
    that follow the load do not change the triples. *)
Definition resolve_ontology_path (getenv : option string)
    (ontology_path : option string) : string :=
  match ontology_path with
  | Some p => p
  | None => default "data/ontology/medical_ontology.ttl" getenv
  end.

Definition MedicalKnowledgeGraph_init (getenv : option string)
    (parse : string -> ParseOutcome) (ontology_path : option string)
    : result MedicalKnowledgeGraph * list LogRecord :=
  let ontology_path := resolve_ontology_path getenv ontology_path in
  _load_graph parse {| graph := []; ontology_path := ontology_path |}.

(** A file system in which no ontology file exists. *)
Definition no_such_file (path : string) : ParseOutcome :=
  FileMissing ("No such file or directory: " +:+ path).

(** ** [llm_engine.py]: response generation *)

Definition nl : string := String "010"%char EmptyString.

(** [_get_system_prompt]. *)
Definition system_prompt_fr : string := "Tu es MedBot, un assistant médical intelligent et empathique basé sur une ontologie médicale.

Ton rôle:
- Analyser les symptômes du patient avec bienveillance
- Fournir des informations médicales préliminaires basées sur le graphe de connaissances
- Recommander la spécialité médicale appropriée
- Toujours encourager la consultation d'un professionnel de santé

IMPORTANT:
- Tu n'es PAS un médecin, tu es un assistant d'orientation
- Tes recommandations sont basées sur des données structurées, pas un diagnostic médical
- En cas d'urgence (douleur thoracique, difficulté respiratoire sévère), recommande une consultation immédiate

Structure ta réponse ainsi:
1. Reconnaissance empathique des symptômes
2. Analyse basée sur les données disponibles
3. Recommandation de spécialité et département
4. Niveau d'urgence
5. Précautions/conseils
6. Encouragement à consulter un professionnel".

Definition system_prompt_en : string := "You are MedBot, an intelligent and empathetic medical assistant based on a medical ontology.

Your role:
- Analyze patient symptoms with compassion
- Provide preliminary medical information based on the knowledge graph
- Recommend the appropriate medical specialty
- Always encourage consultation with a healthcare professional

IMPORTANT:
- You are NOT a doctor, you are a guidance assistant
- Your recommendations are based on structured data, not a medical diagnosis
- In case of emergency (chest pain, severe breathing difficulty), recommend immediate consultation

Structure your response:
1. Empathetic acknowledgment of symptoms
2. Analysis based on available data
3. Specialty and department recommendation
4. Urgency level
5. Precautions/advice
6. Encouragement to consult a professional".

Definition _get_system_prompt (language : string) : string :=
  if String.eqb language "fr" then system_prompt_fr else system_prompt_en.

(** The text-generation collaborator: [llm.invoke(prompt)]. *)
Definition LLM := string -> result string.

(** The state of a [MedBotRAG]: [llm] is [None] when the initialisation of
    the collaborator failed. *)
Record MedBotRAG := {
  llm : option LLM;
  language : string;
  conversation_history : list string
}.

(** [a or b] on an optional string: [None] and the empty string are false. *)
Definition str_or_else (a : option string) (b : string) : string :=
  match a with
  | Some s => if String.eqb s "" then b else s
  | None => b
  end.

Section Response.

(** [format_f digits x] is the text of [f"{x:.<digits>f}"]. *)
Variable format_f : nat -> Qc -> string.

Definition specialty_context (spec : Specialty) : string :=
  "- Spécialité recommandée: " +:+ specialty_name spec +:+ nl
  +:+ "- Département: " +:+ department spec +:+ nl
  +:+ "- Localisation: " +:+ location spec +:+ nl.

(** The text that [format_context] builds for the disease of rank [i]. *)
Definition disease_context (i : nat) (disease : Disease) : string :=
  nl +:+ "Maladie #" +:+ pretty i +:+ ": " +:+ name disease +:+ nl
  +:+ "- Score de correspondance: "
  +:+ format_f 1 (default (Qc_of_nat 0) (match_percentage disease)) +:+ "%" +:+ nl
  +:+ "- Symptômes associés: " +:+ Py.join ", " (take 5 (symptoms disease)) +:+ nl
  +:+ "- Symptômes concordants: " +:+ Py.join ", " (matched_symptoms disease) +:+ nl
  +:+ "- Niveau d'urgence: " +:+ default "moyen" (urgency disease) +:+ nl
  +:+ match specialty disease with
      | Some spec => specialty_context spec
      | None => ""
      end
  +:+ match precautions disease with
      | [] => ""
      | ps => "- Précautions: " +:+ Py.join ", " (take 3 ps) +:+ nl
      end.

(** [format_context]. *)
Definition format_context (query_results : list Disease) : string :=
  match query_results with
  | [] => "Aucune maladie correspondante trouvée dans notre base de données."
  | _ => Py.join nl (imap (fun i d => disease_context (S i) d) (take 3 query_results))
  end.

(** The history lines of the prompt: the last six messages, alternately
    of the patient and of the bot. *)
Definition format_history (history : list string) : string :=
  Py.join nl (imap (fun i msg =>
    (if Nat.even i then "Patient" else "MedBot") +:+ ": " +:+ msg)
    (Py.last_n 6 history)).

Definition full_prompt (lang context history user_input : string) : string :=
  if String.eqb lang "fr" then
    _get_system_prompt lang +:+ nl +:+ nl
    +:+ "Contexte du Graphe de Connaissances:" +:+ nl +:+ context +:+ nl +:+ nl
    +:+ "Historique de conversation:" +:+ nl +:+ history +:+ nl +:+ nl
    +:+ "Patient: " +:+ user_input +:+ nl +:+ nl
    +:+ "Assistant MedBot:"
  else
    _get_system_prompt lang +:+ nl +:+ nl
    +:+ "Knowledge Graph Context:" +:+ nl +:+ context +:+ nl +:+ nl
    +:+ "Conversation History:" +:+ nl +:+ history +:+ nl +:+ nl
    +:+ "Patient: " +:+ user_input +:+ nl +:+ nl
    +:+ "MedBot Assistant:".

Definition no_match_fr : string :=
  "Je n'ai pas trouvé de correspondance exacte pour vos symptômes dans ma base de données." +:+ nl +:+ nl
  +:+ "Je vous recommande de consulter un médecin généraliste qui pourra vous examiner et établir un diagnostic approprié." +:+ nl +:+ nl
  +:+ "Si vos symptômes sont sévères ou s'aggravent, n'hésitez pas à vous rendre aux urgences.".

Definition no_match_en : string :=
  "I couldn't find an exact match for your symptoms in my database." +:+ nl +:+ nl
  +:+ "I recommend consulting a general practitioner who can examine you and make an appropriate diagnosis." +:+ nl +:+ nl
  +:+ "If your symptoms are severe or worsening, don't hesitate to go to the emergency room.".

Definition disclaimer_fr : string :=
  nl +:+ "⚕️ **Important**: Cette analyse est indicative. Consultez un professionnel de santé pour un diagnostic précis.".

Definition disclaimer_en : string :=
  nl +:+ "⚕️ **Important**: This analysis is indicative. Consult a healthcare professional for an accurate diagnosis.".

(** The lines of the precautions loop: [top_disease['precautions'][:3]]. *)
Definition precaution_lines (ps : list string) : string :=
  foldr (fun precaution rest => "   - " +:+ precaution +:+ nl +:+ rest) ""
        (take 3 ps).

Definition specialty_lines (language : string) (spec : option Specialty) : string :=
  match spec with
  | Some spec =>
      if String.eqb language "fr" then
        "   - Spécialité: " +:+ specialty_name spec +:+ nl
        +:+ "   - Département: " +:+ department spec +:+ nl
      else
        "   - Specialty: " +:+ specialty_name spec +:+ nl
        +:+ "   - Department: " +:+ department spec +:+ nl
  | None => ""
  end.

Definition precautions_block (language : string) (ps : list string) : string :=
  match ps with
  | [] => ""
  | _ =>
      nl +:+ (if String.eqb language "fr" then "⚠️ **Précautions**:"
              else "⚠️ **Precautions**:")
      +:+ nl +:+ precaution_lines ps
  end.

(** [_fallback_response]. *)
Definition _fallback_response (query_results : list Disease) (language : string)
    : string :=
  match query_results with
  | [] => if String.eqb language "fr" then no_match_fr else no_match_en
  | top_disease :: _ =>
      if String.eqb language "fr" then
        "Basé sur vos symptômes, voici mon analyse :" +:+ nl +:+ nl
        +:+ "🔍 **Condition possible**: " +:+ name top_disease +:+ nl
        +:+ "   - Correspondance: "
        +:+ format_f 0 (default (Qc_of_nat 0) (match_percentage top_disease)) +:+ "%" +:+ nl
        +:+ "   - Urgence: " +:+ Py.upper (default "moyenne" (urgency top_disease)) +:+ nl +:+ nl
        +:+ "💊 **Recommandation**:" +:+ nl
        +:+ specialty_lines language (specialty top_disease)
        +:+ precautions_block language (precautions top_disease)
        +:+ disclaimer_fr
      else
        "Based on your symptoms, here's my analysis:" +:+ nl +:+ nl
        +:+ "🔍 **Possible Condition**: " +:+ name top_disease +:+ nl
        +:+ "   - Match: "
        +:+ format_f 0 (default (Qc_of_nat 0) (match_percentage top_disease)) +:+ "%" +:+ nl
        +:+ "   - Urgency: " +:+ Py.upper (default "medium" (urgency top_disease)) +:+ nl +:+ nl
        +:+ "💊 **Recommendation**:" +:+ nl
        +:+ specialty_lines language (specialty top_disease)
        +:+ precautions_block language (precautions top_disease)
        +:+ disclaimer_en
  end.

(** The prompt that [generate_response] sends. *)
Definition prompt_of (self : MedBotRAG) (user_input : string)
    (query_results : list Disease) (lang : string) : string :=
  full_prompt lang (format_context query_results)
              (format_history (conversation_history self)) user_input.

(** [generate_response]: the returned text, or the exception that
    leaves the call, and the object after the call. *)
Definition generate_response (self : MedBotRAG) (user_input : string)
    (query_results : list Disease) (language_arg : option string)
    : result string * MedBotRAG :=
  match llm self with
  | None =>
      (Ok (_fallback_response query_results (str_or_else language_arg (language self))),
       self)
  | Some the_llm =>
      let lang := str_or_else language_arg (language self) in
      match the_llm (prompt_of self user_input query_results lang) with
      | Ok response =>
          (Ok response,
           {| llm := llm self; language := language self;
              conversation_history :=
                conversation_history self ++ [user_input; response] |})
      | Raise e => (Ok (_fallback_response query_results lang), self)
      end
  end.

(** The collaborator is unavailable, or its invocation raises. *)
Definition generation_fails (self : MedBotRAG) (user_input : string)
    (query_results : list Disease) (language_arg : option string) : Prop :=
  match llm self with
  | None => True
  | Some the_llm =>
      raises (the_llm (prompt_of self user_input query_results
                                 (str_or_else language_arg (language self))))
  end.

Definition disclaimer (language : string) : string :=
  if String.eqb language "fr" then disclaimer_fr else disclaimer_en.

End Response.

(** ** Notions used in the statements and proofs *)

(** The separator map of the two [replace] calls, on one character. *)
Definition sep_char (c : ascii) : ascii :=
  if Ascii.eqb (if Ascii.eqb c " " then "_"%char else c) "-" then "_"%char
  else if Ascii.eqb c " " then "_"%char else c.

(** A string that does not begin with white space. *)
Definition starts_nonspace (s : string) : Prop :=
  match s with
  | EmptyString => True
  | String c _ => Py.isspace c = false
  end.

(** Every stored entry is stored under its own token. *)
Definition keyed (unique_symptoms : list (string * Extraction)) : Prop :=
  ∀ k v, (k, v) ∈ unique_symptoms → normalized v = k.

(** ** Sample data *)

(** A store with two diseases: one of low urgency with three symptoms, one
    of high urgency with one symptom. *)
Definition sample_graph : list Triple :=
  let d := "http://medbot.org/instances#Disease_Fungal_infection" in
  let m := "http://medbot.org/instances#Disease_Malaria" in
  let s n := "http://medbot.org/instances#Sym_" +:+ n in
  [ (d, RDF_type, URIRef (MED "Disease"));
    (d, MED "diseaseName", Literal "Fungal infection");
    (d, MED "urgencyLevel", Literal "low");
    (d, MED "hasSymptom", URIRef (s "skin_rash"));
    (d, MED "hasSymptom", URIRef (s "itching"));
    (d, MED "hasSymptom", URIRef (s "nodal_skin_eruptions"));
    (s "skin_rash", MED "symptomName", Literal "skin_rash");
    (s "itching", MED "symptomName", Literal "itching");
    (s "nodal_skin_eruptions", MED "symptomName", Literal "nodal_skin_eruptions");
    (m, RDF_type, URIRef (MED "Disease"));
    (m, MED "diseaseName", Literal "Malaria");
    (m, MED "urgencyLevel", Literal "high");
    (m, MED "hasSymptom", URIRef (s "fever"));
    (s "fever", MED "symptomName", Literal "fever");
    (m, MED "treatedBy", URIRef "http://medbot.org/instances#Spec_Internal_Medicine");
    ("http://medbot.org/instances#Spec_Internal_Medicine", MED "specialtyName",
     Literal "Internal Medicine") ].

Definition sample_kg : MedicalKnowledgeGraph :=
  {| graph := sample_graph; ontology_path := "medical_ontology.ttl" |}.

(** A symptom name and a disease id that spell one character as a code
    point escape: a backslash, the letter u and four hexadecimal digits.
    The code point 0076 is the letter v, and 0061 the letter a. *)
Definition backslash : string := String (ascii_of_nat 92) EmptyString.

Definition escaped_fever : string := "fe" +:+ backslash +:+ "u0076er".

Definition escaped_malaria_id : string :=
  "http://medbot.org/instances#Disease_Malari" +:+ backslash +:+ "u0061".

(** The mock result of the engine's own test, and an engine whose
    collaborator refuses the connection. *)
Definition sample_disease : Disease :=
  {| uri := "http://medbot.org/instances#Disease_Fungal_infection";
     name := "Fungal infection";
     description := "";
     urgency := Some "low";
     symptoms := ["skin_rash"; "itching"; "nodal_skin_eruptions"];
     matched_symptoms := ["skin_rash"; "itching"];
     match_score := Some (dec 85 10);
     match_percentage := Some (dec 85 1);
     specialty := Some {| specialty_name := "Dermatology";
                          department := "Skin Department";
                          location := "Building A, 3rd Floor" |};
     precautions := ["bath twice"; "use detol or neem in bathing water";
                     "keep infected area dry"; "use clean cloths"] |}.

Definition sample_rag : MedBotRAG :=
  {| llm := Some (λ _, Raise (Exception "connection refused"));
     language := "fr";
     conversation_history := [] |}.

(** A formatter for the examples: the text of 85, whatever the digits. *)
Definition sample_format_f (digits : nat) (x : Qc) : string := "85".

(** An extractor with a three-word vocabulary, an English model that
    finds one noun chunk, and no French model. *)
Definition sample_extractor : SymptomExtractor :=
  {| nlp_fr := None;
     nlp_en := Some (λ _, ["a headache"]);
     symptoms_dict := [("headache", "headache"); ("skin_rash", "skin_rash");
                       ("fever", "fever")];
     symptom_synonyms := symptom_synonyms_table |}.

(** The same extractor without the token [headache]. *)
Definition sample_extractor_small : SymptomExtractor :=
  {| nlp_fr := None;
     nlp_en := None;
     symptoms_dict := [("skin_rash", "skin_rash"); ("fever", "fever")];
     symptom_synonyms := symptom_synonyms_table |}.

(** * Further code of the sources

    The functions of the cited files that the statements above do not reach,
    with the notions their properties are stated in. *)

(** ** [query_engine.py]: further notions *)

(** Every input token is a symptom of the disease. *)
Definition all_found (user_symptoms disease_symptoms : list string) : Prop :=
  ∀ s, s ∈ user_symptoms → s ∈ disease_symptoms.

(** No input token is a symptom of the disease. *)
Definition none_found (user_symptoms disease_symptoms : list string) : Prop :=
  ∀ s, s ∈ user_symptoms → s ∉ disease_symptoms.

(** ** [query_engine.py]: statistics, search and listings *)

(** The queries of the engine that take no disease IRI. The search text is
    written into the text of the query between double quotes. *)
Inductive UtilityQuery :=
  | CountInstances (cls : string)
  | SearchByName (disease_name : string)
  | AllSpecialties
  | AllDepartments.

(** The [dict] of [get_graph_statistics]. *)
Record GraphStatistics := {
  stats_total_triples : nat;
  stats_diseases : nat;
  stats_symptoms : nat;
  stats_specialties : nat;
  stats_departments : nat
}.

(** The [dict]s of [search_by_disease_name]. *)
Record SearchHit := {
  hit_uri : string;
  hit_name : string;
  hit_description : string
}.

(** The [dict]s of [get_all_departments]. *)
Record DepartmentInfo := {
  dept_name : string;
  dept_location : string
}.

(** [len(graph)]: the number of distinct triples. *)
Definition graph_len (g : list Triple) : nat := length (remove_dups g).

(** The order of [ORDER BY] on terms: IRIs before literals, and two terms
    of one kind by their texts, character codes compared from the left. *)
Definition node_leb (a b : Node) : bool :=
  match a, b with
  | URIRef _, Literal _ => true
  | Literal _, URIRef _ => false
  | URIRef x, URIRef y | Literal x, Literal y => String.leb x y
  end.

Definition node_le (a b : Node) : Prop := node_leb a b = true.

Global Instance node_le_dec : RelDecision node_le.
Proof. intros a b. unfold node_le. apply _. Defined.

(** The order of the rows of [get_all_departments]: by the name. *)
Definition dept_row_le (r1 r2 : Node * option Node) : Prop := node_le r1.1 r2.1.

Global Instance dept_row_le_dec : RelDecision dept_row_le.
Proof. intros a b. unfold dept_row_le. apply _. Defined.

(** [FILTER(CONTAINS(LCASE(?diseaseName), LCASE("text")))]: only a literal
    has a lower case. *)
Definition name_contains (diseaseName : Node) (disease_name : string) : bool :=
  match diseaseName with
  | Literal n => Py.contains (Py.lower disease_name) (Py.lower n)
  | URIRef _ => false
  end.

(** The query of [search_by_disease_name]:
    [SELECT ?disease ?diseaseName ?description], for the string that the
    text between the quotes stands for. *)
Definition select_search (g : list Triple) (disease_name : string)
    : list (string * Node * option Node) :=
  disease ← instances g (MED "Disease");
  diseaseName ← objects g disease (MED "diseaseName");
  if name_contains diseaseName disease_name then
    description ← optional (objects g disease (MED "description"));
    [(disease, diseaseName, description)]
  else [].

(** A row of the search. The patterns [?disease rdf:type med:Disease] and
    [?disease med:diseaseName ?diseaseName] stand before the search text in
    the group of the query, so every solution satisfies them. *)
Definition search_solution (g : list Triple) (r : Solution)
    : option (string * Node * option Node) :=
  match r with
  | [Some (URIRef disease); Some diseaseName; description] =>
      if bool_decide ((disease, RDF_type, URIRef (MED "Disease")) ∈ g
                      ∧ (disease, MED "diseaseName", diseaseName) ∈ g)
      then Some (disease, diseaseName, description)
      else None
  | _ => None
  end.

(** The query of [get_all_specialties]:
    [SELECT DISTINCT ?specialtyName ... ORDER BY ?specialtyName], over the
    nodes of type [med:Specialty]. *)
Definition select_all_specialties (g : list Triple) : list Node :=
  merge_sort node_le (remove_dups (
    specialty ← instances g (MED "Specialty");
    objects g specialty (MED "specialtyName"))).

(** The query of [get_all_departments]:
    [SELECT ?deptName ?location ... ORDER BY ?deptName]. *)
Definition select_all_departments (g : list Triple) : list (Node * option Node) :=
  merge_sort dept_row_le (
    dept ← instances g (MED "Department");
    deptName ← objects g dept (MED "departmentName");
    location ← optional (objects g dept (MED "location"));
    [(deptName, location)]).

Section UtilityQueries.

(** The exception that rdflib raises on a query, if any. *)
Variable utility_error : UtilityQuery → option exn.

(** What rdflib answers to a search whose text is not the query that the
    patterns describe, because of what the search text holds. *)
Variable utility_foreign : UtilityQuery → list Solution.

Definition utility_query {A} (q : UtilityQuery) (rows : list A) : result (list A) :=
  match utility_error q with
  | Some e => Raise e
  | None => Ok rows
  end.

(** One count of [get_graph_statistics]:
    [SELECT (COUNT(DISTINCT ?x) as ?count) WHERE { ?x rdf:type cls }], read
    from the first row when there is one. *)
Definition count_instances (self : MedicalKnowledgeGraph) (cls : string)
    (initial : nat) : result nat :=
  result ← utility_query (CountInstances cls) [length (instances (graph self) cls)];
  match result with
  | count :: _ => Ok count
  | [] => Ok initial
  end.

(** [get_graph_statistics]: no handler surrounds the four queries. *)
Definition get_graph_statistics (self : MedicalKnowledgeGraph) : result GraphStatistics :=
  diseases ← count_instances self (MED "Disease") 0;
  symptoms ← count_instances self (MED "Symptom") 0;
  specialties ← count_instances self (MED "MedicalSpecialty") 0;
  departments ← count_instances self (MED "Department") 0;
  Ok {| stats_total_triples := graph_len (graph self);
        stats_diseases := diseases;
        stats_symptoms := symptoms;
        stats_specialties := specialties;
        stats_departments := departments |}.

(** The rows of the search: ten at most, by the [LIMIT 10] that follows
    the group of the query. *)
Definition search_rows (self : MedicalKnowledgeGraph) (disease_name : string)
    : list (string * Node * option Node) :=
  take 10 (match string_literal disease_name with
           | Some text => select_search (graph self) text
           | None => omap (search_solution (graph self))
                          (utility_foreign (SearchByName disease_name))
           end).

(** [search_by_disease_name]. *)
Definition search_by_disease_name (self : MedicalKnowledgeGraph) (disease_name : string)
    : result (list SearchHit) :=
  try_except
    (qres ← utility_query (SearchByName disease_name)
                          (search_rows self disease_name);
     Ok (map (λ row : string * Node * option Node,
                let '(disease, diseaseName, description) := row in
                {| hit_uri := disease;
                   hit_name := node_str diseaseName;
                   hit_description := str_or "" description |}) qres))
    (fun e => Ok []).

(** [get_all_specialties]. *)
Definition get_all_specialties (self : MedicalKnowledgeGraph) : result (list string) :=
  try_except
    (qres ← utility_query AllSpecialties (select_all_specialties (graph self));
     Ok (map node_str qres))
    (fun e => Ok []).

(** [get_all_departments]. *)
Definition get_all_departments (self : MedicalKnowledgeGraph)
    : result (list DepartmentInfo) :=
  try_except
    (qres ← utility_query AllDepartments (select_all_departments (graph self));
     Ok (map (λ row : Node * option Node,
                {| dept_name := node_str row.1;
                   dept_location := str_or "Unknown" row.2 |}) qres))
    (fun e => Ok []).

End UtilityQueries.

(** ** [nlp_processor.py]: building the extractor *)

(** An element of a disease's ["symptoms"] list in the medical data: a
    dictionary, seen through its ['name'] entry (a string when present), a
    string, or another JSON value. *)
Inductive SymptomEntry :=
  | SymptomDict (entry_name : option string)
  | SymptomStr (s : string)
  | SymptomOther.

Record DiseaseEntry := { entry_symptoms : list SymptomEntry }.

(** The medical data, seen through [medical_data.get("diseases", [])]. *)
Record MedicalData := { diseases : list DiseaseEntry }.

(** What one element of a ["symptoms"] list adds to [all_symptoms]. *)
Definition symptom_names_of (symptom : SymptomEntry) : list string :=
  match symptom with
  | SymptomDict entry_name =>
      let symptom_name := default "" entry_name in
      if String.eqb symptom_name "" then [] else [symptom_name]
  | SymptomStr s => [s]
  | SymptomOther => []
  end.

(** The set [all_symptoms] of [_build_symptom_dictionaries]. *)
Definition all_symptoms (medical_data : MedicalData) : gset string :=
  list_to_set (disease ← diseases medical_data;
               symptom ← entry_symptoms disease;
               symptom_names_of symptom).

(** [_load_medical_data]: [read_json path] is [json.load] on the opened
    file. Only [FileNotFoundError] is handled. *)
Definition _load_medical_data (read_json : string → result MedicalData)
    (data_path : string) : result MedicalData * list LogRecord :=
  match read_json data_path with
  | Ok medical_data =>
      (Ok medical_data, [(INFO, "✓ Loaded medical data from " +:+ data_path)])
  | Raise (FileNotFoundError _) =>
      (Ok {| diseases := [] |},
       [(ERROR, "Medical data file not found: " +:+ data_path)])
  | Raise e => (Raise e, [])
  end.

Section Build.

(** The order in which Python iterates over a set. *)
Variable set_iter : gset string → list string.

(** [_build_symptom_dictionaries]. *)
Definition _build_symptom_dictionaries (self : SymptomExtractor)
    (medical_data : MedicalData) : SymptomExtractor :=
  let symptoms_dict :=
    fold_left (λ d symptom, Py.dict_set (_normalize_symptom_name symptom) symptom d)
              (set_iter (all_symptoms medical_data)) (symptoms_dict self) in
  {| nlp_fr := nlp_fr self;
     nlp_en := nlp_en self;
     symptoms_dict := symptoms_dict;
     symptom_synonyms := symptom_synonyms_table |}.

(** [SymptomExtractor.__init__]: [getenv] is the value of the environment
    variable [DATA_PATH], if set, and [load_model name] is
    [spacy.load(name)], [None] when it raises [OSError]. *)
Definition resolve_data_path (getenv : option string) (data_path : option string)
    : string :=
  match data_path with
  | Some p => p
  | None => default "data/processed/consolidated_medical_data.json" getenv
  end.

Definition SymptomExtractor_init (getenv : option string)
    (read_json : string → result MedicalData)
    (load_model : string → option Chunker) (data_path : option string)
    : result SymptomExtractor :=
  let data_path := resolve_data_path getenv data_path in
  medical_data ← (_load_medical_data read_json data_path).1;
  let self := {| nlp_fr := load_model "fr_core_news_sm";
                 nlp_en := load_model "en_core_web_sm";
                 symptoms_dict := [];
                 symptom_synonyms := [] |} in
  Ok (_build_symptom_dictionaries self medical_data).

End Build.

(** The language that [extract_symptoms] works with. *)
Definition resolve_language (text : string) (language : option string) : string :=
  match language with
  | None => detect_language text
  | Some l => l
  end.

(** [get_all_symptoms]. *)
Definition get_all_symptoms (self : SymptomExtractor) : list string :=
  Py.dict_values (symptoms_dict self).

(** The confidence that each method assigns. *)
Definition full_methods : list (string * Qc) :=
  [("exact_match", conf_0_9); ("synonym_match", conf_0_85); ("noun_chunk", conf_0_7)].

Definition fallback_methods : list (string * Qc) :=
  [("keyword_match", conf_0_8); ("synonym_keyword", conf_0_75)].

(** An extractor before its vocabulary is built. *)
Definition sample_fresh_extractor : SymptomExtractor :=
  {| nlp_fr := None; nlp_en := None; symptoms_dict := []; symptom_synonyms := [] |}.

(** Medical data with two diseases that share a symptom, in the two shapes
    a symptom can have. *)
Definition sample_medical_data : MedicalData :=
  {| diseases :=
       [ {| entry_symptoms := [SymptomDict (Some "Skin Rash"); SymptomStr "itching"] |};
         {| entry_symptoms := [SymptomStr "itching"; SymptomDict (Some "high-fever");
                               SymptomDict None; SymptomOther] |} ] |}.

(** ** [llm_engine.py]: the conversation *)

(** [MedBotRAG.__init__] with [_initialize_llm]: [connect] is the
    construction of the Ollama client, whose exception leaves [llm] at
    [None]. *)
Definition MedBotRAG_init (connect : result LLM) (language : string) : MedBotRAG :=
  {| llm := match connect with Ok the_llm => Some the_llm | Raise _ => None end;
     language := language;
     conversation_history := [] |}.

(** [reset_conversation] and [get_conversation_history]. *)
Definition reset_conversation (self : MedBotRAG) : MedBotRAG :=
  {| llm := llm self; language := language self; conversation_history := [] |}.

Definition get_conversation_history (self : MedBotRAG) : list string :=
  conversation_history self.

(** The calls that change a [MedBotRAG], and the object after a sequence of
    them. *)
Inductive Call :=
  | Generate (user_input : string) (query_results : list Disease)
             (language_arg : option string)
  | ResetConversation.

Definition call (format_f : nat → Qc → string) (self : MedBotRAG) (c : Call)
    : MedBotRAG :=
  match c with
  | Generate user_input query_results language_arg =>
      (generate_response format_f self user_input query_results language_arg).2
  | ResetConversation => reset_conversation self
  end.

Definition session (format_f : nat → Qc → string) (self : MedBotRAG)
    (calls : list Call) : MedBotRAG :=
  fold_left (call format_f) calls self.

(** The messages of a list of exchanges, each a patient's message and the
    answer to it. *)
Definition messages_of (exchanges : list (string * string)) : list string :=
  exchanges ≫= λ x, [x.1; x.2].

(** What [format_context] reads of an entry: five symptoms and three
    precautions at most, and neither IRI, description nor score. *)
Definition context_view (d : Disease) : Disease :=
  {| uri := "";
     name := name d;
     description := "";
     urgency := urgency d;
     symptoms := take 5 (symptoms d);
     matched_symptoms := matched_symptoms d;
     match_score := None;
     match_percentage := match_percentage d;
     specialty := specialty d;
     precautions := take 3 (precautions d) |}.

(** ** [app/main.py]: one message of the chat

    The handler of a chat message in [main], without the display: the
    extraction, the query, the enrichment of the first three entries and
    the generation, inside the handler's [try]. *)

(** What the chat shows and keeps after a message: the text, the entries
    stored with it, and the generation engine. *)
Record Turn := {
  turn_response : string;
  turn_diseases : list Disease;
  turn_rag : MedBotRAG
}.

Definition no_symptoms_message (language : string) : string :=
  if String.eqb language "fr"
  then "Je n'ai pas pu identifier de symptômes spécifiques. Pouvez-vous décrire vos symptômes plus précisément ?"
  else "I couldn't identify specific symptoms. Can you describe your symptoms more precisely?".

Definition error_message (language : string) (e : exn) : string :=
  (if String.eqb language "fr" then "Erreur lors du traitement: "
   else "Error processing: ") +:+ exn_message e.

(** The entries agree on all that the query computed. *)
Definition same_match (d d' : Disease) : Prop :=
  uri d' = uri d ∧ name d' = name d ∧ description d' = description d
  ∧ urgency d' = urgency d ∧ symptoms d' = symptoms d
  ∧ matched_symptoms d' = matched_symptoms d
  ∧ match_score d' = match_score d ∧ match_percentage d' = match_percentage d.

Section Chat.
Variable query_error : SparqlQuery → option exn.
Variable foreign : SparqlQuery → list Solution.
Variable format_f : nat → Qc → string.

(** The body of the loop [for disease in diseases[:3]]. *)
Definition enrich (knowledge_graph : MedicalKnowledgeGraph) (disease : Disease)
    : result Disease :=
  details ← get_disease_details query_error foreign knowledge_graph (uri disease);
  match details with
  | Some details =>
      Ok {| uri := uri disease;
            name := name disease;
            description := description disease;
            urgency := urgency disease;
            symptoms := symptoms disease;
            matched_symptoms := matched_symptoms disease;
            match_score := match_score disease;
            match_percentage := match_percentage disease;
            specialty := details_specialty details;
            precautions := details_precautions details |}
  | None => Ok disease
  end.

Definition process_message (symptom_extractor : SymptomExtractor)
    (knowledge_graph : MedicalKnowledgeGraph) (rag_engine : MedBotRAG)
    (language : string) (prompt : string) : Turn :=
  let failed e rag :=
    {| turn_response := error_message language e; turn_diseases := [];
       turn_rag := rag |} in
  let symptoms := extract_symptoms symptom_extractor prompt (Some language) in
  match symptoms with
  | [] =>
      {| turn_response := no_symptoms_message language; turn_diseases := [];
         turn_rag := rag_engine |}
  | _ =>
      let symptom_names := normalized <$> symptoms in
      match query_diseases_by_symptoms query_error foreign knowledge_graph symptom_names with
      | Raise e => failed e rag_engine
      | Ok diseases =>
          match mapM (enrich knowledge_graph) (take 3 diseases) with
          | Raise e => failed e rag_engine
          | Ok top =>
              let diseases := top ++ drop 3 diseases in
              match generate_response format_f rag_engine prompt diseases
                                      (Some language) with
              | (Ok response, rag) =>
                  {| turn_response := response; turn_diseases := take 3 diseases;
                     turn_rag := rag |}
              | (Raise e, rag) => failed e rag
              end
          end
      end
  end.

End Chat.

(** ** [build_graph.py]: the graph of the medical data *)

Definition INST (local : string) : string := "http://medbot.org/instances#" +:+ local.
Definition OWL (local : string) : string := "http://www.w3.org/2002/07/owl#" +:+ local.
Definition RDFS (local : string) : string :=
  "http://www.w3.org/2000/01/rdf-schema#" +:+ local.
Definition XSD (local : string) : string := "http://www.w3.org/2001/XMLSchema#" +:+ local.

(** [s.replace(old, new)] for a one-character [old]. *)
Fixpoint replace_char (old : ascii) (new : string) (s : string) : string :=
  match s with
  | EmptyString => EmptyString
  | String c s' =>
      if Ascii.eqb c old then new +:+ replace_char old new s'
      else String c (replace_char old new s')
  end.

(** [g.add(t)]: a graph is a set of triples. *)
Definition graph_add (g : list Triple) (t : Triple) : list Triple :=
  if bool_decide (t ∈ g) then g else g ++ [t].

Definition graph_add_all (g : list Triple) (ts : list Triple) : list Triple :=
  fold_left graph_add ts g.

(** [create_ontology_structure]. Literals are held by their lexical form:
    the language tag of the labels is left out. *)
Definition ontology_classes : list (string * string) :=
  [("Disease", "Maladie"); ("Symptom", "Symptôme");
   ("MedicalSpecialty", "Spécialité Médicale");
   ("Department", "Département Hospitalier")].

Definition ontology_data_props : list (string * string) :=
  [("diseaseName", XSD "string"); ("urgencyLevel", XSD "string");
   ("symptomName", XSD "string"); ("severityLevel", XSD "integer");
   ("departmentName", XSD "string"); ("location", XSD "string");
   ("floor", XSD "string"); ("availableSlots", XSD "integer")].

Definition object_property (prop domain range : string) : list Triple :=
  [(MED prop, RDF_type, URIRef (OWL "ObjectProperty"));
   (MED prop, RDFS "domain", URIRef (MED domain));
   (MED prop, RDFS "range", URIRef (MED range))].

Definition create_ontology_structure (g : list Triple) : list Triple :=
  let g := graph_add g ("http://medbot.org/ontology", RDF_type, URIRef (OWL "Ontology")) in
  let g := fold_left (λ g (c : string * string),
             graph_add_all g [(MED c.1, RDF_type, URIRef (OWL "Class"));
                              (MED c.1, RDFS "label", Literal c.2)])
             ontology_classes g in
  let g := graph_add_all g (object_property "hasSymptom" "Disease" "Symptom") in
  let g := graph_add_all g (object_property "treatedBy" "Disease" "MedicalSpecialty") in
  let g := graph_add_all g
             (object_property "belongsToDepartment" "MedicalSpecialty" "Department") in
  fold_left (λ g (p : string * string),
     graph_add_all g [(MED p.1, RDF_type, URIRef (OWL "DatatypeProperty"));
                      (MED p.1, RDFS "range", URIRef p.2)])
    ontology_data_props g.

(** The consolidated medical data as [populate_knowledge_graph] reads it:
    every record has the keys that [data_processing.py] writes;
    ['available_slots'] is read with a default. *)
Record DepartmentRow := {
  row_Department : string;
  row_Location : string;
  row_Floor : string
}.

Record SymptomRecord := {
  sym_name : string;
  sym_severity : Z
}.

Record DiseaseRecord := {
  rec_disease : string;
  rec_symptoms : list SymptomRecord;
  rec_specialty : string;
  rec_department : string;
  rec_urgency : string;
  rec_available_slots : option Z
}.

Record ConsolidatedData := {
  data_departments : list DepartmentRow;
  data_diseases : list DiseaseRecord
}.

(** The same data as the symptom extractor reads it. *)
Definition medical_data_of (data : ConsolidatedData) : MedicalData :=
  {| diseases :=
       (λ d, {| entry_symptoms :=
                  (λ s, SymptomDict (Some (sym_name s))) <$> rec_symptoms d |})
       <$> data_diseases data |}.

(** The IRIs that [populate_knowledge_graph] mints. *)
Definition dept_uri_of (department : string) : string :=
  INST ("Dept_" +:+ replace_char "&" "and" (Py.replace " " "_" department)).

Definition dis_uri_of (disease : string) : string :=
  INST ("Disease_" +:+ replace_char ")" "" (replace_char "(" "" (Py.replace " " "_" disease))).

Definition spec_uri_of (spec_name : string) : string :=
  INST ("Spec_" +:+ Py.replace " " "_" spec_name).

Definition sym_uri_of (symptom_name : string) : string :=
  INST ("Sym_" +:+ replace_char "'" ""
                     (replace_char ")" ""
                        (replace_char "(" "" (Py.replace " " "_" symptom_name)))).

(** The state of [populate_knowledge_graph]: the graph and the two caches. *)
Record Populate := {
  pg : list Triple;
  dept_cache : list (string * string);
  spec_cache : list (string * string)
}.

(** Step 1, the body of [for d in data['departments']]. *)
Definition add_department (st : Populate) (d : DepartmentRow) : Populate :=
  let dept_uri := dept_uri_of (row_Department d) in
  {| pg := graph_add_all (pg st)
             [(dept_uri, RDF_type, URIRef (MED "Department"));
              (dept_uri, MED "departmentName", Literal (row_Department d));
              (dept_uri, MED "location", Literal (row_Location d));
              (dept_uri, MED "floor", Literal (row_Floor d))];
     dept_cache := Py.dict_set (row_Department d) dept_uri (dept_cache st);
     spec_cache := spec_cache st |}.

(** The body of [for s in d['symptoms']]. *)
Definition add_symptom (dis_uri : string) (g : list Triple) (s : SymptomRecord)
    : list Triple :=
  let sym_uri := sym_uri_of (sym_name s) in
  graph_add_all g
    [(sym_uri, RDF_type, URIRef (MED "Symptom"));
     (sym_uri, MED "symptomName", Literal (sym_name s));
     (sym_uri, MED "severityLevel", Literal (pretty (sym_severity s)));
     (dis_uri, MED "hasSymptom", URIRef sym_uri)].

(** Step 2, the body of [for d in data['diseases']]. *)
Definition add_disease (st : Populate) (d : DiseaseRecord) : Populate :=
  let dis_uri := dis_uri_of (rec_disease d) in
  let g := graph_add_all (pg st)
             [(dis_uri, RDF_type, URIRef (MED "Disease"));
              (dis_uri, MED "diseaseName", Literal (rec_disease d));
              (dis_uri, MED "urgencyLevel", Literal (rec_urgency d))] in
  let spec_name := rec_specialty d in
  let '(g, spec_cache, spec_uri) :=
    match Py.dict_get spec_name (spec_cache st) with
    | Some spec_uri => (g, spec_cache st, spec_uri)
    | None =>
        let spec_uri := spec_uri_of spec_name in
        let g := graph_add_all g
                   [(spec_uri, RDF_type, URIRef (MED "MedicalSpecialty"));
                    (spec_uri, MED "specialtyName", Literal spec_name)] in
        let target_dept := rec_department d in
        let g :=
          match Py.dict_get target_dept (dept_cache st) with
          | Some dept_uri =>
              graph_add_all g
                [(spec_uri, MED "belongsToDepartment", URIRef dept_uri);
                 (dept_uri, MED "availableSlots",
                  Literal (pretty (default 0%Z (rec_available_slots d))))]
          | None => g
          end in
        (g, Py.dict_set spec_name spec_uri (spec_cache st), spec_uri)
    end in
  let g := graph_add g (dis_uri, MED "treatedBy", URIRef spec_uri) in
  {| pg := fold_left (add_symptom dis_uri) (rec_symptoms d) g;
     dept_cache := dept_cache st;
     spec_cache := spec_cache |}.

(** [populate_knowledge_graph]. *)
Definition populate_knowledge_graph (g : list Triple) (data : ConsolidatedData)
    : list Triple :=
  let st := {| pg := g; dept_cache := []; spec_cache := [] |} in
  let st := fold_left add_department (data_departments data) st in
  let st := fold_left add_disease (data_diseases data) st in
  pg st.

(** The graph that [main] of [build_graph.py] serialises. *)
Definition build_graph (data : ConsolidatedData) : list Triple :=
  populate_knowledge_graph (create_ontology_structure []) data.

(** The symptom records of the data. *)
Definition data_symptoms (data : ConsolidatedData) : list SymptomRecord :=
  d ← data_diseases data; rec_symptoms d.

(** A string without the character [c]. *)
Fixpoint lacks (c : ascii) (s : string) : bool :=
  match s with
  | EmptyString => true
  | String c' s' => negb (Ascii.eqb c' c) && lacks c s'
  end.

(** Data of two diseases: a symptom name of one word and one of two. *)
Definition sample_data : ConsolidatedData :=
  {| data_departments :=
       [{| row_Department := "Dermatology & Skin"; row_Location := "Building A";
           row_Floor := "3" |}];
     data_diseases :=
       [{| rec_disease := "fungal infection";
           rec_symptoms := [{| sym_name := "itching"; sym_severity := 1 |};
                            {| sym_name := "skin rash"; sym_severity := 3 |}];
           rec_specialty := "Dermatology";
           rec_department := "Dermatology & Skin";
           rec_urgency := "low";
           rec_available_slots := Some 12%Z |};
        {| rec_disease := "malaria";
           rec_symptoms := [{| sym_name := "high fever"; sym_severity := 7 |}];
           rec_specialty := "Internal Medicine";
           rec_department := "Internal Medicine";
           rec_urgency := "high";
           rec_available_slots := None |}] |}.

(** The classes of the subjects of a built graph. *)
Definition graph_classes : list Node :=
  [URIRef (MED "Department"); URIRef (MED "Disease");
   URIRef (MED "MedicalSpecialty"); URIRef (MED "Symptom");
   URIRef (OWL "Ontology"); URIRef (OWL "Class");
   URIRef (OWL "ObjectProperty"); URIRef (OWL "DatatypeProperty")].

(** What a triple of the graph of [data] can be, by its predicate: a type
    triple names one of the classes above, a symptom name is the name of a
    symptom record under the IRI minted for it, and a symptom link goes from
    the IRI of a disease record to the IRI of one of its symptoms. *)
Definition triple_of_data (data : ConsolidatedData) (t : Triple) : Prop :=
  (t.1.2 = RDF_type → t.2 ∈ graph_classes)
  ∧ (t.1.2 = MED "symptomName" →
     ∃ sr, sr ∈ data_symptoms data
           ∧ t.1.1 = sym_uri_of (sym_name sr) ∧ t.2 = Literal (sym_name sr))
  ∧ (t.1.2 = MED "hasSymptom" →
     ∃ d sr, d ∈ data_diseases data ∧ sr ∈ rec_symptoms d
             ∧ t.1.1 = dis_uri_of (rec_disease d)
             ∧ t.2 = URIRef (sym_uri_of (sym_name sr))).

(** The check of the three cases on a triple of the schema. *)
Definition schema_triple (t : Triple) : bool :=
  (if String.eqb t.1.2 RDF_type then bool_decide (t.2 ∈ graph_classes) else true)
  && negb (String.eqb t.1.2 (MED "symptomName"))
  && negb (String.eqb t.1.2 (MED "hasSymptom")).

(** The specialty cache holds the IRI minted for each name, and the graph
    the name of each cached specialty. *)
Definition spec_cache_ok (st : Populate) : Prop :=
  ∀ n u, Py.dict_get n (spec_cache st) = Some u →
    (u, MED "specialtyName", Literal n) ∈ pg st
    ∧ (u, RDF_type, URIRef (MED "MedicalSpecialty")) ∈ pg st.

(** What the graph holds of a disease record once the loop over the
    diseases has run. *)
Definition disease_written (built : list Triple) (d : DiseaseRecord) : Prop :=
  known_disease built (dis_uri_of (rec_disease d))
  ∧ (dis_uri_of (rec_disease d), MED "diseaseName", Literal (rec_disease d)) ∈ built
  ∧ (dis_uri_of (rec_disease d), MED "urgencyLevel", Literal (rec_urgency d)) ∈ built
  ∧ (∃ spec_uri,
       (dis_uri_of (rec_disease d), MED "treatedBy", URIRef spec_uri) ∈ built
       ∧ (spec_uri, MED "specialtyName", Literal (rec_specialty d)) ∈ built
       ∧ (spec_uri, RDF_type, URIRef (MED "MedicalSpecialty")) ∈ built)
  ∧ ∀ s, s ∈ rec_symptoms d →
      (dis_uri_of (rec_disease d), MED "hasSymptom",
       URIRef (sym_uri_of (sym_name s))) ∈ built
      ∧ (sym_uri_of (sym_name s), MED "symptomName", Literal (sym_name s)) ∈ built.

(** ** [data_processing.py]: the names of the data *)

(** [re.sub(r'\s+', ' ', text)]: each maximal run of white space becomes one
    space; [in_run] tells that the character before was white space. *)
Fixpoint sub_whitespace (in_run : bool) (text : string) : string :=
  match text with
  | EmptyString => EmptyString
  | String c text' =>
      if Py.isspace c then
        if in_run then sub_whitespace true text'
        else String " " (sub_whitespace true text')
      else String c (sub_whitespace false text')
  end.

Definition corrections : list (string * string) :=
  [("peptic ulcer diseae", "peptic ulcer disease");
   ("dimorphic hemmorhoids(piles)", "dimorphic hemmorhoids");
   ("paroymsal positional vertigo", "paroxysmal positional vertigo");
   ("(vertigo) paroymsal positional vertigo", "paroxysmal positional vertigo")].

(** [clean_text] on a cell of the data set: [None] is a missing value, for
    which [pd.isna] holds. *)
Definition clean_text (text : option string) : option string :=
  match text with
  | None => None
  | Some text =>
      let text := Py.lower text in
      let text := Py.replace "_" " " text in
      let text := Py.strip (sub_whitespace false text) in
      Some (default text (Py.dict_get text corrections))
  end.

(** White space occurs in [s] only as single spaces; [in_run] as above. *)
Fixpoint single_spaced (in_run : bool) (s : string) : bool :=
  match s with
  | EmptyString => true
  | String c s' =>
      if Py.isspace c then negb in_run && Ascii.eqb c " " && single_spaced true s'
      else single_spaced false s'
  end.

(** * Properties *)

(** ** Python text *)

Ltac each_char c := destruct c as [[] [] [] [] [] [] [] []]; try reflexivity; try discriminate.

Lemma lower_char_idem c : Py.lower_char (Py.lower_char c) = Py.lower_char c.
Proof. each_char c. Qed.

Lemma isspace_lower_char c : Py.isspace (Py.lower_char c) = Py.isspace c.
Proof. each_char c. Qed.

Lemma sep_char_idem c : sep_char (sep_char c) = sep_char c.
Proof. each_char c. Qed.

Lemma sep_char_lower c : Py.lower_char (sep_char c) = sep_char (Py.lower_char c).
Proof. each_char c. Qed.

Lemma sep_char_nonspace c : Py.isspace c = false → Py.isspace (sep_char c) = false.
Proof. each_char c. Qed.

Lemma map_chars_compose f g s :
  Py.map_chars f (Py.map_chars g s) = Py.map_chars (fun c => f (g c)) s.
Proof. induction s as [|c s IH]; simpl; [done|by rewrite IH]. Qed.

Lemma map_chars_ext f g s :
  (∀ c, f c = g c) → Py.map_chars f s = Py.map_chars g s.
Proof. intros E. induction s as [|c s IH]; simpl; [done|by rewrite E, IH]. Qed.

Lemma map_chars_app f s t :
  Py.map_chars f (s +:+ t) = Py.map_chars f s +:+ Py.map_chars f t.
Proof. induction s as [|c s IH]; simpl; [done|by rewrite IH]. Qed.

Lemma map_chars_empty f s : Py.map_chars f s = "" ↔ s = "".
Proof. destruct s; simpl; split; congruence. Qed.

Lemma map_chars_repeat f c n :
  Py.map_chars f (Py.repeat_char c n) = Py.repeat_char (f c) n.
Proof. induction n as [|n IH]; simpl; [done|by rewrite IH]. Qed.

Lemma map_chars_length f s : String.length (Py.map_chars f s) = String.length s.
Proof. induction s as [|c s IH]; simpl; [done|by rewrite IH]. Qed.

Lemma append_assoc (a b c : string) : (a +:+ b) +:+ c = a +:+ (b +:+ c).
Proof.
  induction a as [|x a IH]; [done|].
  change (String x ((a +:+ b) +:+ c) = String x (a +:+ (b +:+ c))).
  by rewrite IH.
Qed.

(** The two [replace] calls of the normalisation are one character map. *)
Lemma replace_both s :
  Py.replace "-" "_" (Py.replace " " "_" s) = Py.map_chars sep_char s.
Proof. unfold Py.replace. rewrite map_chars_compose. done. Qed.

Lemma normalize_unfold s :
  _normalize_symptom_name s = Py.map_chars sep_char (Py.strip (Py.lower s)).
Proof. apply replace_both. Qed.

Lemma lower_idem s : Py.lower (Py.lower s) = Py.lower s.
Proof.
  unfold Py.lower. rewrite map_chars_compose.
  apply map_chars_ext, lower_char_idem.
Qed.

(** *** Stripping *)

Lemma lstrip_fixed s : starts_nonspace s → Py.lstrip s = s.
Proof. destruct s as [|c s]; simpl; [done|]. by intros ->. Qed.

Lemma lstrip_starts s : starts_nonspace (Py.lstrip s).
Proof.
  induction s as [|c s IH]; simpl; [done|].
  destruct (Py.isspace c) eqn:E; [done|]. simpl. done.
Qed.

Lemma rstrip_cons c s :
  Py.rstrip (String c s) =
    if String.eqb (Py.rstrip s) "" then
      (if Py.isspace c then "" else String c "")
    else String c (Py.rstrip s).
Proof. simpl. by destruct (Py.rstrip s). Qed.

Lemma rstrip_idem s : Py.rstrip (Py.rstrip s) = Py.rstrip s.
Proof.
  induction s as [|c s IH]; [done|].
  rewrite rstrip_cons. destruct (String.eqb_spec (Py.rstrip s) "") as [E|E].
  - destruct (Py.isspace c) eqn:Ec; [done|]. simpl. by rewrite Ec.
  - rewrite rstrip_cons, IH. destruct (String.eqb_spec (Py.rstrip s) ""); done.
Qed.

Lemma rstrip_starts s : starts_nonspace s → starts_nonspace (Py.rstrip s).
Proof.
  destruct s as [|c s]; [done|]. intros Hc; simpl in Hc.
  rewrite rstrip_cons. rewrite Hc. by destruct (String.eqb _ _).
Qed.

Lemma strip_lstrip s : Py.lstrip (Py.strip s) = Py.strip s.
Proof. apply lstrip_fixed, rstrip_starts, lstrip_starts. Qed.

Lemma strip_rstrip s : Py.rstrip (Py.strip s) = Py.strip s.
Proof. apply rstrip_idem. Qed.

Lemma strip_fixed_parts s :
  Py.strip s = s → Py.lstrip s = s ∧ Py.rstrip s = s.
Proof.
  intros E. split.
  - rewrite <-E at 1. rewrite strip_lstrip. done.
  - rewrite <-E at 1. rewrite strip_rstrip. done.
Qed.

Lemma lstrip_fixed_starts s : Py.lstrip s = s → starts_nonspace s.
Proof. intros <-. apply lstrip_starts. Qed.

Lemma lstrip_map f s :
  (∀ c, Py.isspace (f c) = Py.isspace c) →
  Py.lstrip (Py.map_chars f s) = Py.map_chars f (Py.lstrip s).
Proof.
  intros Hf. induction s as [|c s IH]; simpl; [done|].
  rewrite Hf. by destruct (Py.isspace c).
Qed.

Lemma rstrip_map f s :
  (∀ c, Py.isspace (f c) = Py.isspace c) →
  Py.rstrip (Py.map_chars f s) = Py.map_chars f (Py.rstrip s).
Proof.
  intros Hf. induction s as [|c s IH]; [done|].
  change (Py.map_chars f (String c s)) with (String (f c) (Py.map_chars f s)).
  rewrite !rstrip_cons, IH, Hf.
  destruct (String.eqb_spec (Py.rstrip s) "") as [E|E].
  - rewrite E. simpl. by destruct (Py.isspace c).
  - destruct (String.eqb_spec (Py.map_chars f (Py.rstrip s)) "") as [E'|E']; [|done].
    by apply map_chars_empty in E'.
Qed.

Lemma strip_lower s : Py.strip (Py.lower s) = Py.lower (Py.strip s).
Proof.
  unfold Py.strip, Py.lower.
  rewrite lstrip_map, rstrip_map by apply isspace_lower_char. done.
Qed.

(** A map that keeps non-space characters non-space keeps a stripped string
    stripped. *)
Lemma rstrip_fixed_map f s :
  (∀ c, Py.isspace c = false → Py.isspace (f c) = false) →
  Py.rstrip s = s → Py.rstrip (Py.map_chars f s) = Py.map_chars f s.
Proof.
  intros Hf. induction s as [|c s IH]; [done|].
  change (Py.map_chars f (String c s)) with (String (f c) (Py.map_chars f s)).
  rewrite !rstrip_cons.
  destruct (String.eqb_spec (Py.rstrip s) "") as [E|E].
  - destruct (Py.isspace c) eqn:Ec; [done|]. intros [= <-]. simpl.
    by rewrite Hf.
  - intros [= E']. rewrite IH by done.
    destruct (String.eqb_spec (Py.map_chars f s) "") as [E''|E'']; [|done].
    apply map_chars_empty in E''. subst s. done.
Qed.

Lemma starts_nonspace_map f s :
  (∀ c, Py.isspace c = false → Py.isspace (f c) = false) →
  starts_nonspace s → starts_nonspace (Py.map_chars f s).
Proof. intros Hf. destruct s; simpl; auto. Qed.

Lemma strip_fixed_map f s :
  (∀ c, Py.isspace c = false → Py.isspace (f c) = false) →
  Py.strip s = s → Py.strip (Py.map_chars f s) = Py.map_chars f s.
Proof.
  intros Hf [Hl Hr]%strip_fixed_parts. unfold Py.strip.
  rewrite lstrip_fixed by by apply starts_nonspace_map, lstrip_fixed_starts.
  by apply rstrip_fixed_map.
Qed.

Lemma strip_idem s : Py.strip (Py.strip s) = Py.strip s.
Proof. unfold Py.strip at 1. by rewrite strip_lstrip, strip_rstrip. Qed.

(** ** Normalisation *)

(** C7. Normalisation is idempotent: normalising a normalised string gives
    the same string back, for every input string. *)
Theorem normalize_idempotent (x : string) :
  _normalize_symptom_name (_normalize_symptom_name x) = _normalize_symptom_name x.
Proof.
  rewrite !normalize_unfold.
  set (t := Py.strip (Py.lower x)).
  assert (Ht : Py.strip t = t) by apply strip_idem.
  assert (Hl : Py.lower t = t).
  { unfold t. rewrite strip_lower, lower_idem. done. }
  assert (E : Py.lower (Py.map_chars sep_char t) = Py.map_chars sep_char t).
  { unfold Py.lower. rewrite map_chars_compose.
    rewrite (map_chars_ext _ (fun c => sep_char (Py.lower_char c)))
      by apply sep_char_lower.
    rewrite <-map_chars_compose. fold (Py.lower t). by rewrite Hl. }
  rewrite E, strip_fixed_map by (apply sep_char_nonspace || done).
  rewrite map_chars_compose. apply map_chars_ext, sep_char_idem.
Qed.

Lemma lstrip_app_fixed x y :
  Py.lstrip x = x → x ≠ "" → Py.lstrip (x +:+ y) = x +:+ y.
Proof.
  intros Hx%lstrip_fixed_starts Hne. destruct x as [|c x]; [done|].
  simpl in *. by rewrite Hx.
Qed.

Lemma rstrip_app_fixed x y :
  Py.rstrip y = y → y ≠ "" → Py.rstrip (x +:+ y) = x +:+ y.
Proof.
  intros Hy Hne. induction x as [|c x IH]; [done|].
  change (String c x +:+ y) with (String c (x +:+ y)).
  rewrite rstrip_cons, IH.
  destruct (String.eqb_spec (x +:+ y) "") as [E|E]; [|done].
  destruct x; simpl in E; [done|discriminate].
Qed.

Lemma strip_app_fixed x m y :
  Py.strip x = x → x ≠ "" → Py.strip y = y → y ≠ "" →
  Py.strip (x +:+ m +:+ y) = x +:+ m +:+ y.
Proof.
  intros [Hx _]%strip_fixed_parts Hxe [_ Hy]%strip_fixed_parts Hye.
  unfold Py.strip. rewrite lstrip_app_fixed by done.
  rewrite (rstrip_app_fixed x (m +:+ y)); [done| |].
  - by apply rstrip_app_fixed.
  - destruct m; simpl; [done|discriminate].
Qed.

(** C6, as the specification states it, fails: the two internal spaces of
    the input give two separators, where collapsing would give one. *)
Lemma normalize_keeps_each_space :
  _normalize_symptom_name "skin  rash" = "skin__rash"
  ∧ spec_normalize "skin  rash" = "skin_rash"
  ∧ _normalize_symptom_name "skin  rash" ≠ spec_normalize "skin  rash".
Proof. repeat split. discriminate. Qed.

Lemma all_space_map f s :
  (∀ c, Py.isspace (f c) = Py.isspace c) →
  Py.all_space (Py.map_chars f s) = Py.all_space s.
Proof. intros Hf. induction s as [|c s IH]; simpl; [done|]. by rewrite Hf, IH. Qed.

Lemma lstrip_space_app ws s : Py.all_space ws = true → Py.lstrip (ws +:+ s) = Py.lstrip s.
Proof.
  induction ws as [|c ws IH]; [done|]. simpl.
  intros [-> Hws]%andb_true_iff. by apply IH.
Qed.

Lemma rstrip_space ws : Py.all_space ws = true → Py.rstrip ws = "".
Proof.
  induction ws as [|c ws IH]; [done|]. simpl.
  intros [-> Hws]%andb_true_iff. by rewrite IH.
Qed.

Lemma rstrip_app_space s ws : Py.all_space ws = true → Py.rstrip (s +:+ ws) = Py.rstrip s.
Proof.
  intros Hws. induction s as [|c s IH]; [by apply rstrip_space|].
  change (String c s +:+ ws) with (String c (s +:+ ws)).
  by rewrite !rstrip_cons, IH.
Qed.

(** White space around a trimmed, non-empty string is all that [strip] removes. *)
Lemma strip_surrounded pre x post :
  Py.all_space pre = true → Py.all_space post = true →
  Py.strip x = x → x ≠ "" → Py.strip (pre +:+ x +:+ post) = x.
Proof.
  intros Hpre Hpost [Hl Hr]%strip_fixed_parts Hne. unfold Py.strip.
  rewrite lstrip_space_app, lstrip_app_fixed, rstrip_app_space by done. done.
Qed.

(** C6, amended. Normalisation lower-cases, removes the white space at both
    ends and replaces every space and every hyphen by one underscore each;
    internal white space is not collapsed: for two non-empty trimmed parts
    [a] and [b] separated by a run of [n] spaces, with any white space
    around them, the result is [a] and [b], each lower-cased and with its
    spaces and hyphens replaced, with [n] underscores between them. *)
Theorem normalize_space_run (pre a b post : string) (n : nat) :
  Py.all_space pre = true → Py.all_space post = true →
  Py.strip a = a → a ≠ "" → Py.strip b = b → b ≠ "" →
  _normalize_symptom_name (pre +:+ a +:+ Py.repeat_char " " n +:+ b +:+ post)
  = lower_and_separate a +:+ Py.repeat_char "_" n +:+ lower_and_separate b.
Proof.
  intros Hpre Hpost Ha Hae Hb Hbe.
  unfold lower_and_separate. rewrite normalize_unfold, !replace_both.
  unfold Py.lower. rewrite !map_chars_app, map_chars_repeat.
  change (Py.lower_char " ") with " "%char.
  fold (Py.lower a) (Py.lower b) (Py.lower pre) (Py.lower post).
  assert (Sa : Py.strip (Py.lower a) = Py.lower a) by by rewrite strip_lower, Ha.
  assert (Sb : Py.strip (Py.lower b) = Py.lower b) by by rewrite strip_lower, Hb.
  assert (Ea : Py.lower a ≠ "") by (intros E; by apply map_chars_empty in E).
  assert (Eb : Py.lower b ≠ "") by (intros E; by apply map_chars_empty in E).
  set (x := Py.lower a +:+ Py.repeat_char " " n +:+ Py.lower b).
  assert (Sx : Py.strip x = x) by by apply strip_app_fixed.
  assert (Ex : x ≠ "").
  { unfold x. destruct (Py.lower a); [done|discriminate]. }
  replace (Py.lower pre +:+ Py.lower a +:+ Py.repeat_char " " n +:+ Py.lower b
           +:+ Py.lower post) with (Py.lower pre +:+ x +:+ Py.lower post)
    by (unfold x; by rewrite !append_assoc).
  rewrite strip_surrounded; try done.
  - unfold x. by rewrite !map_chars_app, map_chars_repeat.
  - unfold Py.lower. rewrite all_space_map; [done|apply isspace_lower_char].
  - unfold Py.lower. rewrite all_space_map; [done|apply isspace_lower_char].
Qed.

Lemma normalize_space_run_witness :
  _normalize_symptom_name ("  " +:+ "Skin" +:+ Py.repeat_char " " 3 +:+ "Rash-X" +:+ " ")
  = lower_and_separate "Skin" +:+ Py.repeat_char "_" 3 +:+ lower_and_separate "Rash-X".
Proof.
  apply (normalize_space_run "  " "Skin" "Rash-X" " " 3);
    first [reflexivity | discriminate].
Defined.

(** ** The stable descending sort *)

Section SortFacts.
Context {A K : Type} (key : A → K) (lt : K → K → bool).

Lemma insert_desc_perm x l : Py.insert_desc key lt x l ≡ₚ x :: l.
Proof.
  induction l as [|y l IH]; simpl; [done|].
  destruct (lt (key x) (key y)); [|done].
  rewrite IH. apply Permutation_swap.
Qed.

Lemma sort_reverse_perm l : Py.sort_reverse key lt l ≡ₚ l.
Proof.
  induction l as [|x l IH]; simpl; [done|].
  rewrite insert_desc_perm. by f_equiv.
Qed.

(** Elements of a class [P] no two of which are in strict key order keep
    their relative order. *)
Lemma insert_desc_stable (P : A → Prop) `{!∀ x, Decision (P x)} x l :
  (∀ a b, P a → P b → lt (key a) (key b) = false) →
  filter P (Py.insert_desc key lt x l) = filter P (x :: l).
Proof.
  intros HP. induction l as [|y l IH]; simpl; [done|].
  destruct (lt (key x) (key y)) eqn:E; [|done].
  rewrite filter_cons, IH, !filter_cons.
  destruct (decide (P y)) as [Hy|Hy], (decide (P x)) as [Hx|Hx]; try done.
  rewrite (HP x y Hx Hy) in E. done.
Qed.

Lemma sort_reverse_stable (P : A → Prop) `{!∀ x, Decision (P x)} l :
  (∀ a b, P a → P b → lt (key a) (key b) = false) →
  filter P (Py.sort_reverse key lt l) = filter P l.
Proof.
  intros HP. induction l as [|x l IH]; simpl; [done|].
  rewrite insert_desc_stable by done. by rewrite !filter_cons, IH.
Qed.

Hypothesis lt_asym : ∀ a b, lt a b = true → lt b a = false.
Hypothesis ge_trans : ∀ a b c, lt a b = false → lt b c = false → lt a c = false.

Local Abbreviation not_below := (Py.not_below key lt).

Lemma insert_desc_sorted x l :
  StronglySorted not_below l → StronglySorted not_below (Py.insert_desc key lt x l).
Proof.
  induction 1 as [|y l Hl IH Hy]; simpl.
  { repeat constructor. }
  destruct (lt (key x) (key y)) eqn:E.
  - constructor; [done|].
    rewrite Forall_forall. intros z Hz.
    rewrite insert_desc_perm in Hz.
    apply elem_of_cons in Hz as [->|Hz]; [by apply lt_asym|].
    rewrite Forall_forall in Hy. by apply Hy.
  - constructor; [by constructor|].
    constructor; [done|].
    eapply Forall_impl; [exact Hy|]. intros z Hz. by eapply ge_trans.
Qed.

Lemma sort_reverse_sorted l : StronglySorted not_below (Py.sort_reverse key lt l).
Proof.
  induction l as [|x l IH]; simpl; [constructor|by apply insert_desc_sorted].
Qed.

End SortFacts.

Lemma StronglySorted_weaken {A} (R R' : relation A) l :
  (∀ x y, R x y → R' x y) → StronglySorted R l → StronglySorted R' l.
Proof.
  intros HR. induction 1 as [|x l Hl IH Hx]; constructor; [done|].
  eapply Forall_impl; [exact Hx|]. auto.
Qed.

(** ** Ranking *)

Lemma Qc_ltb_true x y : Qc_ltb x y = true ↔ (x < y)%Qc.
Proof. unfold Qc_ltb. apply bool_decide_eq_true. Qed.

Lemma Qc_ltb_false x y : Qc_ltb x y = false ↔ (y ≤ x)%Qc.
Proof.
  unfold Qc_ltb. rewrite bool_decide_eq_false. symmetry. apply Qcle_ngt.
Qed.

Lemma sort_key_lt_true a b :
  sort_key_lt a b = true ↔ (a.1 < b.1)%Qc ∨ (a.1 = b.1 ∧ a.2 < b.2).
Proof.
  unfold sort_key_lt.
  rewrite orb_true_iff, andb_true_iff, Qc_ltb_true, bool_decide_eq_true,
    Nat.ltb_lt. done.
Qed.

Lemma sort_key_lt_false a b :
  sort_key_lt a b = false ↔ (b.1 < a.1)%Qc ∨ (a.1 = b.1 ∧ b.2 ≤ a.2).
Proof.
  rewrite <-not_true_iff_false, sort_key_lt_true. split.
  - intros Hn. destruct (Qclt_le_dec b.1 a.1) as [Hlt|Hle]; [by left|].
    right. apply Qcle_lt_or_eq in Hle as [Hlt|Heq]; [by destruct Hn; left|].
    split; [done|]. destruct (decide (b.2 ≤ a.2)) as [|Hgt]; [done|].
    destruct Hn. right. split; [done|lia].
  - intros [Hlt|[Heq Hle]] [Hlt'|[Heq' Hlt']].
    + by apply (Qclt_not_le _ _ Hlt), Qclt_le_weak.
    + rewrite Heq' in Hlt. by apply (Qclt_not_eq _ _ Hlt).
    + rewrite Heq in Hlt'. by apply (Qclt_not_eq _ _ Hlt').
    + lia.
Qed.

Lemma sort_key_lt_asym a b : sort_key_lt a b = true → sort_key_lt b a = false.
Proof.
  rewrite sort_key_lt_true, sort_key_lt_false.
  intros [?|[? ?]]; [by left|right]. split; [done|lia].
Qed.

Lemma sort_key_ge_trans a b c :
  sort_key_lt a b = false → sort_key_lt b c = false → sort_key_lt a c = false.
Proof.
  rewrite !sort_key_lt_false.
  intros [H1|[E1 H1]] [H2|[E2 H2]].
  - left. by eapply Qclt_trans.
  - left. by rewrite <-E2.
  - left. by rewrite E1.
  - right. split; [congruence|lia].
Qed.

(** C1. The output of [rank_diseases] is a reordering of its input that is
    in descending order of match score, with equal scores in descending
    order of urgency rank (high 3, medium 2, low 1, anything else or a
    missing urgency 2); and the diseases that agree on both keys stand in the
    order they had in the input. *)
Theorem rank_diseases_ordered (diseases : list Disease) (user_symptoms : list string) :
  let ranked := rank_diseases diseases user_symptoms in
  ranked ≡ₚ diseases
  ∧ StronglySorted ranked_before ranked
  ∧ (∀ q u, filter (λ d, score d = q ∧ urgency_score d = u) ranked
           = filter (λ d, score d = q ∧ urgency_score d = u) diseases)
  ∧ (∀ d, urgency_score d = urgency_rank (urgency d)).
Proof.
  unfold rank_diseases. repeat split.
  - apply sort_reverse_perm.
  - eapply StronglySorted_weaken;
      [|apply sort_reverse_sorted; [apply sort_key_lt_asym|apply sort_key_ge_trans]].
    intros x y Hxy. unfold Py.not_below in Hxy.
    apply sort_key_lt_false in Hxy. exact Hxy.
  - intros q u. apply sort_reverse_stable.
    intros a b [Ha1 Ha2] [Hb1 Hb2]. apply sort_key_lt_false. right.
    unfold sort_key; simpl. unfold score in *. split; [congruence|lia].
  - intros d. unfold urgency_score, urgency_rank.
    destruct (urgency d) as [u|]; [|reflexivity]. simpl.
    destruct (String.eqb (Py.lower u) "high"); [reflexivity|].
    destruct (String.eqb (Py.lower u) "medium"); [reflexivity|].
    destruct (String.eqb (Py.lower u) "low"); reflexivity.
Qed.

(** ** Match score *)

Lemma Qc_of_nat_nonneg n : (Qc_of_nat 0 ≤ Qc_of_nat n)%Qc.
Proof. unfold Qc_of_nat. apply (proj1 (Z2Qc_inj_le _ _)). lia. Qed.

Lemma Qc_of_nat_le n m : n ≤ m → (Qc_of_nat n ≤ Qc_of_nat m)%Qc.
Proof. intros. unfold Qc_of_nat. apply (proj1 (Z2Qc_inj_le _ _)). lia. Qed.

Lemma Qc_of_nat_pos n : 0 < n → (Qc_of_nat 0 < Qc_of_nat n)%Qc.
Proof. intros. unfold Qc_of_nat. apply (proj1 (Z2Qc_inj_lt _ _)). lia. Qed.

Lemma Qc_of_nat_0 : Qc_of_nat 0 = 0%Qc.
Proof. apply Z2Qc_inj_0. Qed.

(** A quotient [m / n] of counts with [m ≤ n], times ten, is between 0 and 10. *)
Lemma ratio_times_ten_bounds m n :
  m ≤ n → 0 < n →
  (Qc_of_nat 0 ≤ Qc_of_nat m / Qc_of_nat n * Qc_of_nat 10
   ∧ Qc_of_nat m / Qc_of_nat n * Qc_of_nat 10 ≤ Qc_of_nat 10)%Qc.
Proof.
  intros Hmn Hn.
  pose proof (Qc_of_nat_pos n Hn) as Hpos. rewrite Qc_of_nat_0 in Hpos.
  pose proof (Qcinv_pos _ Hpos) as Hinv.
  pose proof (Qc_of_nat_nonneg m) as Hm. rewrite Qc_of_nat_0 in Hm.
  pose proof (Qc_of_nat_nonneg 10) as H10. rewrite Qc_of_nat_0 in H10.
  rewrite Qc_of_nat_0. unfold Qcdiv. split.
  - apply Qcmult_nonneg_nonneg; [|done].
    apply Qcmult_nonneg_nonneg; [done|by apply Qclt_le_weak].
  - rewrite <-(Qcmult_1_l (Qc_of_nat 10)) at 2.
    apply Qcmult_le_mono_nonneg_r; [done|].
    rewrite <-(Qcmult_inv_r (Qc_of_nat n)) by (intros E; rewrite E in Hpos;
      by apply (Qclt_not_eq _ _ Hpos)).
    apply Qcmult_le_mono_nonneg_r; [by apply Qclt_le_weak|].
    by apply Qc_of_nat_le.
Qed.

Lemma clamp_id lo hi x : (lo ≤ x)%Qc → (x ≤ hi)%Qc → clamp lo hi x = x.
Proof.
  intros Hlo Hhi. unfold clamp.
  destruct (Qc_ltb x lo) eqn:E1.
  { apply Qc_ltb_true in E1. by destruct (Qcle_not_lt _ _ Hlo). }
  destruct (Qc_ltb hi x) eqn:E2; [|done].
  apply Qc_ltb_true in E2. by destruct (Qcle_not_lt _ _ Hhi).
Qed.

Lemma Qc_min_id x hi : (x ≤ hi)%Qc → Qc_min x hi = x.
Proof.
  intros Hhi. unfold Qc_min. destruct (Qc_ltb hi x) eqn:E; [|done].
  apply Qc_ltb_true in E. by destruct (Qcle_not_lt _ _ Hhi).
Qed.

Lemma size_list_to_set_le (l : list string) :
  size (list_to_set l : gset string) ≤ length l.
Proof.
  induction l as [|x l IH].
  - by rewrite list_to_set_nil, size_empty.
  - rewrite list_to_set_cons, size_union_alt, size_singleton. simpl.
    assert (Hsub : size ((list_to_set l : gset string) ∖ {[x]})
                   ≤ size (list_to_set l : gset string)).
    { apply subseteq_size, subseteq_difference_l. done. }
    lia.
Qed.

Lemma matched_le_input (us ds : list string) :
  size ((list_to_set us : gset string) ∩ list_to_set ds) ≤ length us.
Proof.
  etrans; [apply subseteq_size, intersection_subseteq_l|].
  apply size_list_to_set_le.
Qed.

(** The score of the code is between 0 and 10 for all arguments. *)
Lemma calculate_match_score_bounds us ds :
  (Qc_of_nat 0 ≤ _calculate_match_score us ds
   ∧ _calculate_match_score us ds ≤ Qc_of_nat 10)%Qc.
Proof.
  unfold _calculate_match_score.
  destruct (bool_decide _ || bool_decide _) eqn:E.
  { split; [apply Qcle_refl|apply Qc_of_nat_nonneg]. }
  apply orb_false_iff in E as [E _]. apply bool_decide_eq_false in E.
  assert (Hlen : 0 < length us) by (destruct us; [done|simpl; lia]).
  destruct (ratio_times_ten_bounds _ _ (matched_le_input us ds) Hlen) as [Hlo Hhi].
  by rewrite Qc_min_id.
Qed.

(** On an input without repetition the score of the code is the score of
    the specification. *)
Lemma calculate_match_score_spec us ds :
  us ≠ [] → NoDup us →
  _calculate_match_score us ds = spec_match_score (list_to_set us) (list_to_set ds).
Proof.
  intros Hne Hnd. unfold _calculate_match_score, spec_match_score.
  rewrite (size_list_to_set us) by done.
  assert (Hlen : 0 < length us) by (destruct us; [done|simpl; lia]).
  destruct (ratio_times_ten_bounds _ _ (matched_le_input us ds) Hlen) as [Hlo Hhi].
  rewrite clamp_id by done.
  rewrite bool_decide_eq_false_2 by done. simpl.
  destruct (bool_decide (ds = [])) eqn:E.
  - apply bool_decide_eq_true in E. subst ds.
    rewrite list_to_set_nil, intersection_empty_r_L, size_empty.
    rewrite Qc_of_nat_0. unfold Qcdiv. by rewrite !Qcmult_0_l.
  - by rewrite Qc_min_id.
Qed.

Lemma percentage_bounds (s : Qc) :
  (Qc_of_nat 0 ≤ s)%Qc → (s ≤ Qc_of_nat 10)%Qc →
  (Qc_of_nat 0 ≤ s * Qc_of_nat 10 ∧ s * Qc_of_nat 10 ≤ Qc_of_nat 100)%Qc.
Proof.
  intros Hlo Hhi.
  pose proof (Qc_of_nat_nonneg 10) as H10.
  rewrite Qc_of_nat_0 in *. split.
  - by apply Qcmult_nonneg_nonneg.
  - replace (Qc_of_nat 100) with (Qc_of_nat 10 * Qc_of_nat 10)%Qc.
    + by apply Qcmult_le_mono_nonneg_r.
    + unfold Qc_of_nat. by rewrite <-Z2Qc_inj_mul.
Qed.

(** ** Graph patterns *)

Lemma elem_of_objects g s p o : o ∈ objects g s p ↔ (s, p, o) ∈ g.
Proof.
  unfold objects. rewrite elem_of_remove_dups, list_elem_of_omap. split.
  - intros [[[s' p'] o'] [Hin Hm]]. case_bool_decide as Hd; [|done].
    destruct Hd as [-> ->]. by injection Hm as ->.
  - intros Hin. exists (s, p, o). split; [done|].
    by rewrite bool_decide_eq_true_2.
Qed.

Lemma elem_of_instances g cls s :
  s ∈ instances g cls ↔ (s, RDF_type, URIRef cls) ∈ g.
Proof.
  unfold instances. rewrite elem_of_remove_dups, list_elem_of_omap. split.
  - intros [[[s' p'] o'] [Hin Hm]]. case_bool_decide as Hd; [|done].
    destruct Hd as [-> ->]. by injection Hm as ->.
  - intros Hin. exists (s, RDF_type, URIRef cls). split; [done|].
    by rewrite bool_decide_eq_true_2.
Qed.

Lemma elem_of_object_iris g s p i :
  i ∈ object_iris g s p ↔ (s, p, URIRef i) ∈ g.
Proof.
  unfold object_iris. rewrite list_elem_of_omap. split.
  - intros [o [Hin Hm]]. destruct o; [|done]. injection Hm as ->.
    by apply elem_of_objects.
  - intros Hin. exists (URIRef i). split; [by apply elem_of_objects|done].
Qed.

Lemma in_filter_true symptomName symptom_names :
  in_filter symptomName symptom_names = true ↔
  ∃ n, symptomName = Literal n ∧ n ∈ symptom_names.
Proof.
  destruct symptomName as [i|n]; simpl.
  - split; [done|]. by intros [n [? _]].
  - rewrite bool_decide_eq_true. split; [by exists n|].
    by intros [n' [[= ->] ?]].
Qed.

(** Every row of the disease query is a disease linked to the input. *)
Lemma select_diseases_linked g symptom_names disease diseaseName description urgency :
  (disease, diseaseName, description, urgency)
    ∈ select_diseases_by_symptoms g symptom_names →
  linked_to_input g disease symptom_names.
Proof.
  unfold select_diseases_by_symptoms.
  rewrite elem_of_remove_dups.
  intros (d & Hrow & _)%list_elem_of_bind.
  apply list_elem_of_bind in Hrow as (dn & Hrow & _).
  apply list_elem_of_bind in Hrow as (sym & Hrow & Hsym).
  apply list_elem_of_bind in Hrow as (sn & Hrow & Hsn).
  destruct (in_filter sn symptom_names) eqn:Hf; [|by apply elem_of_nil in Hrow].
  apply list_elem_of_bind in Hrow as (de & Hrow & _).
  apply list_elem_of_bind in Hrow as (ur & Hrow & _).
  apply list_elem_of_singleton in Hrow. injection Hrow as -> -> -> ->.
  apply in_filter_true in Hf as (n & -> & Hn).
  exists sym, n. split_and!; [by apply elem_of_object_iris|by apply elem_of_objects|done].
Qed.

(** ** The queries of the engine *)

(** ** The text of a query *)

Lemma pasted_itself ok s :
  (∀ c, ok c = true → Py.code c ≠ 92) →
  all_chars ok s = true → pasted ok s = Some s.
Proof.
  intros Hok. induction s as [|c s IH]; simpl; [done|].
  intros [Hc Hs]%andb_prop.
  destruct (Nat.eqb_spec (Py.code c) 92) as [E|_]; [by destruct (Hok c Hc)|].
  by rewrite Hc, IH.
Qed.

Lemma literal_char_not_backslash c : literal_char c = true → Py.code c ≠ 92.
Proof.
  unfold literal_char. intros H%negb_true_iff%bool_decide_eq_false E.
  apply H. rewrite E. apply (bool_decide_unpack _). reflexivity.
Qed.

Lemma iri_char_not_backslash c : iri_char c = true → Py.code c ≠ 92.
Proof.
  unfold iri_char. intros [_ H%negb_true_iff%bool_decide_eq_false]%andb_prop E.
  apply H. rewrite E. apply (bool_decide_unpack _). reflexivity.
Qed.

Lemma plain_literal_chars s : all_chars literal_char s = true → plain_literal s.
Proof. apply pasted_itself, literal_char_not_backslash. Qed.

Lemma plain_iri_chars s : all_chars iri_char s = true → plain_iri s.
Proof. apply pasted_itself, iri_char_not_backslash. Qed.

Lemma all_chars_map_chars ok f s :
  (∀ c, ok c = true → ok (f c) = true) →
  all_chars ok s = true → all_chars ok (Py.map_chars f s) = true.
Proof.
  intros Hf. induction s as [|c s IH]; simpl; [done|].
  intros [Hc Hs]%andb_prop. by rewrite (Hf c Hc), IH.
Qed.

Lemma all_chars_lstrip ok s : all_chars ok s = true → all_chars ok (Py.lstrip s) = true.
Proof.
  induction s as [|c s IH]; simpl; [done|].
  intros H. destruct (Py.isspace c); [|done].
  apply andb_prop in H as [_ H]. by apply IH.
Qed.

Lemma all_chars_rstrip ok s : all_chars ok s = true → all_chars ok (Py.rstrip s) = true.
Proof.
  induction s as [|c s IH]; simpl; [done|].
  intros [Hc Hs]%andb_prop. specialize (IH Hs).
  destruct (Py.rstrip s) as [|c' r].
  - destruct (Py.isspace c); simpl; [done|by rewrite Hc].
  - change (all_chars ok (String c (String c' r)) = true).
    cbn [all_chars]. cbn [all_chars] in IH. by rewrite Hc, IH.
Qed.

Lemma literal_char_lower c : literal_char c = true → literal_char (Py.lower_char c) = true.
Proof. destruct c as [[] [] [] [] [] [] [] []]; vm_compute; by intros. Qed.

Lemma literal_char_sep c : literal_char c = true → literal_char (sep_char c) = true.
Proof. destruct c as [[] [] [] [] [] [] [] []]; vm_compute; by intros. Qed.

(** The token of a name without quote, backslash, line feed or carriage
    return has none of them. *)
Lemma normalize_literal_chars x :
  all_chars literal_char x = true →
  all_chars literal_char (_normalize_symptom_name x) = true.
Proof.
  intros Hx. rewrite normalize_unfold.
  apply all_chars_map_chars; [apply literal_char_sep|].
  unfold Py.strip. apply all_chars_rstrip, all_chars_lstrip.
  unfold Py.lower. apply all_chars_map_chars; [apply literal_char_lower|done].
Qed.

Lemma in_list_plain symptom_names :
  Forall plain_literal symptom_names → in_list symptom_names = Some symptom_names.
Proof.
  intros Hall. unfold in_list. apply mapM_Some.
  induction Hall; constructor; done.
Qed.

Lemma optional_inhabited {A} (l : list A) : ∃ x, x ∈ optional l.
Proof.
  destruct l as [|a l]; [exists None; left|exists (Some a); left].
Qed.

(** A typed and named disease with a symptom named in the list is a row of
    the disease query. *)
Lemma select_diseases_complete g symptom_names disease diseaseName :
  known_disease g disease →
  (disease, MED "diseaseName", diseaseName) ∈ g →
  linked_to_input g disease symptom_names →
  ∃ description urgency,
    (disease, diseaseName, description, urgency)
      ∈ select_diseases_by_symptoms g symptom_names.
Proof.
  intros Hk Hn (sym & n & Hsym & Hname & Hin).
  destruct (optional_inhabited (objects g disease (MED "description"))) as [de Hde].
  destruct (optional_inhabited (objects g disease (MED "urgencyLevel"))) as [ur Hur].
  exists de, ur. unfold select_diseases_by_symptoms.
  apply elem_of_remove_dups.
  apply list_elem_of_bind. exists disease. split; [|by apply elem_of_instances].
  apply list_elem_of_bind. exists diseaseName. split; [|by apply elem_of_objects].
  apply list_elem_of_bind. exists sym. split; [|by apply elem_of_object_iris].
  apply list_elem_of_bind. exists (Literal n). split; [|by apply elem_of_objects].
  assert (in_filter (Literal n) symptom_names = true) as ->
    by (apply in_filter_true; eauto).
  apply list_elem_of_bind. exists de. split; [|done].
  apply list_elem_of_bind. exists ur. split; [|done]. left.
Qed.

Lemma select_diseases_known g symptom_names row :
  row ∈ select_diseases_by_symptoms g symptom_names →
  known_disease g row.1.1.1 ∧ (row.1.1.1, MED "diseaseName", row.1.1.2) ∈ g.
Proof.
  unfold select_diseases_by_symptoms. rewrite elem_of_remove_dups. intros Hrow.
  apply list_elem_of_bind in Hrow as (disease & Hrow & Hk%elem_of_instances).
  apply list_elem_of_bind in Hrow as (dn & Hrow & Hname%elem_of_objects).
  apply list_elem_of_bind in Hrow as (sy & Hrow & _).
  apply list_elem_of_bind in Hrow as (sn & Hrow & _).
  destruct (in_filter sn symptom_names); [|by apply elem_of_nil in Hrow].
  apply list_elem_of_bind in Hrow as (de & Hrow & _).
  apply list_elem_of_bind in Hrow as (ur & Hrow & _).
  by apply list_elem_of_singleton in Hrow as ->.
Qed.

(** The names of the symptoms of a disease, as the symptom query lists
    them. *)
Lemma elem_of_disease_symptoms g disease n :
  n ∈ node_str <$> select_disease_symptoms g disease
  ↔ ∃ symptom symptomName,
      (disease, MED "hasSymptom", URIRef symptom) ∈ g
      ∧ (symptom, MED "symptomName", symptomName) ∈ g
      ∧ node_str symptomName = n.
Proof.
  rewrite list_elem_of_fmap. unfold select_disease_symptoms. split.
  - intros (sn & -> & Hin).
    apply list_elem_of_bind in Hin as (sym & Hin & Hsym%elem_of_object_iris).
    apply list_elem_of_bind in Hin as (sn' & Hin & Hname%elem_of_objects).
    apply list_elem_of_singleton in Hin as ->. by exists sym, sn'.
  - intros (sym & sn & Hsym & Hname & <-). exists sn. split; [done|].
    apply list_elem_of_bind. exists sym. split; [|by apply elem_of_object_iris].
    apply list_elem_of_bind. exists sn. split; [left|by apply elem_of_objects].
Qed.

Section QueryEngineFacts.
Variable query_error : SparqlQuery → option exn.
Variable foreign : SparqlQuery → list Solution.

Lemma graph_query_cases {A} q (rows : list A) :
  graph_query query_error q rows = Ok rows
  ∨ ∃ e, graph_query query_error q rows = Raise e.
Proof. unfold graph_query. destruct (query_error q); eauto. Qed.

Lemma get_disease_symptoms_total self disease_uri :
  ∃ l, _get_disease_symptoms query_error foreign self disease_uri = Ok l.
Proof.
  unfold _get_disease_symptoms, graph_query.
  destruct (query_error _); simpl; eauto.
Qed.

Lemma get_precautions_total self disease_uri :
  ∃ l, get_precautions_for_disease query_error foreign self disease_uri = Ok l.
Proof.
  unfold get_precautions_for_disease, graph_query.
  destruct (query_error _); simpl; eauto.
Qed.

Lemma get_specialty_total self disease_uri :
  ∃ s, get_specialty_for_disease query_error foreign self disease_uri = Ok s.
Proof.
  unfold get_specialty_for_disease, graph_query.
  destruct (query_error _); simpl; eauto.
  destruct (specialty_rows _ _ _) as [|[[? ?] ?] ?]; simpl; eauto.
Qed.

(** The symptom list of a disease whose IRI stands for itself, when
    rdflib accepts the symptom query. *)
Lemma get_disease_symptoms_meant self disease_uri :
  plain_iri disease_uri →
  query_error (DiseaseSymptoms disease_uri) = None →
  _get_disease_symptoms query_error foreign self disease_uri
  = Ok (node_str <$> select_disease_symptoms (graph self) disease_uri).
Proof.
  intros Hp Hq. unfold _get_disease_symptoms, graph_query, symptom_rows, rows_of.
  unfold plain_iri in Hp. by rewrite Hq, Hp.
Qed.

(** The entry that the row loop builds for a row. *)
Lemma disease_of_row_total self symptom_names row :
  ∃ d, disease_of_row query_error foreign self symptom_names row = Ok d
       ∧ uri d = row.1.1.1
       ∧ match_score d = Some (_calculate_match_score symptom_names (symptoms d))
       ∧ match_percentage d
         = Some (_calculate_match_score symptom_names (symptoms d) * Qc_of_nat 10)%Qc
       ∧ matched_symptoms d = filter (λ s, s ∈ symptoms d) symptom_names.
Proof.
  destruct row as [[[disease diseaseName] description] urgency].
  unfold disease_of_row.
  destruct (get_disease_symptoms_total self disease) as [l ->]. simpl.
  eexists. split; [reflexivity|]. simpl. done.
Qed.

Lemma disease_of_row_fields self symptom_names row d :
  disease_of_row query_error foreign self symptom_names row = Ok d →
  uri d = row.1.1.1
  ∧ name d = str_or "Unknown" (Some row.1.1.2)
  ∧ _get_disease_symptoms query_error foreign self (uri d) = Ok (symptoms d).
Proof.
  destruct row as [[[disease diseaseName] description] urgency].
  unfold disease_of_row.
  destruct (get_disease_symptoms_total self disease) as [l Hl]. rewrite Hl. simpl.
  by intros [= <-].
Qed.

Lemma collect_rows_elem self symptom_names rows acc results e d :
  collect_rows query_error foreign self symptom_names rows acc = (results, e) →
  d ∈ results →
  d ∈ acc ∨ ∃ row, row ∈ rows
                   ∧ disease_of_row query_error foreign self symptom_names row = Ok d.
Proof.
  revert acc. induction rows as [|row rows IH]; intros acc; simpl.
  - intros [= <- <-]. by left.
  - destruct (disease_of_row _ _ _ _ row) as [d'|e'] eqn:Hrow.
    + intros Hc Hd. destruct (IH _ Hc Hd) as [Hin|(row' & Hin & Hr)].
      * apply elem_of_app in Hin as [Hin|Hin]; [by left|].
        apply list_elem_of_singleton in Hin as ->. right. exists row.
        split; [left|done].
      * right. exists row'. split; [by right|done].
    + intros [= <- <-]. by left.
Qed.

(** The row loop keeps what it had and adds the entry of every row. *)
Lemma collect_rows_complete self symptom_names rows acc :
  ∃ results,
    collect_rows query_error foreign self symptom_names rows acc = (results, None)
    ∧ (∀ d, d ∈ acc → d ∈ results)
    ∧ ∀ row, row ∈ rows →
        ∃ d, d ∈ results
             ∧ disease_of_row query_error foreign self symptom_names row = Ok d.
Proof.
  revert acc. induction rows as [|row rows IH]; intros acc; simpl.
  { exists acc. split_and!; [done|done|]. by intros row ?%elem_of_nil. }
  destruct (disease_of_row_total self symptom_names row) as (d & Hd & _).
  rewrite Hd. destruct (IH (acc ++ [d])) as (results & Hc & Hacc & Hrows).
  exists results. split_and!; [done| |].
  - intros d' Hd'. apply Hacc, elem_of_app. by left.
  - intros row' [->|Hin]%elem_of_cons; [|by apply Hrows].
    exists d. split; [|done]. apply Hacc, elem_of_app. right. left.
Qed.

(** Every row of the disease query is a named disease of the store,
    whatever the names hold. *)
Lemma disease_rows_known self symptom_names row :
  row ∈ disease_rows foreign self symptom_names →
  known_disease (graph self) row.1.1.1
  ∧ (row.1.1.1, MED "diseaseName", row.1.1.2) ∈ graph self.
Proof.
  unfold disease_rows, rows_of.
  destruct (in_list symptom_names) as [terms|]; simpl.
  - apply select_diseases_known.
  - intros (r & Hr & Hshape)%list_elem_of_omap.
    unfold disease_solution in Hshape.
    destruct r as [|[[i|?]|] [|[dn|] [|de [|ur [|? ?]]]]]; try done.
    case_bool_decide as Hp; [|done]. injection Hshape as <-. simpl. done.
Qed.

Lemma disease_rows_meant self symptom_names terms :
  in_list symptom_names = Some terms →
  disease_rows foreign self symptom_names
  = select_diseases_by_symptoms (graph self) terms.
Proof. intros H. unfold disease_rows, rows_of. by rewrite H. Qed.

(** [query_diseases_by_symptoms] returns, and each entry it returns was
    built from a row of the disease query. *)
Lemma query_diseases_total self symptom_names :
  ∃ results,
    query_diseases_by_symptoms query_error foreign self symptom_names = Ok results
    ∧ ∀ d, d ∈ results →
        ∃ row, row ∈ disease_rows foreign self symptom_names
               ∧ disease_of_row query_error foreign self symptom_names row = Ok d.
Proof.
  unfold query_diseases_by_symptoms.
  case_bool_decide as Hempty.
  { exists []. split; [done|]. by intros d Hd%elem_of_nil. }
  destruct (graph_query _ _ _) as [qres|e] eqn:Hq.
  2:{ exists []. split; [done|]. by intros d Hd%elem_of_nil. }
  assert (qres = disease_rows foreign self symptom_names) as ->.
  { unfold graph_query in Hq. destruct (query_error _); congruence. }
  destruct (collect_rows _ _ _ _ _ []) as [results [e|]] eqn:Hc.
  - exists results. split; [done|]. intros d Hd.
    destruct (collect_rows_elem _ _ _ _ _ _ _ Hc Hd) as [Hin|?]; [|done].
    by apply elem_of_nil in Hin.
  - exists (rank_diseases results symptom_names). split; [done|]. intros d Hd.
    unfold rank_diseases in Hd. rewrite sort_reverse_perm in Hd.
    destruct (collect_rows_elem _ _ _ _ _ _ _ Hc Hd) as [Hin|?]; [|done].
    by apply elem_of_nil in Hin.
Qed.

(** When rdflib accepts the disease query, the entry of every row is
    returned. *)
Lemma query_diseases_rows self symptom_names row :
  symptom_names ≠ [] →
  query_error (DiseasesBySymptoms symptom_names) = None →
  row ∈ disease_rows foreign self symptom_names →
  ∃ results d,
    query_diseases_by_symptoms query_error foreign self symptom_names = Ok results
    ∧ d ∈ results
    ∧ disease_of_row query_error foreign self symptom_names row = Ok d.
Proof.
  intros Hne Hq Hrow. unfold query_diseases_by_symptoms, graph_query.
  rewrite bool_decide_eq_false_2, Hq by done.
  destruct (collect_rows_complete self symptom_names
              (disease_rows foreign self symptom_names) [])
    as (results & -> & _ & Hrows).
  destruct (Hrows _ Hrow) as (d & Hd & Hbuild).
  exists (rank_diseases results symptom_names), d. split_and!; [done| |done].
  unfold rank_diseases. by rewrite sort_reverse_perm.
Qed.

(** A disease of the store that is linked to the names that the list of
    the filter stands for is returned, when rdflib accepts the query. *)
Lemma query_finds_linked self symptom_names terms disease diseaseName :
  in_list symptom_names = Some terms →
  query_error (DiseasesBySymptoms symptom_names) = None →
  known_disease (graph self) disease →
  (disease, MED "diseaseName", diseaseName) ∈ graph self →
  linked_to_input (graph self) disease terms →
  ∃ results d,
    query_diseases_by_symptoms query_error foreign self symptom_names = Ok results
    ∧ d ∈ results ∧ uri d = disease
    ∧ name d = str_or "Unknown" (Some diseaseName).
Proof.
  intros Hread Hq Hk Hn Hl.
  assert (symptom_names ≠ []) as Hne.
  { intros ->. injection Hread as <-.
    destruct Hl as (? & n & _ & _ & Hin). by apply elem_of_nil in Hin. }
  destruct (select_diseases_complete _ _ _ _ Hk Hn Hl) as (de & ur & Hrow).
  rewrite <-(disease_rows_meant self symptom_names terms Hread) in Hrow.
  destruct (query_diseases_rows self symptom_names _ Hne Hq Hrow)
    as (results & d & Hres & Hd & Hbuild).
  exists results, d. split_and!; [done|done| |];
    by destruct (disease_of_row_fields _ _ _ _ Hbuild) as (? & ? & _).
Qed.

(** An entry returned for names that stand for terms is linked to one of
    them. *)
Lemma query_diseases_linked self symptom_names terms results d :
  in_list symptom_names = Some terms →
  query_diseases_by_symptoms query_error foreign self symptom_names = Ok results →
  d ∈ results →
  known_disease (graph self) (uri d) ∧ linked_to_input (graph self) (uri d) terms.
Proof.
  intros Hread Hq Hd.
  destruct (query_diseases_total self symptom_names) as (results' & Hq' & Hres).
  rewrite Hq in Hq'. injection Hq' as <-.
  destruct (Hres d Hd) as ([[[disease dn] de] ur] & Hrow & Hbuild).
  destruct (disease_of_row_fields _ _ _ _ Hbuild) as (Huri & _). simpl in Huri.
  rewrite Huri. split.
  - by apply disease_rows_known in Hrow as [? _].
  - rewrite (disease_rows_meant self symptom_names terms Hread) in Hrow.
    by eapply select_diseases_linked.
Qed.

(** C2. For a non-empty input without repetition, [query_diseases_by_symptoms]
    returns, and every entry it returns carries as match score the number of
    input tokens among its symptoms, divided by the number of input tokens,
    times ten, clamped to [0, 10], and as match percentage ten times that
    score; the score is between 0 and 10 and the percentage between 0 and
    100. The symptoms of an entry are the names of the symptoms that the
    store links to its disease, when the IRI of the disease stands for
    itself in the text of the symptom query and rdflib accepts that query.
    And every candidate is scored: when the names stand for themselves in
    the text of the disease query and rdflib accepts it, each named disease
    of the store that is linked to an input name has an entry. *)
Theorem match_score_formula (self : MedicalKnowledgeGraph) (symptom_names : list string) :
  symptom_names ≠ [] → NoDup symptom_names →
  ∃ results,
    query_diseases_by_symptoms query_error foreign self symptom_names = Ok results
    ∧ (∀ d, d ∈ results →
         ∃ s, match_score d = Some s
              ∧ s = spec_match_score (list_to_set symptom_names)
                                     (list_to_set (symptoms d))
              ∧ match_percentage d = Some (s * Qc_of_nat 10)%Qc
              ∧ (Qc_of_nat 0 ≤ s ∧ s ≤ Qc_of_nat 10)%Qc
              ∧ (Qc_of_nat 0 ≤ s * Qc_of_nat 10
                 ∧ s * Qc_of_nat 10 ≤ Qc_of_nat 100)%Qc)
    ∧ (∀ d, d ∈ results →
         plain_iri (uri d) →
         query_error (DiseaseSymptoms (uri d)) = None →
         ∀ n, n ∈ symptoms d
              ↔ ∃ symptom symptomName,
                  (uri d, MED "hasSymptom", URIRef symptom) ∈ graph self
                  ∧ (symptom, MED "symptomName", symptomName) ∈ graph self
                  ∧ node_str symptomName = n)
    ∧ (Forall plain_literal symptom_names →
       query_error (DiseasesBySymptoms symptom_names) = None →
       ∀ disease diseaseName,
         known_disease (graph self) disease →
         (disease, MED "diseaseName", diseaseName) ∈ graph self →
         linked_to_input (graph self) disease symptom_names →
         ∃ d, d ∈ results ∧ uri d = disease).
Proof.
  intros Hne Hnd.
  destruct (query_diseases_total self symptom_names) as (results & Hq & Hres).
  exists results. split_and!; [done| | |].
  - intros d Hd.
    destruct (Hres d Hd) as (row & Hrow & Hbuild).
    destruct (disease_of_row_total self symptom_names row)
      as (d' & Hd' & _ & Hs & Hp & _).
    rewrite Hbuild in Hd'. injection Hd' as <-.
    exists (_calculate_match_score symptom_names (symptoms d)).
    destruct (calculate_match_score_bounds symptom_names (symptoms d)) as [Hlo Hhi].
    split_and!; try done.
    + by apply calculate_match_score_spec.
    + by apply percentage_bounds.
    + by apply percentage_bounds.
  - intros d Hd Hplain Hok n.
    destruct (Hres d Hd) as (row & Hrow & Hbuild).
    destruct (disease_of_row_fields _ _ _ _ Hbuild) as (_ & _ & Hsym).
    rewrite (get_disease_symptoms_meant self (uri d) Hplain Hok) in Hsym.
    injection Hsym as <-. apply elem_of_disease_symptoms.
  - intros Hplain Hok disease diseaseName Hk Hn Hl.
    destruct (query_finds_linked self symptom_names symptom_names disease diseaseName
                (in_list_plain _ Hplain) Hok Hk Hn Hl)
      as (results' & d & Hq' & Hd & Hu & _).
    rewrite Hq in Hq'. injection Hq' as <-. by exists d.
Qed.

(** The rows of the queries on a disease IRI that stands for a term. *)
Lemma details_rows_meant self disease_uri iri :
  iri_ref disease_uri = Some iri →
  details_rows foreign self disease_uri = select_disease_details (graph self) iri.
Proof. intros H. unfold details_rows, rows_of. by rewrite H. Qed.

Lemma specialty_rows_meant self disease_uri iri :
  iri_ref disease_uri = Some iri →
  specialty_rows foreign self disease_uri = select_specialty (graph self) iri.
Proof. intros H. unfold specialty_rows, rows_of. by rewrite H. Qed.

Lemma precaution_rows_meant self disease_uri iri :
  iri_ref disease_uri = Some iri →
  precaution_rows foreign self disease_uri = select_precautions (graph self) iri.
Proof. intros H. unfold precaution_rows, rows_of. by rewrite H. Qed.

Lemma select_disease_details_unknown g disease_uri :
  ¬ known_disease g disease_uri → select_disease_details g disease_uri = [].
Proof.
  intros Hk. unfold select_disease_details. by rewrite bool_decide_eq_false_2.
Qed.

Lemma select_disease_details_known g disease_uri row :
  row ∈ select_disease_details g disease_uri →
  known_disease g disease_uri ∧ (disease_uri, MED "diseaseName", row.1.1) ∈ g.
Proof.
  unfold select_disease_details. case_bool_decide; [|by intros ?%elem_of_nil].
  intros (dn & Hrow & Hn%elem_of_objects)%list_elem_of_bind.
  apply list_elem_of_bind in Hrow as (de & Hrow & _).
  apply list_elem_of_bind in Hrow as (ur & Hrow & _).
  by apply list_elem_of_singleton in Hrow as ->.
Qed.

Lemma select_disease_details_named g disease_uri diseaseName :
  known_disease g disease_uri →
  (disease_uri, MED "diseaseName", diseaseName) ∈ g →
  select_disease_details g disease_uri ≠ [].
Proof.
  intros Hk Hn E.
  destruct (optional_inhabited (objects g disease_uri (MED "description"))) as [de Hde].
  destruct (optional_inhabited (objects g disease_uri (MED "urgencyLevel"))) as [ur Hur].
  assert ((diseaseName, de, ur) ∈ select_disease_details g disease_uri) as Hin.
  { unfold select_disease_details. rewrite bool_decide_eq_true_2 by done.
    apply list_elem_of_bind. exists diseaseName. split; [|by apply elem_of_objects].
    apply list_elem_of_bind. exists de. split; [|done].
    apply list_elem_of_bind. exists ur. split; [left|done]. }
  rewrite E in Hin. by apply elem_of_nil in Hin.
Qed.

Lemma select_specialty_none g disease_uri :
  (∀ sp, (disease_uri, MED "treatedBy", sp) ∉ g) →
  select_specialty g disease_uri = [].
Proof.
  intros Hno. unfold select_specialty.
  assert (object_iris g disease_uri (MED "treatedBy") = []) as ->; [|done].
  apply elem_of_nil_inv. intros i Hi%elem_of_object_iris. by apply (Hno (URIRef i)).
Qed.

Lemma select_precautions_none g disease_uri :
  (∀ p, (disease_uri, MED "hasPrecaution", p) ∉ g) →
  select_precautions g disease_uri = [].
Proof.
  intros Hno. unfold select_precautions.
  apply elem_of_nil_inv. intros o Ho%elem_of_objects. by apply (Hno o).
Qed.

Lemma get_specialty_none self disease_uri iri :
  iri_ref disease_uri = Some iri →
  (∀ sp, (iri, MED "treatedBy", sp) ∉ graph self) →
  get_specialty_for_disease query_error foreign self disease_uri = Ok None.
Proof.
  intros Hread Hno. unfold get_specialty_for_disease, graph_query.
  rewrite (specialty_rows_meant self _ _ Hread), select_specialty_none by done.
  by destruct (query_error _).
Qed.

Lemma get_precautions_none self disease_uri iri :
  iri_ref disease_uri = Some iri →
  (∀ p, (iri, MED "hasPrecaution", p) ∉ graph self) →
  get_precautions_for_disease query_error foreign self disease_uri = Ok [].
Proof.
  intros Hread Hno. unfold get_precautions_for_disease, graph_query.
  rewrite (precaution_rows_meant self _ _ Hread), select_precautions_none by done.
  by destruct (query_error _).
Qed.

(** What [get_disease_details] returns, by cases on the details query. *)
Lemma get_disease_details_cases self disease_uri :
  (get_disease_details query_error foreign self disease_uri = Ok None
   ∧ (query_error (DiseaseDetailsOf disease_uri) ≠ None
      ∨ details_rows foreign self disease_uri = []))
  ∨ ∃ row symptoms specialty precautions,
      row ∈ details_rows foreign self disease_uri
      ∧ query_error (DiseaseDetailsOf disease_uri) = None
      ∧ _get_disease_symptoms query_error foreign self disease_uri = Ok symptoms
      ∧ get_specialty_for_disease query_error foreign self disease_uri = Ok specialty
      ∧ get_precautions_for_disease query_error foreign self disease_uri = Ok precautions
      ∧ get_disease_details query_error foreign self disease_uri
        = Ok (Some {| details_uri := disease_uri;
                      details_name := node_str row.1.1;
                      details_description := str_or "" row.1.2;
                      details_urgency := str_or "medium" row.2;
                      details_symptoms := symptoms;
                      details_specialty := specialty;
                      details_precautions := precautions |}).
Proof.
  unfold get_disease_details, graph_query.
  destruct (query_error (DiseaseDetailsOf disease_uri)) eqn:Hq; simpl;
    [left; split; [done|by left]|].
  destruct (details_rows _ _ _) as [|[[dn de] ur] rows] eqn:Hsel;
    [left; split; [done|by right]|].
  right.
  destruct (get_disease_symptoms_total self disease_uri) as [symptoms Hs].
  destruct (get_specialty_total self disease_uri) as [specialty Hsp].
  destruct (get_precautions_total self disease_uri) as [precautions Hp].
  exists (dn, de, ur), symptoms, specialty, precautions.
  rewrite Hs, Hsp, Hp. simpl. split_and!; try done. left.
Qed.

(** X30. [get_disease_details], [get_specialty_for_disease] and
    [get_precautions_for_disease] never raise. For an id that stands for an
    IRI in the text of the queries: the details are [None] when the store
    does not type that IRI as a disease; they are returned, under the id as
    given and with a name of the disease, when the store types and names the
    IRI and rdflib accepts the details query; and returned details belong to
    a known disease, with no specialty when nothing treats it and no
    precautions when it has none. *)
Theorem get_disease_details_answer (self : MedicalKnowledgeGraph)
    (disease_uri iri : string) :
  iri_ref disease_uri = Some iri →
  (∃ r, get_disease_details query_error foreign self disease_uri = Ok r)
  ∧ (∃ sp, get_specialty_for_disease query_error foreign self disease_uri = Ok sp)
  ∧ (∃ ps, get_precautions_for_disease query_error foreign self disease_uri = Ok ps)
  ∧ (¬ known_disease (graph self) iri →
     get_disease_details query_error foreign self disease_uri = Ok None)
  ∧ (known_disease (graph self) iri →
     (∃ diseaseName, (iri, MED "diseaseName", diseaseName) ∈ graph self) →
     query_error (DiseaseDetailsOf disease_uri) = None →
     ∃ details,
       get_disease_details query_error foreign self disease_uri = Ok (Some details))
  ∧ (∀ details,
       get_disease_details query_error foreign self disease_uri = Ok (Some details) →
       known_disease (graph self) iri
       ∧ details_uri details = disease_uri
       ∧ (∃ diseaseName, (iri, MED "diseaseName", diseaseName) ∈ graph self
                         ∧ details_name details = node_str diseaseName)
       ∧ ((∀ sp, (iri, MED "treatedBy", sp) ∉ graph self) →
          details_specialty details = None)
       ∧ ((∀ p, (iri, MED "hasPrecaution", p) ∉ graph self) →
          details_precautions details = [])).
Proof.
  intros Hread.
  pose proof (details_rows_meant self disease_uri iri Hread) as Hrows.
  split_and!.
  - destruct (get_disease_details_cases self disease_uri)
      as [[-> _]|(? & ? & ? & ? & _ & _ & _ & _ & _ & ->)]; eauto.
  - apply get_specialty_total.
  - apply get_precautions_total.
  - intros Hk.
    destruct (get_disease_details_cases self disease_uri)
      as [[-> _]|(row & ? & ? & ? & Hrow & _)]; [done|].
    rewrite Hrows, select_disease_details_unknown in Hrow by done.
    by apply elem_of_nil in Hrow.
  - intros Hk [dn Hn] Hq.
    destruct (get_disease_details_cases self disease_uri)
      as [[_ [?|E]]|(? & ? & ? & ? & _ & _ & _ & _ & _ & ->)]; [done| |eauto].
    rewrite Hrows in E. by destruct (select_disease_details_named _ _ _ Hk Hn).
  - intros details Hd.
    destruct (get_disease_details_cases self disease_uri)
      as [[E _]|(row & sy & sp & ps & Hrow & _ & _ & Hsp & Hps & E)];
      rewrite E in Hd; [done|].
    injection Hd as <-. simpl. rewrite Hrows in Hrow.
    apply select_disease_details_known in Hrow as [Hk Hn].
    split_and!; [done|done|by eexists| |].
    + intros Hno. rewrite (get_specialty_none _ _ _ Hread) in Hsp by done. congruence.
    + intros Hno. rewrite (get_precautions_none _ _ _ Hread) in Hps by done. congruence.
Qed.

End QueryEngineFacts.

Lemma get_disease_details_answer_witness :
  (∃ r, get_disease_details (λ _, None) (λ _, []) sample_kg
          "http://medbot.org/instances#Disease_Malaria" = Ok r)
  ∧ (∃ sp, get_specialty_for_disease (λ _, None) (λ _, []) sample_kg
             "http://medbot.org/instances#Disease_Malaria" = Ok sp)
  ∧ (∃ ps, get_precautions_for_disease (λ _, None) (λ _, []) sample_kg
             "http://medbot.org/instances#Disease_Malaria" = Ok ps)
  ∧ (¬ known_disease (graph sample_kg) "http://medbot.org/instances#Disease_Malaria" →
     get_disease_details (λ _, None) (λ _, []) sample_kg
       "http://medbot.org/instances#Disease_Malaria" = Ok None)
  ∧ (known_disease (graph sample_kg) "http://medbot.org/instances#Disease_Malaria" →
     (∃ diseaseName, ("http://medbot.org/instances#Disease_Malaria",
                      MED "diseaseName", diseaseName) ∈ graph sample_kg) →
     (λ _ : SparqlQuery, @None exn)
       (DiseaseDetailsOf "http://medbot.org/instances#Disease_Malaria") = None →
     ∃ details,
       get_disease_details (λ _, None) (λ _, []) sample_kg
         "http://medbot.org/instances#Disease_Malaria" = Ok (Some details))
  ∧ (∀ details,
       get_disease_details (λ _, None) (λ _, []) sample_kg
         "http://medbot.org/instances#Disease_Malaria" = Ok (Some details) →
       known_disease (graph sample_kg) "http://medbot.org/instances#Disease_Malaria"
       ∧ details_uri details = "http://medbot.org/instances#Disease_Malaria"
       ∧ (∃ diseaseName, ("http://medbot.org/instances#Disease_Malaria",
                          MED "diseaseName", diseaseName) ∈ graph sample_kg
                         ∧ details_name details = node_str diseaseName)
       ∧ ((∀ sp, ("http://medbot.org/instances#Disease_Malaria", MED "treatedBy", sp)
                   ∉ graph sample_kg) →
          details_specialty details = None)
       ∧ ((∀ p, ("http://medbot.org/instances#Disease_Malaria", MED "hasPrecaution", p)
                  ∉ graph sample_kg) →
          details_precautions details = [])).
Proof.
  apply (get_disease_details_answer (λ _, None) (λ _, []) sample_kg
           "http://medbot.org/instances#Disease_Malaria"
           "http://medbot.org/instances#Disease_Malaria").
  vm_compute. reflexivity.
Defined.

(** ** The pasted parameters *)

(** C5, at a name with a code point escape. The name [escaped_fever]
    is not the name of any symptom of the store, yet the query on it
    returns Malaria, whose symptom is [fever]: the text between the quotes
    stands for [fever]. The entry has no matched symptom and the score 0,
    where [matched_symptoms] compares the names as they are. *)
Theorem query_diseases_escaped_name :
  String.length escaped_fever = 10
  ∧ string_literal escaped_fever = Some "fever"
  ∧ (∀ symptom,
       (symptom, MED "symptomName", Literal escaped_fever) ∉ graph sample_kg)
  ∧ ¬ linked_to_input (graph sample_kg) "http://medbot.org/instances#Disease_Malaria"
        [escaped_fever]
  ∧ ∃ d,
      query_diseases_by_symptoms (λ _, None) (λ _, []) sample_kg [escaped_fever]
      = Ok [d]
      ∧ uri d = "http://medbot.org/instances#Disease_Malaria"
      ∧ name d = "Malaria"
      ∧ symptoms d = ["fever"]
      ∧ matched_symptoms d = []
      ∧ match_score d = Some (Qc_of_nat 0).
Proof.
  assert (Hno : ∀ symptom,
            (symptom, MED "symptomName", Literal escaped_fever) ∉ graph sample_kg).
  { intros symptom Hin. simpl in Hin. unfold sample_graph in Hin.
    repeat (apply elem_of_cons in Hin as [Hin|Hin]; [by injection Hin|]).
    by apply elem_of_nil in Hin. }
  split_and!; [reflexivity|reflexivity|done| |].
  - intros (symptom & n & _ & Hname & Hin).
    apply list_elem_of_singleton in Hin as ->. by apply (Hno symptom).
  - eexists. split; [vm_compute; reflexivity|].
    split_and!; [reflexivity..|]. simpl. f_equal. apply Qc_is_canon. reflexivity.
Qed.

(** C9, at an id with a code point escape. The id [escaped_malaria_id]
    is the IRI of no node of the store, yet [get_disease_details] returns
    the details of Malaria under it, with the specialty that treats
    Malaria: the text between the angle brackets stands for the IRI of
    Malaria. *)
Theorem get_disease_details_escaped_id :
  iri_ref escaped_malaria_id = Some "http://medbot.org/instances#Disease_Malaria"
  ∧ escaped_malaria_id ≠ "http://medbot.org/instances#Disease_Malaria"
  ∧ ¬ known_disease (graph sample_kg) escaped_malaria_id
  ∧ (∀ p o, (escaped_malaria_id, p, o) ∉ graph sample_kg)
  ∧ get_disease_details (λ _, None) (λ _, []) sample_kg escaped_malaria_id
    = Ok (Some {| details_uri := escaped_malaria_id;
                  details_name := "Malaria";
                  details_description := "";
                  details_urgency := "high";
                  details_symptoms := ["fever"];
                  details_specialty :=
                    Some {| specialty_name := "Internal Medicine";
                            department := "General";
                            location := "Main Building" |};
                  details_precautions := [] |}).
Proof.
  assert (Hno : ∀ p o, (escaped_malaria_id, p, o) ∉ graph sample_kg).
  { intros p o Hin. simpl in Hin. unfold sample_graph in Hin.
    repeat (apply elem_of_cons in Hin as [Hin|Hin]; [by injection Hin|]).
    by apply elem_of_nil in Hin. }
  split_and!; [reflexivity|done|apply Hno|done|vm_compute; reflexivity].
Qed.

(** ** Loading *)

Lemma disease_solution_empty r : disease_solution [] r = None.
Proof.
  unfold disease_solution. repeat (case_match; try done).
  all: by match goal with H : _ ∧ _ |- _ => destruct H as [?%elem_of_nil _] end.
Qed.

Lemma query_on_empty_graph query_error foreign path symptom_names :
  query_diseases_by_symptoms query_error foreign {| graph := []; ontology_path := path |}
    symptom_names = Ok [].
Proof.
  unfold query_diseases_by_symptoms, graph_query.
  case_bool_decide; [done|]. destruct (query_error _); [done|].
  assert (disease_rows foreign {| graph := []; ontology_path := path |} symptom_names
          = []) as ->; [|done].
  unfold disease_rows, rows_of. destruct (in_list symptom_names); simpl; [done|].
  induction (foreign _) as [|r l IH]; [done|].
  cbn [omap list_omap]. by rewrite disease_solution_empty.
Qed.

(** C3, as the specification states it, fails: with the ontology file
    missing, the constructor does not raise and returns a store with an
    empty graph. *)
Lemma load_missing_file_proceeds :
  (MedicalKnowledgeGraph_init None no_such_file (Some "missing.ttl")).1
  = Ok {| graph := []; ontology_path := "missing.ttl" |}
  ∧ ¬ raises (MedicalKnowledgeGraph_init None no_such_file (Some "missing.ttl")).1.
Proof. split; [reflexivity|]. intros [e He]. discriminate He. Qed.

(** C3, amended. When the snapshot file is missing or reading it raises,
    the constructor does not raise and logs an error. For a missing file the
    store it returns is empty, and every symptom query on it returns the
    empty list, whatever rdflib does with the query; for a file whose
    reading raises, the store holds the triples read before the failure. *)
Theorem load_failure_is_logged (getenv : option string) (parse : string → ParseOutcome)
    (ontology_path : option string) :
  (∀ triples, parse (resolve_ontology_path getenv ontology_path) ≠ Parsed triples) →
  ∃ kg log,
    MedicalKnowledgeGraph_init getenv parse ontology_path = (Ok kg, log)
    ∧ (∃ msg, (ERROR, msg) ∈ log)
    ∧ (∀ msg,
         parse (resolve_ontology_path getenv ontology_path) = FileMissing msg →
         graph kg = []
         ∧ ∀ query_error foreign symptom_names,
             query_diseases_by_symptoms query_error foreign kg symptom_names = Ok [])
    ∧ (∀ msg added,
         parse (resolve_ontology_path getenv ontology_path) = ParseRaised msg added →
         graph kg = added).
Proof.
  intros Hfail. unfold MedicalKnowledgeGraph_init, _load_graph. simpl.
  destruct (parse _) as [triples|msg|msg added] eqn:Hparse.
  - by destruct (Hfail triples).
  - do 2 eexists. split; [reflexivity|]. split_and!.
    + eexists. right. left.
    + intros _ _. split; [done|]. intros. apply query_on_empty_graph.
    + intros ? ? [=].
  - do 2 eexists. split; [reflexivity|]. split_and!.
    + eexists. right. left.
    + intros ? [=].
    + by intros ? ? [= _ ->].
Qed.

Lemma load_failure_is_logged_witness :
  ∃ kg log,
    MedicalKnowledgeGraph_init None no_such_file (Some "missing.ttl") = (Ok kg, log)
    ∧ (∃ msg, (ERROR, msg) ∈ log)
    ∧ (∀ msg,
         no_such_file (resolve_ontology_path None (Some "missing.ttl"))
         = FileMissing msg →
         graph kg = []
         ∧ ∀ query_error foreign symptom_names,
             query_diseases_by_symptoms query_error foreign kg symptom_names = Ok [])
    ∧ (∀ msg added,
         no_such_file (resolve_ontology_path None (Some "missing.ttl"))
         = ParseRaised msg added →
         graph kg = added).
Proof.
  apply (load_failure_is_logged None no_such_file (Some "missing.ttl")).
  intros triples. discriminate.
Defined.

(** A file whose reading raises after the triples of the sample store were
    read leaves a store that answers queries. *)
Example load_partial_store_answers :
  ∃ kg log d,
    MedicalKnowledgeGraph_init None (λ _, ParseRaised "Bad syntax" sample_graph) None
    = (Ok kg, log)
    ∧ (ERROR, "Error loading graph: Bad syntax") ∈ log
    ∧ query_diseases_by_symptoms (λ _, None) (λ _, []) kg ["fever"] = Ok [d]
    ∧ name d = "Malaria".
Proof.
  do 3 eexists. split; [reflexivity|]. split; [right; left|].
  split; [vm_compute; reflexivity|reflexivity].
Qed.

(** ** Response generation *)

Lemma prefix_app s t : String.prefix s (s +:+ t) = true.
Proof.
  induction s as [|c s IH]; simpl; [by destruct t|].
  by destruct (Ascii.ascii_dec c c).
Qed.

Lemma contains_here sub t : Py.contains sub (sub +:+ t) = true.
Proof.
  destruct sub as [|c sub]; [by destruct t|].
  change (Py.contains (String c sub) (String c (sub +:+ t)) = true).
  cbn [Py.contains]. change (String c (sub +:+ t)) with (String c sub +:+ t).
  by rewrite prefix_app.
Qed.

Lemma contains_app_r sub a t :
  Py.contains sub t = true → Py.contains sub (a +:+ t) = true.
Proof.
  intros H. induction a as [|c a IH]; [done|].
  change (Py.contains sub (String c (a +:+ t)) = true).
  cbn [Py.contains]. rewrite IH. apply orb_true_r.
Qed.

Lemma prefix_app_l sub s t :
  String.prefix sub s = true → String.prefix sub (s +:+ t) = true.
Proof.
  revert s. induction sub as [|c sub IH]; intros s.
  { intros _. by destruct (s +:+ t). }
  destruct s as [|d s]; [done|]. simpl.
  destruct (Ascii.ascii_dec c d); [apply IH|done].
Qed.

Lemma contains_app_l sub s t :
  Py.contains sub s = true → Py.contains sub (s +:+ t) = true.
Proof.
  induction s as [|c s IH].
  - simpl. rewrite orb_false_r. intros H. destruct sub; [by destruct t|done].
  - change (String c s +:+ t) with (String c (s +:+ t)). cbn [Py.contains].
    intros [H|H]%orb_true_iff.
    + change (String c (s +:+ t)) with (String c s +:+ t).
      by rewrite prefix_app_l.
    + rewrite IH by done. apply orb_true_r.
Qed.

Lemma contains_cons sub c t :
  Py.contains sub t = true → Py.contains sub (String c t) = true.
Proof. intros H. cbn [Py.contains]. rewrite H. apply orb_true_r. Qed.

Ltac find_sub :=
  lazymatch goal with
  | |- Py.contains ?sub (?sub +:+ _) = true => apply contains_here
  | |- Py.contains _ (_ +:+ _) = true => apply contains_app_r; find_sub
  end.

Lemma contains_precaution_lines p ps :
  p ∈ take 3 ps → Py.contains p (precaution_lines ps) = true.
Proof.
  unfold precaution_lines. induction (take 3 ps) as [|q l IH]; cbn [foldr].
  - by intros ?%elem_of_nil.
  - intros [->|Hin]%elem_of_cons.
    + find_sub.
    + do 3 apply contains_app_r. by apply IH.
Qed.

Lemma precaution_lines_take ps : precaution_lines (take 3 ps) = precaution_lines ps.
Proof. unfold precaution_lines. by rewrite take_take. Qed.

Ltac find_precautions_block :=
  lazymatch goal with
  | |- Py.contains _ (precautions_block _ _ +:+ _) = true =>
      apply contains_app_l
  | |- Py.contains _ (_ +:+ _) = true =>
      apply contains_app_r; find_precautions_block
  end.

Section ResponseFacts.
Variable format_f : nat → Qc → string.

(** The templated response reads only the first three precautions. *)
Lemma fallback_response_three top rest lang :
  _fallback_response format_f
    ({| uri := uri top; name := name top; description := description top;
        urgency := urgency top; symptoms := symptoms top;
        matched_symptoms := matched_symptoms top; match_score := match_score top;
        match_percentage := match_percentage top; specialty := specialty top;
        precautions := take 3 (precautions top) |} :: rest) lang
  = _fallback_response format_f (top :: rest) lang.
Proof.
  unfold _fallback_response. simpl.
  assert (precautions_block lang (take 3 (precautions top))
          = precautions_block lang (precautions top)) as ->; [|done].
  unfold precautions_block. rewrite precaution_lines_take.
  by destruct (precautions top).
Qed.

(** C8. When the collaborator is unavailable or its invocation raises,
    [generate_response] does not raise: it returns the templated response and
    leaves the history as it was. For a non-empty result list that response
    names the top disease, gives its urgency in upper case, gives specialty
    and department when the disease has them, lists the first three
    precautions and no other, and ends with the disclaimer. *)
Theorem generate_response_falls_back (self : MedBotRAG) (user_input : string)
    (query_results : list Disease) (language_arg : option string) :
  generation_fails format_f self user_input query_results language_arg →
  let lang := str_or_else language_arg (language self) in
  let response := _fallback_response format_f query_results lang in
  generate_response format_f self user_input query_results language_arg
  = (Ok response, self)
  ∧ ∀ top rest, query_results = top :: rest →
      Py.contains (name top) response = true
      ∧ (∀ u, urgency top = Some u → Py.contains (Py.upper u) response = true)
      ∧ (∀ spec, specialty top = Some spec →
           Py.contains (specialty_name spec) response = true
           ∧ Py.contains (department spec) response = true)
      ∧ (∀ p, p ∈ take 3 (precautions top) → Py.contains p response = true)
      ∧ response
        = _fallback_response format_f
            ({| uri := uri top; name := name top; description := description top;
                urgency := urgency top; symptoms := symptoms top;
                matched_symptoms := matched_symptoms top;
                match_score := match_score top;
                match_percentage := match_percentage top;
                specialty := specialty top;
                precautions := take 3 (precautions top) |} :: rest) lang
      ∧ ∃ body, response = body +:+ disclaimer lang.
Proof.
  intros Hfail lang response. split.
  - subst response lang. unfold generate_response, generation_fails in *.
    destruct (llm self) as [the_llm|]; [|done].
    destruct Hfail as [e He]. by rewrite He.
  - intros top rest ->. subst response.
    assert (Hbody : ∀ p, p ∈ take 3 (precautions top) →
              Py.contains p (precautions_block lang (precautions top)) = true).
    { intros p Hp. destruct (precautions top) as [|q ps] eqn:Hps.
      { by apply elem_of_nil in Hp. }
      unfold precautions_block. do 3 apply contains_app_r.
      by apply contains_precaution_lines. }
    split_and!.
    + unfold _fallback_response. destruct (String.eqb lang "fr"); find_sub.
    + unfold _fallback_response. intros u ->. cbn [from_option id].
      destruct (String.eqb lang "fr"); find_sub.
    + unfold _fallback_response, specialty_lines. intros spec ->.
      destruct (String.eqb lang "fr"); rewrite !append_assoc; split; find_sub.
    + intros p Hp. specialize (Hbody p Hp). unfold _fallback_response.
      destruct (String.eqb lang "fr"); by find_precautions_block.
    + symmetry. apply fallback_response_three.
    + unfold _fallback_response, disclaimer.
      destruct (String.eqb lang "fr"); eexists; rewrite <-!append_assoc; reflexivity.
Qed.

End ResponseFacts.

(** ** Insertion-ordered dictionaries *)

Section DictFacts.
Context {V : Type}.
Implicit Types (d : list (string * V)) (k : string) (v : V).

Lemma dict_get_None k d : Py.dict_get k d = None ↔ k ∉ Py.dict_keys d.
Proof.
  induction d as [|[k' v'] d IH]; simpl.
  - split; [intros _; apply not_elem_of_nil|done].
  - rewrite not_elem_of_cons. destruct (String.eqb_spec k k') as [->|Hne].
    + split; [done|]. by intros [? _].
    + rewrite IH. split; [by split|by intros [_ ?]].
Qed.

Lemma dict_get_Some_elem k v d : Py.dict_get k d = Some v → (k, v) ∈ d.
Proof.
  induction d as [|[k' v'] d IH]; simpl; [done|].
  destruct (String.eqb_spec k k') as [->|Hne].
  - intros [= ->]. left.
  - intros H. right. by apply IH.
Qed.

Lemma dict_get_elem_NoDup k v d :
  NoDup (Py.dict_keys d) → (k, v) ∈ d → Py.dict_get k d = Some v.
Proof.
  induction d as [|[k' v'] d IH]; simpl.
  - by intros _ ?%elem_of_nil.
  - intros [Hk Hd]%NoDup_cons [[= -> ->]|Hin]%elem_of_cons.
    + by rewrite String.eqb_refl.
    + destruct (String.eqb_spec k k') as [->|Hne]; [|by apply IH].
      destruct Hk. apply list_elem_of_fmap. by exists (k', v).
Qed.

Lemma dict_set_absent k v d :
  Py.dict_get k d = None → Py.dict_set k v d = d ++ [(k, v)].
Proof.
  induction d as [|[k' v'] d IH]; simpl; [done|].
  destruct (String.eqb_spec k k') as [->|Hne]; [done|].
  intros H. by rewrite IH.
Qed.

Lemma dict_keys_set_present k v d :
  k ∈ Py.dict_keys d → Py.dict_keys (Py.dict_set k v d) = Py.dict_keys d.
Proof.
  induction d as [|[k' v'] d IH]; simpl.
  - by intros ?%elem_of_nil.
  - destruct (String.eqb_spec k k') as [->|Hne]; [done|].
    intros [?|Hin]%elem_of_cons; [done|]. simpl. f_equal. by apply IH.
Qed.

Lemma dict_get_set k k' v d :
  Py.dict_get k' (Py.dict_set k v d)
  = if String.eqb k' k then Some v else Py.dict_get k' d.
Proof.
  induction d as [|[k0 v0] d IH]; simpl.
  - by destruct (String.eqb k' k).
  - destruct (String.eqb_spec k k0) as [->|Hne]; simpl.
    + by destruct (String.eqb k' k0).
    + destruct (String.eqb_spec k' k0) as [->|Hne'].
      * destruct (String.eqb_spec k0 k); [congruence|done].
      * apply IH.
Qed.

Lemma dict_values_set k v d e :
  e ∈ Py.dict_values (Py.dict_set k v d) → e = v ∨ e ∈ Py.dict_values d.
Proof.
  induction d as [|[k0 v0] d IH]; simpl.
  - intros ->%list_elem_of_singleton. by left.
  - destruct (String.eqb_spec k k0) as [->|Hne]; simpl.
    + intros [->|Hin]%elem_of_cons; [by left|]. right. by right.
    + intros [->|Hin]%elem_of_cons; [right; left|].
      destruct (IH Hin) as [->|?]; [by left|]. right. by right.
Qed.

End DictFacts.

(** ** The de-duplication loops *)

Lemma keyed_nil : keyed [].
Proof. by intros k v ?%elem_of_nil. Qed.

Lemma keyed_set k v U : keyed U → normalized v = k → keyed (Py.dict_set k v U).
Proof.
  intros HU Hv. induction U as [|[k0 v0] U IH]; simpl.
  - intros k' v' [= -> ->]%list_elem_of_singleton. done.
  - assert (keyed U) as HU' by (intros ???; apply HU; by right).
    destruct (String.eqb_spec k k0) as [->|Hne].
    + intros k' v' [[= -> ->]|Hin]%elem_of_cons; [done|]. apply HU. by right.
    + intros k' v' [[= -> ->]|Hin]%elem_of_cons; [apply HU; left|].
      by apply IH.
Qed.

Lemma keyed_values U : keyed U → normalized <$> Py.dict_values U = Py.dict_keys U.
Proof.
  unfold Py.dict_values, Py.dict_keys. intros HU.
  induction U as [|[k v] U IH]; simpl; [done|]. f_equal.
  - apply HU. left.
  - apply IH. intros ???. apply HU. by right.
Qed.

Lemma see_keys (U : list (string * Extraction)) k v :
  Py.dict_keys (match Py.dict_get k U with
                | None => Py.dict_set k v U
                | Some _ => U
                end) = see (Py.dict_keys U) k.
Proof.
  unfold see. destruct (Py.dict_get k U) eqn:E.
  - rewrite bool_decide_eq_true_2; [done|].
    destruct (decide (k ∈ Py.dict_keys U)) as [|Hn]; [done|].
    apply dict_get_None in Hn. congruence.
  - rewrite dict_set_absent by done. apply dict_get_None in E.
    rewrite bool_decide_eq_false_2 by done.
    unfold Py.dict_keys. by rewrite fmap_app.
Qed.

Lemma keep_first_keys U s :
  Py.dict_keys (keep_first U s) = see (Py.dict_keys U) (normalized s).
Proof. apply see_keys. Qed.

Lemma keep_highest_keys U s :
  Py.dict_keys (keep_highest U s) = see (Py.dict_keys U) (normalized s).
Proof.
  unfold keep_highest. rewrite <-(see_keys U (normalized s) s).
  destruct (Py.dict_get (normalized s) U) eqn:E; [|done].
  destruct (Qc_ltb _ _); [|done].
  apply dict_keys_set_present.
  destruct (decide (normalized s ∈ Py.dict_keys U)) as [|Hn]; [done|].
  apply dict_get_None in Hn. congruence.
Qed.

Lemma fold_keys (keep : list (string * Extraction) → Extraction → list (string * Extraction))
    cands U :
  (∀ U s, Py.dict_keys (keep U s) = see (Py.dict_keys U) (normalized s)) →
  Py.dict_keys (fold_left keep cands U)
  = fold_left see (normalized <$> cands) (Py.dict_keys U).
Proof.
  intros Hkeep. revert U. induction cands as [|c cands IH]; intros U; simpl; [done|].
  by rewrite IH, Hkeep.
Qed.

Lemma see_NoDup seen k : NoDup seen → NoDup (see seen k).
Proof.
  intros Hnd. unfold see. case_bool_decide as Hk; [done|].
  apply NoDup_app. split_and!; [done| |apply NoDup_singleton].
  intros x Hx ->%list_elem_of_singleton. done.
Qed.

Lemma fold_see_NoDup ks seen : NoDup seen → NoDup (fold_left see ks seen).
Proof.
  revert seen. induction ks as [|k ks IH]; intros seen Hnd; simpl; [done|].
  by apply IH, see_NoDup.
Qed.

Lemma first_seen_order_NoDup cands : NoDup (first_seen_order cands).
Proof. apply fold_see_NoDup, NoDup_nil_2. Qed.

Lemma keep_first_keyed U s : keyed U → keyed (keep_first U s).
Proof.
  intros HU. unfold keep_first. destruct (Py.dict_get _ _); [done|].
  by apply keyed_set.
Qed.

Lemma keep_highest_keyed U s : keyed U → keyed (keep_highest U s).
Proof.
  intros HU. unfold keep_highest. destruct (Py.dict_get _ _).
  - destruct (Qc_ltb _ _); [by apply keyed_set|done].
  - by apply keyed_set.
Qed.

Lemma fold_keyed (keep : list (string * Extraction) → Extraction → list (string * Extraction))
    cands U :
  (∀ U s, keyed U → keyed (keep U s)) → keyed U → keyed (fold_left keep cands U).
Proof.
  intros Hkeep. revert U. induction cands as [|c cands IH]; intros U HU; simpl; [done|].
  by apply IH, Hkeep.
Qed.

Lemma keep_highest_get U s k :
  Py.dict_get k (keep_highest U s)
  = if String.eqb k (normalized s) then
      match Py.dict_get k U with
      | None => Some s
      | Some old =>
          if Qc_ltb (confidence old) (confidence s) then Some s else Some old
      end
    else Py.dict_get k U.
Proof.
  unfold keep_highest. destruct (String.eqb_spec k (normalized s)) as [->|Hne].
  - destruct (Py.dict_get (normalized s) U) as [old|] eqn:E.
    + destruct (Qc_ltb _ _); [|done]. by rewrite dict_get_set, String.eqb_refl.
    + by rewrite dict_get_set, String.eqb_refl.
  - destruct (Py.dict_get (normalized s) U) as [old|] eqn:E.
    + destruct (Qc_ltb _ _); [|done]. rewrite dict_get_set.
      by destruct (String.eqb_spec k (normalized s)).
    + rewrite dict_get_set. by destruct (String.eqb_spec k (normalized s)).
Qed.

(** The entry that the full mode stores under a token is a candidate, and
    no candidate with that token has a greater confidence. *)
Lemma fold_keep_highest_get cands U k v :
  Py.dict_get k (fold_left keep_highest cands U) = Some v →
  (v ∈ cands ∨ Py.dict_get k U = Some v)
  ∧ (∀ c, c ∈ cands → normalized c = k → (confidence c ≤ confidence v)%Qc)
  ∧ (∀ v0, Py.dict_get k U = Some v0 → (confidence v0 ≤ confidence v)%Qc).
Proof.
  revert U. induction cands as [|c cands IH]; intros U; simpl.
  { intros Hv. split_and!; [by right|by intros c ?%elem_of_nil|].
    intros v0 Hv0. rewrite Hv in Hv0. injection Hv0 as ->. apply Qcle_refl. }
  intros Hv. destruct (IH _ Hv) as (Hin & Hmax & Hold). clear IH Hv.
  rewrite keep_highest_get in Hin, Hold.
  destruct (String.eqb_spec k (normalized c)) as [Hk|Hk].
  - assert (∀ v0, Py.dict_get k U = Some v0 → (confidence v0 ≤ confidence v)%Qc)
      as Hold'.
    { intros v0 Hv0. rewrite Hv0 in Hold.
      destruct (Qc_ltb (confidence v0) (confidence c)) eqn:E; [|by apply Hold].
      apply Qc_ltb_true, Qclt_le_weak in E.
      eapply Qcle_trans; [exact E|]. by apply Hold. }
    assert ((confidence c ≤ confidence v)%Qc) as Hc.
    { destruct (Py.dict_get k U) as [old|]; [|by apply Hold].
      destruct (Qc_ltb (confidence old) (confidence c)) eqn:E; [by apply Hold|].
      apply Qc_ltb_false in E. eapply Qcle_trans; [exact E|]. by apply Hold. }
    split_and!; [| |done].
    + destruct Hin as [Hin|Hin]; [left; by right|].
      destruct (Py.dict_get k U) as [old|]; [|injection Hin as <-; left; left].
      destruct (Qc_ltb _ _); injection Hin as <-; [left; left|by right].
    + intros c' [->|Hc']%elem_of_cons Hc''; [exact Hc|]. by apply Hmax.
  - split_and!; [| |done].
    + destruct Hin as [Hin|Hin]; [left; by right|by right].
    + intros c' [->|Hc']%elem_of_cons Hc''; [done|]. by apply Hmax.
Qed.

Lemma keep_first_get U s k :
  Py.dict_get k (keep_first U s)
  = match Py.dict_get k U with
    | Some v => Some v
    | None => if String.eqb k (normalized s) then Some s else None
    end.
Proof.
  unfold keep_first. destruct (Py.dict_get (normalized s) U) as [old|] eqn:E.
  - destruct (Py.dict_get k U) eqn:E'; [done|].
    destruct (String.eqb_spec k (normalized s)) as [->|]; [congruence|done].
  - rewrite dict_get_set.
    destruct (String.eqb_spec k (normalized s)) as [->|]; [by rewrite E|].
    by destruct (Py.dict_get k U).
Qed.

(** The entry that the fallback mode stores under a token is the first
    candidate with that token. *)
Lemma fold_keep_first_get cands U k :
  Py.dict_get k (fold_left keep_first cands U)
  = match Py.dict_get k U with
    | Some v => Some v
    | None => head (filter (λ c, normalized c = k) cands)
    end.
Proof.
  revert U. induction cands as [|c cands IH]; intros U; simpl.
  { by destruct (Py.dict_get k U). }
  rewrite IH, keep_first_get, filter_cons.
  destruct (Py.dict_get k U); [done|].
  destruct (String.eqb_spec k (normalized c)) as [->|Hne].
  - by rewrite decide_True.
  - by rewrite decide_False.
Qed.

(** The fallback mode returns its candidates in their order, some left out. *)
Lemma fold_keep_first_values cands U :
  ∃ L, Py.dict_values (fold_left keep_first cands U) = Py.dict_values U ++ L
       ∧ L `sublist_of` cands.
Proof.
  revert U. induction cands as [|c cands IH]; intros U; simpl.
  { exists []. by rewrite app_nil_r. }
  destruct (IH (keep_first U c)) as (L & -> & HL).
  unfold keep_first. destruct (Py.dict_get (normalized c) U) eqn:E.
  - exists L. split; [done|]. by apply sublist_cons.
  - rewrite dict_set_absent by done. exists (c :: L).
    unfold Py.dict_values. rewrite fmap_app, <-app_assoc. simpl.
    split; [done|]. by apply sublist_skip.
Qed.

Lemma StronglySorted_sublist {A} (R : relation A) l1 l2 :
  l1 `sublist_of` l2 → StronglySorted R l2 → StronglySorted R l1.
Proof.
  induction 1 as [|x l1 l2 Hsub IH|x l1 l2 Hsub IH]; intros Hs; [done| |].
  - apply StronglySorted_inv in Hs as [Hs Hx]. constructor; [by apply IH|].
    rewrite Forall_forall in Hx |- *. intros y Hy. apply Hx.
    by eapply elem_of_sublist.
  - apply StronglySorted_inv in Hs as [Hs _]. by apply IH.
Qed.

Lemma StronglySorted_all {A} (R : relation A) l :
  (∀ x y, x ∈ l → y ∈ l → R x y) → StronglySorted R l.
Proof.
  induction l as [|x l IH]; intros HR; constructor.
  - apply IH. intros y z Hy Hz. apply HR; by right.
  - rewrite Forall_forall. intros y Hy. apply HR; [left|by right].
Qed.

Lemma StronglySorted_head {A} (R : relation A) l e c :
  StronglySorted R l → head l = Some e → c ∈ l → c = e ∨ R e c.
Proof.
  destruct l as [|x l]; [done|]. simpl. intros Hs [= ->].
  apply StronglySorted_inv in Hs as [_ Hx].
  intros [->|Hc]%elem_of_cons; [by left|]. right.
  rewrite Forall_forall in Hx. by apply Hx.
Qed.

(** ** Candidates *)

Lemma known_symptom_matches_elem self conf meth text_lower e :
  e ∈ known_symptom_matches self conf meth text_lower →
  confidence e = conf ∧ normalized e ∈ Py.dict_keys (symptoms_dict self).
Proof.
  unfold known_symptom_matches.
  intros ([k v] & He & Hkv)%list_elem_of_bind.
  destruct (_ || _); [|by apply elem_of_nil in He].
  apply list_elem_of_singleton in He as ->. simpl. split; [done|].
  unfold Py.dict_keys. apply list_elem_of_fmap. by exists (k, v).
Qed.

Lemma dict_get_Some_key {V} k (v : V) d :
  Py.dict_get k d = Some v → k ∈ Py.dict_keys d.
Proof.
  intros H. destruct (decide (k ∈ Py.dict_keys d)) as [|Hn]; [done|].
  apply dict_get_None in Hn. congruence.
Qed.

Lemma synonym_matches_elem self conf meth text_lower e :
  e ∈ synonym_matches self conf meth text_lower →
  confidence e = conf ∧ normalized e ∈ Py.dict_keys (symptoms_dict self).
Proof.
  unfold synonym_matches.
  intros ([synonym target] & He & _)%list_elem_of_bind.
  destruct (Py.contains _ _); [|by apply elem_of_nil in He].
  destruct (Py.dict_get _ _) as [display|] eqn:E; [|by apply elem_of_nil in He].
  apply list_elem_of_singleton in He as ->. simpl. split; [done|].
  by eapply dict_get_Some_key.
Qed.

Lemma noun_chunk_matches_elem self nlp text_lower e :
  e ∈ noun_chunk_matches self nlp text_lower →
  confidence e = conf_0_7 ∧ normalized e ∈ Py.dict_keys (symptoms_dict self).
Proof.
  unfold noun_chunk_matches.
  intros (chunk & He & _)%list_elem_of_bind.
  destruct (Py.dict_get _ _) as [display|] eqn:E; [|by apply elem_of_nil in He].
  apply list_elem_of_singleton in He as ->. simpl. split; [done|].
  by eapply dict_get_Some_key.
Qed.

Lemma candidates_in_vocabulary self text language c :
  c ∈ candidates self text language →
  normalized c ∈ Py.dict_keys (symptoms_dict self).
Proof.
  unfold candidates. destruct (select_nlp _ _) as [nlp|].
  - unfold full_candidates. rewrite !elem_of_app.
    intros [H|[H|H]].
    + by eapply known_symptom_matches_elem.
    + by eapply synonym_matches_elem.
    + by eapply noun_chunk_matches_elem.
  - unfold fallback_candidates. rewrite !elem_of_app.
    intros [H|H].
    + by eapply known_symptom_matches_elem.
    + by eapply synonym_matches_elem.
Qed.

(** The fallback candidates are in descending order of confidence. *)
Lemma fallback_candidates_sorted self text :
  StronglySorted confidence_ge (fallback_candidates self text).
Proof.
  unfold fallback_candidates. apply StronglySorted_app_2.
  - intros x y [Hx _]%known_symptom_matches_elem [Hy _]%synonym_matches_elem.
    unfold confidence_ge. rewrite Hx, Hy. by apply Qc_ltb_false.
  - apply StronglySorted_all.
    intros x y [Hx _]%known_symptom_matches_elem [Hy _]%known_symptom_matches_elem.
    unfold confidence_ge. rewrite Hx, Hy. apply Qcle_refl.
  - apply StronglySorted_all.
    intros x y [Hx _]%synonym_matches_elem [Hy _]%synonym_matches_elem.
    unfold confidence_ge. rewrite Hx, Hy. apply Qcle_refl.
Qed.

(** ** Extraction *)

(** The two modes of [extract_symptoms], over the candidates of the mode. *)
Lemma extract_symptoms_cases self text language :
  let cands := candidates self text language in
  (extract_symptoms self text language
     = Py.dict_values (fold_left keep_first cands [])
   ∧ StronglySorted confidence_ge cands)
  ∨ extract_symptoms self text language
    = Py.sort_reverse confidence Qc_ltb
        (Py.dict_values (fold_left keep_highest cands [])).
Proof.
  unfold extract_symptoms, candidates.
  destruct (select_nlp _ _) as [nlp|]; [by right|left].
  split; [done|apply fallback_candidates_sorted].
Qed.

Lemma values_elem_get (U : list (string * Extraction)) e :
  NoDup (Py.dict_keys U) → keyed U → e ∈ Py.dict_values U →
  Py.dict_get (normalized e) U = Some e.
Proof.
  intros Hnd Hk ([k v] & -> & Hin)%list_elem_of_fmap. simpl.
  rewrite (Hk k v Hin). by apply dict_get_elem_NoDup.
Qed.

Lemma fold_keys_first_seen
    (keep : list (string * Extraction) → Extraction → list (string * Extraction)) cands :
  (∀ U s, Py.dict_keys (keep U s) = see (Py.dict_keys U) (normalized s)) →
  Py.dict_keys (fold_left keep cands []) = first_seen_order cands.
Proof. intros Hkeep. by rewrite fold_keys. Qed.

Lemma Qc_ltb_asym a b : Qc_ltb a b = true → Qc_ltb b a = false.
Proof. rewrite Qc_ltb_true, Qc_ltb_false. apply Qclt_le_weak. Qed.

Lemma Qc_ge_trans a b c : Qc_ltb a b = false → Qc_ltb b c = false → Qc_ltb a c = false.
Proof. rewrite !Qc_ltb_false. intros H1 H2. by eapply Qcle_trans. Qed.

Lemma sublist_fmap {A B} (f : A → B) (l1 l2 : list A) :
  l1 `sublist_of` l2 → (f <$> l1) `sublist_of` (f <$> l2).
Proof. induction 1; simpl; by constructor. Qed.

(** What both modes of extraction establish. *)
Lemma extract_symptoms_properties self text language :
  let result := extract_symptoms self text language in
  let cands := candidates self text language in
  NoDup (normalized <$> result)
  ∧ normalized <$> result ≡ₚ first_seen_order cands
  ∧ (∀ e, e ∈ result →
       e ∈ cands
       ∧ ∀ c, c ∈ cands → normalized c = normalized e →
              (confidence c ≤ confidence e)%Qc)
  ∧ StronglySorted confidence_ge result
  ∧ (∀ q, (normalized <$> filter (λ e, confidence e = q) result)
            `sublist_of` first_seen_order cands).
Proof.
  intros result cands.
  destruct (extract_symptoms_cases self text language) as [[E Hsorted]|E];
    fold result cands in E; try fold cands in Hsorted; rewrite E; clear E.
  - (* fallback mode *)
    set (U := fold_left keep_first cands []).
    assert (Hkeyed : keyed U) by (apply fold_keyed; [apply keep_first_keyed|apply keyed_nil]).
    assert (Hkeys : Py.dict_keys U = first_seen_order cands)
      by (apply fold_keys_first_seen, keep_first_keys).
    assert (Hnd : NoDup (Py.dict_keys U))
      by (rewrite Hkeys; apply first_seen_order_NoDup).
    destruct (fold_keep_first_values cands []) as (L & HL & Hsub).
    fold U in HL. simpl in HL.
    split_and!.
    + by rewrite keyed_values.
    + by rewrite keyed_values, Hkeys.
    + intros e He. split; [rewrite HL in He; by eapply elem_of_sublist|].
      intros c Hc Hce.
      pose proof (values_elem_get U e Hnd Hkeyed He) as Hget.
      unfold U in Hget. rewrite fold_keep_first_get in Hget. simpl in Hget.
      assert (Hcf : c ∈ filter (λ c, normalized c = normalized e) cands)
        by by apply list_elem_of_filter.
      destruct (StronglySorted_head confidence_ge _ e c
                  (StronglySorted_sublist _ _ _ (sublist_filter _ _) Hsorted)
                  Hget Hcf) as [->|H]; [apply Qcle_refl|done].
    + rewrite HL. by eapply StronglySorted_sublist.
    + intros q. rewrite <-Hkeys, <-keyed_values by done.
      apply sublist_fmap, sublist_filter.
  - (* full mode *)
    set (U := fold_left keep_highest cands []).
    assert (Hkeyed : keyed U) by (apply fold_keyed; [apply keep_highest_keyed|apply keyed_nil]).
    assert (Hkeys : Py.dict_keys U = first_seen_order cands)
      by (apply fold_keys_first_seen, keep_highest_keys).
    assert (Hnd : NoDup (Py.dict_keys U))
      by (rewrite Hkeys; apply first_seen_order_NoDup).
    split_and!.
    + rewrite sort_reverse_perm. by rewrite keyed_values.
    + by rewrite sort_reverse_perm, keyed_values, Hkeys.
    + intros e He. rewrite sort_reverse_perm in He.
      pose proof (values_elem_get U e Hnd Hkeyed He) as Hget.
      destruct (fold_keep_highest_get _ _ _ _ Hget) as ([Hin|Hin] & Hmax & _);
        [|done].
      split; [done|]. intros c Hc Hce. by apply Hmax.
    + eapply StronglySorted_weaken;
        [|apply sort_reverse_sorted; [apply Qc_ltb_asym|apply Qc_ge_trans]].
      intros x y Hxy. unfold Py.not_below in Hxy. by apply Qc_ltb_false.
    + intros q. rewrite sort_reverse_stable.
      * rewrite <-Hkeys, <-keyed_values by done.
        apply sublist_fmap, sublist_filter.
      * intros a b -> <-. apply Qc_ltb_false, Qcle_refl.
Qed.

(** C4. In both modes the result of [extract_symptoms] holds each
    normalised token at most once, and holds exactly the tokens of the
    candidates; each entry is a candidate, and no
    candidate with the same token has a greater confidence; the entries are in
    descending order of confidence; and the entries of one confidence stand in
    the order in which their tokens were first seen among the candidates. *)
Theorem extract_symptoms_dedup_sorted (self : SymptomExtractor) (text : string)
    (language : option string) :
  let result := extract_symptoms self text language in
  let cands := candidates self text language in
  NoDup (normalized <$> result)
  ∧ normalized <$> result ≡ₚ first_seen_order cands
  ∧ Forall (λ e, e ∈ cands
                 ∧ Forall (λ c, normalized c = normalized e →
                                (confidence c ≤ confidence e)%Qc) cands) result
  ∧ StronglySorted confidence_ge result
  ∧ (∀ q, (normalized <$> filter (λ e, confidence e = q) result)
            `sublist_of` first_seen_order cands).
Proof.
  intros result cands.
  destruct (extract_symptoms_properties self text language)
    as (Hnd & Hperm & Hmax & Hsorted & Hties).
  split_and!; try done.
  apply Forall_forall. intros e He. destruct (Hmax e He) as [Hin Hc].
  split; [done|]. apply Forall_forall. intros c Hcc. by apply Hc.
Qed.

(** C10. Every entry that [extract_symptoms] returns, in either mode,
    carries a normalised token that is a key of the vocabulary
    [symptoms_dict]. *)
Theorem extract_symptoms_in_vocabulary (self : SymptomExtractor) (text : string)
    (language : option string) :
  Forall (λ e, normalized e ∈ Py.dict_keys (symptoms_dict self))
         (extract_symptoms self text language).
Proof.
  apply Forall_forall. intros e He.
  destruct (extract_symptoms_properties self text language) as (_ & _ & Hmax & _).
  destruct (Hmax e He) as [Hin _].
  by eapply candidates_in_vocabulary.
Qed.

(** ** Scenarios *)

Example score_exact_match :
  _calculate_match_score ["skin_rash"; "itching"]
    ["skin_rash"; "itching"; "nodal_skin_eruptions"] = Qc_of_nat 10.
Proof. apply Qc_is_canon. vm_compute. reflexivity. Qed.

Example score_partial_match :
  _calculate_match_score ["skin_rash"; "fever"]
    ["skin_rash"; "itching"; "nodal_skin_eruptions"] = Qc_of_nat 5.
Proof. apply Qc_is_canon. vm_compute. reflexivity. Qed.

(** One matching token out of two for each disease: equal scores, the more
    urgent disease first. *)
Example query_sample :
  match query_diseases_by_symptoms (λ _, None) (λ _, []) sample_kg ["skin_rash"; "fever"] with
  | Ok ds => map (λ d, (name d, matched_symptoms d, this (score d))) ds
  | Raise _ => []
  end = [("Malaria", ["fever"], 5%Q); ("Fungal infection", ["skin_rash"], 5%Q)].
Proof. vm_compute. reflexivity. Qed.

(** A disease that shares no symptom with the input is not returned. *)
Example query_excludes_unrelated :
  match query_diseases_by_symptoms (λ _, None) (λ _, []) sample_kg ["itching"] with
  | Ok ds => map name ds
  | Raise _ => []
  end = ["Fungal infection"].
Proof. vm_compute. reflexivity. Qed.

(** A token that no disease has gives the empty list. *)
Example query_no_match :
  query_diseases_by_symptoms (λ _, None) (λ _, []) sample_kg ["nonexistent_symptom_xyz"] = Ok [].
Proof. vm_compute. reflexivity. Qed.

(** When the query layer fails the result is the empty list. *)
Example query_layer_failure :
  query_diseases_by_symptoms (λ _, Some (Exception "syntax error")) (λ _, []) sample_kg
    ["fever"]
  = Ok [].
Proof. reflexivity. Qed.

(** Equal keys keep their order; a greater urgency goes first. *)
Example rank_ties :
  let d n u := {| uri := n; name := n; description := ""; urgency := u;
                  symptoms := []; matched_symptoms := [];
                  match_score := Some (Qc_of_nat 5); match_percentage := None;
                  specialty := None; precautions := [] |} in
  map name (rank_diseases [d "a" (Some "low"); d "b" None; d "c" (Some "MEDIUM");
                           d "d" (Some "High"); d "e" (Some "unknown")] [])
  = ["d"; "b"; "c"; "e"; "a"].
Proof. vm_compute. reflexivity. Qed.

Example details_without_precautions :
  match get_disease_details (λ _, None) (λ _, []) sample_kg
          "http://medbot.org/instances#Disease_Malaria" with
  | Ok (Some details) =>
      Some (details_name details, details_urgency details,
            details_specialty details, details_precautions details)
  | _ => None
  end
  = Some ("Malaria", "high",
          Some {| specialty_name := "Internal Medicine"; department := "General";
                  location := "Main Building" |}, []).
Proof. vm_compute. reflexivity. Qed.

Lemma match_score_formula_witness :
  ∃ results,
    query_diseases_by_symptoms (λ _, None) (λ _, []) sample_kg ["skin_rash"; "itching"]
    = Ok results
    ∧ (∀ d, d ∈ results →
         ∃ s, match_score d = Some s
              ∧ s = spec_match_score (list_to_set ["skin_rash"; "itching"])
                                     (list_to_set (symptoms d))
              ∧ match_percentage d = Some (s * Qc_of_nat 10)%Qc
              ∧ (Qc_of_nat 0 ≤ s ∧ s ≤ Qc_of_nat 10)%Qc
              ∧ (Qc_of_nat 0 ≤ s * Qc_of_nat 10
                 ∧ s * Qc_of_nat 10 ≤ Qc_of_nat 100)%Qc)
    ∧ (∀ d, d ∈ results →
         plain_iri (uri d) →
         (λ _ : SparqlQuery, @None exn) (DiseaseSymptoms (uri d)) = None →
         ∀ n, n ∈ symptoms d
              ↔ ∃ symptom symptomName,
                  (uri d, MED "hasSymptom", URIRef symptom) ∈ graph sample_kg
                  ∧ (symptom, MED "symptomName", symptomName) ∈ graph sample_kg
                  ∧ node_str symptomName = n)
    ∧ (Forall plain_literal ["skin_rash"; "itching"] →
       (λ _ : SparqlQuery, @None exn) (DiseasesBySymptoms ["skin_rash"; "itching"])
       = None →
       ∀ disease diseaseName,
         known_disease (graph sample_kg) disease →
         (disease, MED "diseaseName", diseaseName) ∈ graph sample_kg →
         linked_to_input (graph sample_kg) disease ["skin_rash"; "itching"] →
         ∃ d, d ∈ results ∧ uri d = disease).
Proof.
  apply (match_score_formula (λ _, None) (λ _, []) sample_kg ["skin_rash"; "itching"]).
  - discriminate.
  - apply (bool_decide_unpack _). vm_compute. reflexivity.
Defined.

(** On the sample store the entry of the query carries the three symptoms
    of its disease and the score 10. *)
Example query_sample_entry :
  match query_diseases_by_symptoms (λ _, None) (λ _, []) sample_kg
          ["skin_rash"; "itching"] with
  | Ok ds => map (λ d, (name d, symptoms d, this (score d))) ds
  | Raise _ => []
  end = [("Fungal infection", ["skin_rash"; "itching"; "nodal_skin_eruptions"], 10%Q)].
Proof. vm_compute. reflexivity. Qed.

Example fallback_sample :
  _fallback_response sample_format_f [sample_disease] "en"
  = "Based on your symptoms, here's my analysis:" +:+ nl +:+ nl
    +:+ "🔍 **Possible Condition**: Fungal infection" +:+ nl
    +:+ "   - Match: 85%" +:+ nl
    +:+ "   - Urgency: LOW" +:+ nl +:+ nl
    +:+ "💊 **Recommendation**:" +:+ nl
    +:+ "   - Specialty: Dermatology" +:+ nl
    +:+ "   - Department: Skin Department" +:+ nl +:+ nl
    +:+ "⚠️ **Precautions**:" +:+ nl
    +:+ "   - bath twice" +:+ nl
    +:+ "   - use detol or neem in bathing water" +:+ nl
    +:+ "   - keep infected area dry" +:+ nl +:+ nl
    +:+ "⚕️ **Important**: This analysis is indicative. Consult a healthcare professional for an accurate diagnosis.".
Proof. vm_compute. reflexivity. Qed.

Lemma generate_response_falls_back_witness :
  generation_fails sample_format_f sample_rag "J'ai des démangeaisons"
    [sample_disease] (Some "en")
  ∧ generate_response sample_format_f sample_rag "J'ai des démangeaisons"
      [sample_disease] (Some "en")
    = (Ok (_fallback_response sample_format_f [sample_disease] "en"), sample_rag).
Proof.
  assert (Hfail : generation_fails sample_format_f sample_rag
                    "J'ai des démangeaisons" [sample_disease] (Some "en")).
  { eexists. reflexivity. }
  split; [exact Hfail|].
  exact (proj1 (generate_response_falls_back sample_format_f sample_rag
                  "J'ai des démangeaisons" [sample_disease] (Some "en") Hfail)).
Defined.

Example normalize_skin_rash : _normalize_symptom_name "Skin Rash" = "skin_rash".
Proof. reflexivity. Qed.

Example normalize_trims : _normalize_symptom_name "  Chest-Pain " = "chest_pain".
Proof. reflexivity. Qed.

Example normalize_surrounded :
  _normalize_symptom_name "  Skin   Rash-X " = "skin___rash_x".
Proof. reflexivity. Qed.

Example normalize_keeps_tab :
  _normalize_symptom_name ("a" +:+ String "009" "b") = "a" +:+ String "009" "b".
Proof. reflexivity. Qed.

Example detect_french : detect_language "Je suis malade" = "fr".
Proof. vm_compute. reflexivity. Qed.

Example detect_english : detect_language "I have fever and headache" = "en".
Proof. vm_compute. reflexivity. Qed.

(** On an input list with a repeated token the divisor counts the
    repetition. *)
Example score_repeated_token :
  _calculate_match_score ["itching"; "itching"] ["itching"] = Qc_of_nat 5.
Proof. apply Qc_is_canon. vm_compute. reflexivity. Qed.

Example extract_full_mode :
  map (λ e, (normalized e, method e, confidence e))
      (extract_symptoms sample_extractor "I have maux de tête and fever" (Some "en"))
  = [("fever", "exact_match", conf_0_9); ("headache", "synonym_match", conf_0_85)].
Proof. vm_compute. reflexivity. Qed.

Example extract_fallback_mode :
  map (λ e, (normalized e, method e, confidence e))
      (extract_symptoms sample_extractor "J'ai des maux de tête" (Some "fr"))
  = [("headache", "synonym_keyword", conf_0_75)].
Proof. vm_compute. reflexivity. Qed.

Example extract_synonym_outside_vocabulary :
  extract_symptoms sample_extractor_small "J'ai des maux de tête" (Some "fr") = [].
Proof. vm_compute. reflexivity. Qed.

Example extract_empty_text : extract_symptoms sample_extractor "" None = [].
Proof. vm_compute. reflexivity. Qed.

Example query_empty_input :
  query_diseases_by_symptoms (λ _, None) (λ _, []) sample_kg [] = Ok [].
Proof. reflexivity. Qed.

Example details_unknown_id :
  get_disease_details (λ _, None) (λ _, []) sample_kg "http://medbot.org/instances#Disease_X"
  = Ok None.
Proof. vm_compute. reflexivity. Qed.

(** * Properties of the further code *)

(** ** Match score: extremes, order and growth *)

Lemma Qc_of_nat_lt n m : n < m → (Qc_of_nat n < Qc_of_nat m)%Qc.
Proof. intros. unfold Qc_of_nat. apply (proj1 (Z2Qc_inj_lt _ _)). lia. Qed.

Lemma Qc_of_nat_inj n m : Qc_of_nat n = Qc_of_nat m → n = m.
Proof. unfold Qc_of_nat. intros H%Z2Qc_inj. lia. Qed.

(** The score on a non-empty input, before the cap: the ratio times ten. *)
Lemma calculate_match_score_ratio us ds :
  us ≠ [] →
  _calculate_match_score us ds
  = (Qc_of_nat (size ((list_to_set us : gset string) ∩ list_to_set ds))
     / Qc_of_nat (length us) * Qc_of_nat 10)%Qc.
Proof.
  intros Hne. unfold _calculate_match_score.
  assert (Hlen : 0 < length us) by (destruct us; [done|simpl; lia]).
  destruct (ratio_times_ten_bounds _ _ (matched_le_input us ds) Hlen) as [Hlo Hhi].
  rewrite bool_decide_eq_false_2 by done. simpl.
  destruct (bool_decide (ds = [])) eqn:E.
  - apply bool_decide_eq_true in E. subst ds.
    rewrite list_to_set_nil, intersection_empty_r_L, size_empty.
    rewrite Qc_of_nat_0. unfold Qcdiv. by rewrite !Qcmult_0_l.
  - by rewrite Qc_min_id.
Qed.

Lemma ratio_times_ten_mono m m' n :
  0 < n → m ≤ m' →
  (Qc_of_nat m / Qc_of_nat n * Qc_of_nat 10
   ≤ Qc_of_nat m' / Qc_of_nat n * Qc_of_nat 10)%Qc.
Proof.
  intros Hn Hm.
  pose proof (Qc_of_nat_pos n Hn) as Hpos. rewrite Qc_of_nat_0 in Hpos.
  pose proof (Qc_of_nat_nonneg 10) as H10. rewrite Qc_of_nat_0 in H10.
  apply Qcmult_le_mono_nonneg_r; [done|]. unfold Qcdiv.
  apply Qcmult_le_mono_nonneg_r; [by apply Qclt_le_weak, Qcinv_pos|].
  by apply Qc_of_nat_le.
Qed.

Lemma ratio_times_ten_strict m m' n :
  0 < n → m < m' →
  (Qc_of_nat m / Qc_of_nat n * Qc_of_nat 10
   < Qc_of_nat m' / Qc_of_nat n * Qc_of_nat 10)%Qc.
Proof.
  intros Hn Hm.
  pose proof (Qc_of_nat_pos n Hn) as Hpos. rewrite Qc_of_nat_0 in Hpos.
  pose proof (Qc_of_nat_pos 10 ltac:(lia)) as H10. rewrite Qc_of_nat_0 in H10.
  apply Qcmult_lt_mono_pos_r; [done|]. unfold Qcdiv.
  apply Qcmult_lt_mono_pos_r; [by apply Qcinv_pos|].
  by apply Qc_of_nat_lt.
Qed.

Lemma ratio_full n :
  0 < n → (Qc_of_nat n / Qc_of_nat n * Qc_of_nat 10 = Qc_of_nat 10)%Qc.
Proof.
  intros Hn.
  pose proof (Qc_of_nat_pos n Hn) as Hpos. rewrite Qc_of_nat_0 in Hpos.
  unfold Qcdiv. rewrite Qcmult_inv_r, Qcmult_1_l; [done|].
  intros E. rewrite E in Hpos. by apply (Qclt_not_eq _ _ Hpos).
Qed.

Lemma ratio_none n : (Qc_of_nat 0 / Qc_of_nat n * Qc_of_nat 10 = Qc_of_nat 0)%Qc.
Proof. rewrite Qc_of_nat_0. unfold Qcdiv. by rewrite !Qcmult_0_l. Qed.

(** X1. On a non-empty input without repetition the score is 10 exactly when
    every input token is a symptom of the disease, and 0 exactly when none
    is. *)
Theorem match_score_extremes (user_symptoms disease_symptoms : list string) :
  user_symptoms ≠ [] → NoDup user_symptoms →
  (_calculate_match_score user_symptoms disease_symptoms = Qc_of_nat 10
   ↔ all_found user_symptoms disease_symptoms)
  ∧ (_calculate_match_score user_symptoms disease_symptoms = Qc_of_nat 0
     ↔ none_found user_symptoms disease_symptoms).
Proof.
  intros Hne Hnd. rewrite calculate_match_score_ratio by done.
  set (U := list_to_set user_symptoms : gset string).
  set (D := list_to_set disease_symptoms : gset string).
  assert (Hlen : 0 < length user_symptoms)
    by (destruct user_symptoms; [done|simpl; lia]).
  assert (HU : size U = length user_symptoms) by by apply size_list_to_set.
  assert (Hle : size (U ∩ D) ≤ length user_symptoms) by apply matched_le_input.
  split; split.
  - intros Hs. assert (size (U ∩ D) = length user_symptoms) as Heq.
    { destruct (decide (size (U ∩ D) = length user_symptoms)) as [|Hn]; [done|].
      assert (Hlt : size (U ∩ D) < length user_symptoms) by lia.
      pose proof (ratio_times_ten_strict _ _ _ Hlen Hlt) as Hstrict.
      rewrite ratio_full, Hs in Hstrict by done.
      by destruct (Qclt_not_eq _ _ Hstrict). }
    assert (U ∩ D = U) as Hsame.
    { apply set_subseteq_size_eq; [apply intersection_subseteq_l|lia]. }
    intros s Hs'. assert (s ∈ U ∩ D) as Hin by (rewrite Hsame; by apply elem_of_list_to_set).
    apply elem_of_intersection in Hin as [_ Hin]. by apply elem_of_list_to_set in Hin.
  - intros Hall. assert (U ∩ D = U) as ->.
    { apply set_eq. intros s. rewrite elem_of_intersection. split; [by intros [? _]|].
      intros Hs. split; [done|]. apply elem_of_list_to_set, Hall.
      by apply elem_of_list_to_set in Hs. }
    rewrite HU. by apply ratio_full.
  - intros Hs. assert (size (U ∩ D) = 0) as Heq.
    { destruct (decide (size (U ∩ D) = 0)) as [|Hn]; [done|].
      assert (Hlt : 0 < size (U ∩ D)) by lia.
      pose proof (ratio_times_ten_strict _ _ _ Hlen Hlt) as Hstrict.
      rewrite ratio_none, Hs in Hstrict.
      by destruct (Qclt_not_eq _ _ Hstrict). }
    apply size_empty_iff in Heq. intros s Hs1 Hs2.
    assert (s ∈ U ∩ D) as Hin
      by (apply elem_of_intersection; split; by apply elem_of_list_to_set).
    apply Heq in Hin. by apply elem_of_empty in Hin.
  - intros Hnone. assert (U ∩ D = ∅) as ->.
    { apply set_eq. intros s. unfold U, D.
      rewrite elem_of_intersection, !elem_of_list_to_set.
      split; [|by intros ?%elem_of_empty]. intros [H1 H2]. by destruct (Hnone s). }
    rewrite size_empty. apply ratio_none.
Qed.

Lemma match_score_extremes_witness :
  (_calculate_match_score ["skin_rash"; "itching"] ["itching"; "skin_rash"; "fever"]
   = Qc_of_nat 10
   ↔ all_found ["skin_rash"; "itching"] ["itching"; "skin_rash"; "fever"])
  ∧ (_calculate_match_score ["skin_rash"; "itching"] ["itching"; "skin_rash"; "fever"]
     = Qc_of_nat 0
     ↔ none_found ["skin_rash"; "itching"] ["itching"; "skin_rash"; "fever"]).
Proof.
  apply (match_score_extremes ["skin_rash"; "itching"] ["itching"; "skin_rash"; "fever"]).
  - discriminate.
  - apply (bool_decide_unpack _). vm_compute. reflexivity.
Defined.

(** X2. The score does not depend on the order of either list nor on
    repetitions in the list of the disease, and it does not decrease when the
    disease gains symptoms. *)
Theorem match_score_order_and_growth (us us' ds ds' : list string) :
  (us ≡ₚ us' → (∀ s, s ∈ ds ↔ s ∈ ds') →
   _calculate_match_score us ds = _calculate_match_score us' ds')
  ∧ ((∀ s, s ∈ ds → s ∈ ds') →
     (_calculate_match_score us ds ≤ _calculate_match_score us ds')%Qc).
Proof.
  split.
  - intros Hperm Hsame. unfold _calculate_match_score.
    assert ((list_to_set us : gset string) = list_to_set us') as ->.
    { apply set_eq. intros s. rewrite !elem_of_list_to_set. by rewrite Hperm. }
    assert ((list_to_set ds : gset string) = list_to_set ds') as ->.
    { apply set_eq. intros s. by rewrite !elem_of_list_to_set. }
    rewrite (Permutation_length Hperm).
    assert (bool_decide (us = []) = bool_decide (us' = [])) as ->.
    { apply bool_decide_ext. split; intros ->.
      - by apply Permutation_nil_l in Hperm.
      - by apply Permutation_nil_r in Hperm. }
    assert (bool_decide (ds = []) = bool_decide (ds' = [])) as ->; [|done].
    apply bool_decide_ext. split; intros ->.
    + apply elem_of_nil_inv. intros s Hs%Hsame. by apply elem_of_nil in Hs.
    + apply elem_of_nil_inv. intros s Hs%Hsame. by apply elem_of_nil in Hs.
  - intros Hsub. destruct us as [|u us].
    { unfold _calculate_match_score. simpl. apply Qcle_refl. }
    rewrite !calculate_match_score_ratio by done.
    apply ratio_times_ten_mono; [simpl; lia|].
    apply subseteq_size. intros s. rewrite !elem_of_intersection, !elem_of_list_to_set.
    intros [? ?]. auto.
Qed.

(** ** Ranking again *)

Section SortFixed.
Context {A K : Type} (key : A → K) (lt : K → K → bool).

Lemma insert_desc_head x l :
  Forall (Py.not_below key lt x) l → Py.insert_desc key lt x l = x :: l.
Proof.
  destruct l as [|y l]; [done|]. intros [Hy _]%Forall_cons. simpl.
  unfold Py.not_below in Hy. by rewrite Hy.
Qed.

(** A list in descending key order is left as it is. *)
Lemma sort_reverse_fixed l :
  StronglySorted (Py.not_below key lt) l → Py.sort_reverse key lt l = l.
Proof.
  induction 1 as [|x l Hl IH Hx]; [done|]. simpl.
  rewrite IH. by apply insert_desc_head.
Qed.

End SortFixed.

(** X3. Ranking a ranked list changes nothing, whatever the symptom lists
    passed along. *)
Theorem rank_diseases_idempotent (diseases : list Disease)
    (user_symptoms user_symptoms' : list string) :
  rank_diseases (rank_diseases diseases user_symptoms) user_symptoms'
  = rank_diseases diseases user_symptoms.
Proof.
  unfold rank_diseases. apply sort_reverse_fixed, sort_reverse_sorted.
  - apply sort_key_lt_asym.
  - apply sort_key_ge_trans.
Qed.

(** ** The disease query: what it finds and how its fields agree *)

Section QueryEngineMore.
Variable query_error : SparqlQuery → option exn.
Variable foreign : SparqlQuery → list Solution.

(** X4. For input names whose texts stand for the terms [terms] in the
    disease query: every returned entry is a disease of the store with a
    symptom named by one of the terms; and when rdflib accepts the query,
    every disease that the graph types as a disease, that has a name, and
    that has a symptom named by one of the terms is in the result, under
    its IRI and that name (["Unknown"] for an empty name). *)
Theorem query_diseases_complete (self : MedicalKnowledgeGraph)
    (symptom_names terms : list string) :
  in_list symptom_names = Some terms →
  ∃ results,
    query_diseases_by_symptoms query_error foreign self symptom_names = Ok results
    ∧ (∀ d, d ∈ results →
         known_disease (graph self) (uri d)
         ∧ linked_to_input (graph self) (uri d) terms)
    ∧ (query_error (DiseasesBySymptoms symptom_names) = None →
       ∀ disease diseaseName,
         known_disease (graph self) disease →
         (disease, MED "diseaseName", diseaseName) ∈ graph self →
         linked_to_input (graph self) disease terms →
         ∃ d, d ∈ results ∧ uri d = disease
              ∧ name d = str_or "Unknown" (Some diseaseName)).
Proof.
  intros Hread.
  destruct (query_diseases_total query_error foreign self symptom_names)
    as (results & Hq & Hres).
  exists results. split_and!; [done| |].
  - intros d Hd. by eapply query_diseases_linked.
  - intros Hok disease diseaseName Hk Hn Hl.
    destruct (query_finds_linked query_error foreign self symptom_names terms
                disease diseaseName Hread Hok Hk Hn Hl)
      as (results' & d & Hq' & Hd & Hu & Hname).
    rewrite Hq in Hq'. injection Hq' as <-. by exists d.
Qed.

(** X5. The fields of a returned entry agree: the matched symptoms are the
    input names that are among the entry's symptoms, in the order of the
    input, and on an input without repetition the match score is their
    number divided by the number of input names, times ten. *)
Theorem query_diseases_fields_agree (self : MedicalKnowledgeGraph)
    (symptom_names : list string) :
  NoDup symptom_names →
  ∃ results,
    query_diseases_by_symptoms query_error foreign self symptom_names = Ok results
    ∧ ∀ d, d ∈ results →
        matched_symptoms d `sublist_of` symptom_names
        ∧ (∀ s, s ∈ matched_symptoms d ↔ s ∈ symptom_names ∧ s ∈ symptoms d)
        ∧ match_score d
          = Some (Qc_of_nat (length (matched_symptoms d))
                  / Qc_of_nat (length symptom_names) * Qc_of_nat 10)%Qc.
Proof.
  intros Hnd.
  destruct (query_diseases_total query_error foreign self symptom_names)
    as (results & Hq & Hres).
  exists results. split; [done|]. intros d Hd.
  destruct (Hres d Hd) as (row & Hrow & Hbuild).
  destruct (disease_of_row_total query_error foreign self symptom_names row)
    as (d' & Hd' & _ & Hs & _ & Hm).
  rewrite Hbuild in Hd'. injection Hd' as <-.
  assert (symptom_names ≠ []) as Hne.
  { intros ->. unfold query_diseases_by_symptoms in Hq. simpl in Hq.
    injection Hq as <-. by apply elem_of_nil in Hd. }
  split_and!.
  - rewrite Hm. apply sublist_filter.
  - intros s. rewrite Hm, list_elem_of_filter. split; intros [? ?]; by split.
  - rewrite Hs, calculate_match_score_ratio by done. do 4 f_equal.
    rewrite Hm. rewrite <-(size_list_to_set (C:=gset string))
      by by apply NoDup_filter.
    f_equal. apply set_eq. intros s.
    rewrite elem_of_intersection, !elem_of_list_to_set, list_elem_of_filter.
    split; intros [? ?]; by split.
Qed.

(** X6. When the input names stand for themselves in the text of the
    disease query, the IRIs of the diseases of the store stand for
    themselves in the text of the symptom query, and rdflib accepts the
    symptom queries, every returned entry has at least one matched symptom
    and a score above zero. *)
Theorem query_diseases_match_something (self : MedicalKnowledgeGraph)
    (symptom_names : list string) :
  Forall plain_literal symptom_names →
  (∀ disease, known_disease (graph self) disease → plain_iri disease) →
  (∀ uri, query_error (DiseaseSymptoms uri) = None) →
  ∃ results,
    query_diseases_by_symptoms query_error foreign self symptom_names = Ok results
    ∧ ∀ d, d ∈ results →
        matched_symptoms d ≠ []
        ∧ ∃ s, match_score d = Some s ∧ (Qc_of_nat 0 < s)%Qc.
Proof.
  intros Hplain Hiris Hok.
  destruct (query_diseases_total query_error foreign self symptom_names)
    as (results & Hq & Hres).
  exists results. split; [done|]. intros d Hd.
  destruct (Hres d Hd) as ([[[disease dn] de] ur] & Hrow & Hbuild).
  rewrite (disease_rows_meant foreign self symptom_names symptom_names
             (in_list_plain _ Hplain)) in Hrow.
  pose proof (select_diseases_known _ _ _ Hrow) as [Hk _]. simpl in Hk.
  apply select_diseases_linked in Hrow as (sym & n & Hsym & Hname & Hin).
  assert (symptom_names ≠ []) as Hne by (intros ->; by apply elem_of_nil in Hin).
  unfold disease_of_row in Hbuild.
  rewrite (get_disease_symptoms_meant query_error foreign self disease
             (Hiris _ Hk) (Hok _)) in Hbuild.
  simpl in Hbuild. injection Hbuild as <-. simpl.
  assert (n ∈ node_str <$> select_disease_symptoms (graph self) disease) as Hn.
  { apply elem_of_disease_symptoms. by exists sym, (Literal n). }
  split.
  - intros E. assert (n ∈ filter (λ s, s ∈ node_str <$> select_disease_symptoms
                                          (graph self) disease) symptom_names) as Hf
      by by apply list_elem_of_filter.
    rewrite E in Hf. by apply elem_of_nil in Hf.
  - eexists. split; [reflexivity|].
    rewrite calculate_match_score_ratio by done.
    rewrite <-(ratio_none (length symptom_names)).
    apply ratio_times_ten_strict; [destruct symptom_names; [done|simpl; lia]|].
    assert (size ((list_to_set symptom_names : gset string)
                  ∩ list_to_set (node_str <$> select_disease_symptoms (graph self) disease))
            ≠ 0); [|lia].
    intros E%size_empty_iff.
    assert (n ∈ (list_to_set symptom_names : gset string)
                ∩ list_to_set (node_str <$> select_disease_symptoms (graph self) disease))
      as Hboth by (apply elem_of_intersection; split; by apply elem_of_list_to_set).
    apply E in Hboth. by apply elem_of_empty in Hboth.
Qed.

End QueryEngineMore.

(** ** The order of terms *)

Lemma ascii_compare_refl c : Ascii.compare c c = Eq.
Proof. apply N.compare_refl. Qed.

Lemma ascii_compare_lt_trans a b c :
  Ascii.compare a b = Lt → Ascii.compare b c = Lt → Ascii.compare a c = Lt.
Proof. unfold Ascii.compare. rewrite !N.compare_lt_iff. apply N.lt_trans. Qed.

Lemma string_compare_cons c1 s1 c2 s2 :
  String.compare (String c1 s1) (String c2 s2)
  = match Ascii.compare c1 c2 with
    | Eq => String.compare s1 s2
    | Lt => Lt
    | Gt => Gt
    end.
Proof. reflexivity. Qed.

Lemma string_compare_not_gt_trans a b c :
  String.compare a b ≠ Gt → String.compare b c ≠ Gt → String.compare a c ≠ Gt.
Proof.
  revert b c. induction a as [|c1 s1 IH]; intros [|c2 s2] [|c3 s3]; try done.
  rewrite !string_compare_cons.
  destruct (Ascii.compare c1 c2) eqn:E12; [| |done];
    destruct (Ascii.compare c2 c3) eqn:E23; try done.
  - apply Ascii.compare_eq_iff in E12 as ->. apply Ascii.compare_eq_iff in E23 as ->.
    rewrite ascii_compare_refl. apply IH.
  - apply Ascii.compare_eq_iff in E12 as ->. by rewrite E23.
  - apply Ascii.compare_eq_iff in E23 as <-. by rewrite E12.
  - by rewrite (ascii_compare_lt_trans _ _ _ E12 E23).
Qed.

Lemma string_leb_not_gt a b : String.leb a b = true ↔ String.compare a b ≠ Gt.
Proof. unfold String.leb. by destruct (String.compare a b). Qed.

Lemma string_leb_trans a b c :
  String.leb a b = true → String.leb b c = true → String.leb a c = true.
Proof. rewrite !string_leb_not_gt. apply string_compare_not_gt_trans. Qed.

Global Instance node_le_total : Total node_le.
Proof.
  intros [x|x] [y|y]; unfold node_le; simpl; auto using String.leb_total.
Qed.

Global Instance node_le_trans : Transitive node_le.
Proof.
  intros [x|x] [y|y] [z|z]; unfold node_le; simpl; try done;
    apply string_leb_trans.
Qed.

Global Instance dept_row_le_total : Total dept_row_le.
Proof. intros a b. unfold dept_row_le. apply (total node_le). Qed.

Global Instance dept_row_le_trans : Transitive dept_row_le.
Proof. intros a b c. unfold dept_row_le. apply (transitivity (R:=node_le)). Qed.

(** ** Statistics, search and listings *)

(** The type triples of the subjects of a class. *)
Lemma typed_triples g cls :
  NoDup ((λ s, (s, RDF_type, URIRef cls)) <$> instances g cls)
  ∧ ∀ t, t ∈ (λ s, (s, RDF_type, URIRef cls)) <$> instances g cls →
         t ∈ remove_dups g ∧ t.2 = URIRef cls.
Proof.
  split.
  - apply NoDup_fmap_2; [by intros s1 s2 [= ->]|apply NoDup_remove_dups].
  - intros t (s & -> & Hs)%list_elem_of_fmap. split; [|done].
    by apply elem_of_remove_dups, elem_of_instances.
Qed.

Section UtilityFacts.
Variable utility_error : UtilityQuery → option exn.
Variable utility_foreign : UtilityQuery → list Solution.

Lemma count_instances_cases self cls initial :
  (utility_error (CountInstances cls) = None
   ∧ count_instances utility_error self cls initial
     = Ok (length (instances (graph self) cls)))
  ∨ ∃ e, utility_error (CountInstances cls) = Some e
         ∧ count_instances utility_error self cls initial = Raise e.
Proof.
  unfold count_instances, utility_query.
  destruct (utility_error _) as [e|]; [right; by exists e|by left].
Qed.

(** X7. [get_graph_statistics] has no handler: it raises what a count query
    raises. When it returns, the counts are the numbers of distinct subjects
    of the four classes, and together they are at most the number of
    triples. *)
Theorem get_graph_statistics_counts (self : MedicalKnowledgeGraph) :
  match get_graph_statistics utility_error self with
  | Ok stats =>
      stats_total_triples stats = graph_len (graph self)
      ∧ stats_diseases stats = length (instances (graph self) (MED "Disease"))
      ∧ stats_symptoms stats = length (instances (graph self) (MED "Symptom"))
      ∧ stats_specialties stats
        = length (instances (graph self) (MED "MedicalSpecialty"))
      ∧ stats_departments stats = length (instances (graph self) (MED "Department"))
      ∧ stats_diseases stats + stats_symptoms stats + stats_specialties stats
        + stats_departments stats ≤ stats_total_triples stats
  | Raise e => ∃ cls, utility_error (CountInstances cls) = Some e
  end.
Proof.
  unfold get_graph_statistics.
  destruct (count_instances_cases self (MED "Disease") 0) as [[_ ->]|(e & He & ->)];
    [|by exists (MED "Disease")].
  destruct (count_instances_cases self (MED "Symptom") 0) as [[_ ->]|(e & He & ->)];
    [|by exists (MED "Symptom")].
  destruct (count_instances_cases self (MED "MedicalSpecialty") 0)
    as [[_ ->]|(e & He & ->)]; [|by exists (MED "MedicalSpecialty")].
  destruct (count_instances_cases self (MED "Department") 0) as [[_ ->]|(e & He & ->)];
    [|by exists (MED "Department")].
  simpl. split_and!; try done.
  set (g := graph self).
  destruct (typed_triples g (MED "Disease")) as [N1 H1].
  destruct (typed_triples g (MED "Symptom")) as [N2 H2].
  destruct (typed_triples g (MED "MedicalSpecialty")) as [N3 H3].
  destruct (typed_triples g (MED "Department")) as [N4 H4].
  rewrite <-(length_fmap (λ s, (s, RDF_type, URIRef (MED "Disease")))
               (instances g (MED "Disease"))).
  rewrite <-(length_fmap (λ s, (s, RDF_type, URIRef (MED "Symptom")))
               (instances g (MED "Symptom"))).
  rewrite <-(length_fmap (λ s, (s, RDF_type, URIRef (MED "MedicalSpecialty")))
               (instances g (MED "MedicalSpecialty"))).
  rewrite <-(length_fmap (λ s, (s, RDF_type, URIRef (MED "Department")))
               (instances g (MED "Department"))).
  rewrite <-!length_app. unfold graph_len. apply submseteq_length, NoDup_submseteq.
  - repeat (apply NoDup_app; split_and!); try done.
    + intros t [_ E1]%H1 [_ E2]%H2. rewrite E1 in E2. discriminate E2.
    + intros t [[_ E1]%H1|[_ E1]%H2]%elem_of_app [_ E2]%H3;
        rewrite E1 in E2; discriminate E2.
    + intros t [[[_ E1]%H1|[_ E1]%H2]%elem_of_app|[_ E1]%H3]%elem_of_app [_ E2]%H4;
        rewrite E1 in E2; discriminate E2.
  - intros t. rewrite !elem_of_app.
    intros [[[Ht|Ht]|Ht]|Ht]; [by apply H1|by apply H2|by apply H3|by apply H4].
Qed.

Lemma select_search_hit g text disease diseaseName description :
  (disease, diseaseName, description) ∈ select_search g text →
  known_disease g disease
  ∧ (disease, MED "diseaseName", diseaseName) ∈ g
  ∧ ∃ n, diseaseName = Literal n ∧ Py.contains (Py.lower text) (Py.lower n) = true.
Proof.
  unfold select_search. intros Hrow.
  apply list_elem_of_bind in Hrow as (d & Hrow & Hd%elem_of_instances).
  apply list_elem_of_bind in Hrow as (n & Hrow & Hn%elem_of_objects).
  destruct (name_contains n text) eqn:Hc; [|by apply elem_of_nil in Hrow].
  apply list_elem_of_bind in Hrow as (de' & Hrow & _).
  apply list_elem_of_singleton in Hrow. injection Hrow as -> -> ->.
  split_and!; [done|done|].
  destruct n as [i|n]; [done|]. by exists n.
Qed.

Lemma search_rows_known self disease_name disease diseaseName description :
  (disease, diseaseName, description) ∈ search_rows utility_foreign self disease_name →
  known_disease (graph self) disease
  ∧ (disease, MED "diseaseName", diseaseName) ∈ graph self.
Proof.
  unfold search_rows. intros Hrow. apply subseteq_take in Hrow.
  destruct (string_literal disease_name) as [text|].
  - by apply select_search_hit in Hrow as (? & ? & _).
  - apply list_elem_of_omap in Hrow as (r & _ & Hshape).
    unfold search_solution in Hshape.
    destruct r as [|[[i|?]|] [|[dn|] [|de [|? ?]]]]; try done.
    case_bool_decide as Hp; [|done]. by injection Hshape as -> -> ->.
Qed.

(** X8. [search_by_disease_name] always returns, at most ten hits, each
    the IRI and a name of a disease of the store; and when the search text
    stands for the string [text] between the quotes of the query, the name
    of every hit is a literal that, in lower case, contains [text] in lower
    case. *)
Theorem search_by_disease_name_hits (self : MedicalKnowledgeGraph) (disease_name : string) :
  ∃ hits,
    search_by_disease_name utility_error utility_foreign self disease_name = Ok hits
    ∧ length hits ≤ 10
    ∧ (∀ h, h ∈ hits →
         known_disease (graph self) (hit_uri h)
         ∧ ∃ diseaseName,
             (hit_uri h, MED "diseaseName", diseaseName) ∈ graph self
             ∧ node_str diseaseName = hit_name h)
    ∧ (∀ text, string_literal disease_name = Some text →
         ∀ h, h ∈ hits →
           (hit_uri h, MED "diseaseName", Literal (hit_name h)) ∈ graph self
           ∧ Py.contains (Py.lower text) (Py.lower (hit_name h)) = true).
Proof.
  unfold search_by_disease_name, utility_query.
  destruct (utility_error _); simpl.
  { exists []. split_and!; [done|simpl; lia| |]; [|intros text _];
      by intros h ?%elem_of_nil. }
  eexists. split; [reflexivity|]. split_and!.
  - rewrite length_map. unfold search_rows. rewrite length_take. lia.
  - intros h Hh. change (map ?f) with (fmap (M:=list) f) in Hh.
    apply list_elem_of_fmap in Hh as ([[disease dn] de] & -> & Hrow). simpl.
    apply search_rows_known in Hrow as [Hk Hn]. split; [done|]. by exists dn.
  - intros text Hread h Hh. change (map ?f) with (fmap (M:=list) f) in Hh.
    apply list_elem_of_fmap in Hh as ([[disease dn] de] & -> & Hrow). simpl.
    unfold search_rows in Hrow. rewrite Hread in Hrow. apply subseteq_take in Hrow.
    apply select_search_hit in Hrow as (_ & Hn & n & -> & Hc). done.
Qed.

(** X9. [get_all_specialties] always returns. It lists, without repetition
    and in ascending order, the names of the nodes of type [med:Specialty];
    a store whose specialties are only of type [med:MedicalSpecialty], the
    class that [get_graph_statistics] counts, gives the empty list. *)
Theorem get_all_specialties_lists (self : MedicalKnowledgeGraph) :
  ∃ nodes,
    get_all_specialties utility_error self = Ok (node_str <$> nodes)
    ∧ NoDup nodes
    ∧ StronglySorted node_le nodes
    ∧ (∀ n, n ∈ nodes →
         ∃ specialty,
           (specialty, RDF_type, URIRef (MED "Specialty")) ∈ graph self
           ∧ (specialty, MED "specialtyName", n) ∈ graph self)
    ∧ ((∀ s, (s, RDF_type, URIRef (MED "Specialty")) ∉ graph self) → nodes = []).
Proof.
  unfold get_all_specialties, utility_query.
  destruct (utility_error _); simpl.
  { exists []. split_and!; [done|constructor|constructor| |done].
    by intros n ?%elem_of_nil. }
  exists (select_all_specialties (graph self)).
  assert (Hmem : ∀ n, n ∈ select_all_specialties (graph self) →
            ∃ specialty,
              (specialty, RDF_type, URIRef (MED "Specialty")) ∈ graph self
              ∧ (specialty, MED "specialtyName", n) ∈ graph self).
  { intros n Hn. unfold select_all_specialties in Hn.
    rewrite merge_sort_Permutation, elem_of_remove_dups in Hn.
    apply list_elem_of_bind in Hn as (sp & Hn%elem_of_objects & Hsp%elem_of_instances).
    by exists sp. }
  split_and!; [done| | |done|].
  - unfold select_all_specialties. rewrite merge_sort_Permutation.
    apply NoDup_remove_dups.
  - apply StronglySorted_merge_sort; apply _.
  - intros Hno. apply elem_of_nil_inv. intros n (sp & Hsp & _)%Hmem.
    by apply (Hno sp).
Qed.

(** X10. [get_all_departments] always returns. Its entries are in ascending
    order of name; each is a department of the store with that name, with
    its location, or ["Unknown"] when the row has none or an empty one; and
    when rdflib accepts the query every named department is listed. *)
Theorem get_all_departments_lists (self : MedicalKnowledgeGraph) :
  ∃ rows,
    get_all_departments utility_error self
    = Ok ((λ row : Node * option Node,
             {| dept_name := node_str row.1;
                dept_location := str_or "Unknown" row.2 |}) <$> rows)
    ∧ StronglySorted dept_row_le rows
    ∧ (∀ row, row ∈ rows →
         ∃ dept,
           (dept, RDF_type, URIRef (MED "Department")) ∈ graph self
           ∧ (dept, MED "departmentName", row.1) ∈ graph self
           ∧ match row.2 with
             | Some l => (dept, MED "location", l) ∈ graph self
             | None => ∀ l, (dept, MED "location", l) ∉ graph self
             end)
    ∧ (utility_error AllDepartments = None →
       ∀ dept n,
         (dept, RDF_type, URIRef (MED "Department")) ∈ graph self →
         (dept, MED "departmentName", n) ∈ graph self →
         ∃ row, row ∈ rows ∧ row.1 = n).
Proof.
  unfold get_all_departments, utility_query.
  destruct (utility_error AllDepartments) eqn:Hq; simpl.
  { exists []. split_and!; [done|constructor| |done]. by intros n ?%elem_of_nil. }
  exists (select_all_departments (graph self)).
  split_and!; [done| | |].
  - apply StronglySorted_merge_sort; apply _.
  - intros [n loc] Hrow. unfold select_all_departments in Hrow.
    rewrite merge_sort_Permutation in Hrow.
    apply list_elem_of_bind in Hrow as (dept & Hrow & Hd%elem_of_instances).
    apply list_elem_of_bind in Hrow as (n' & Hrow & Hn%elem_of_objects).
    apply list_elem_of_bind in Hrow as (loc' & Hrow & Hl).
    apply list_elem_of_singleton in Hrow. injection Hrow as -> ->.
    exists dept. split_and!; [done|done|]. simpl.
    unfold optional in Hl.
    destruct (objects (graph self) dept (MED "location")) as [|l0 ls] eqn:Hobj.
    + apply list_elem_of_singleton in Hl as ->.
      intros l Hl%elem_of_objects. rewrite Hobj in Hl. by apply elem_of_nil in Hl.
    + change (map Some) with (fmap (M:=list) (@Some Node)) in Hl.
      apply list_elem_of_fmap in Hl as (l & -> & Hl).
      rewrite <-Hobj in Hl. by apply elem_of_objects.
  - intros _ dept n Hd Hn.
    destruct (optional_inhabited (objects (graph self) dept (MED "location")))
      as [loc Hloc].
    exists (n, loc). split; [|done]. unfold select_all_departments.
    rewrite merge_sort_Permutation.
    apply list_elem_of_bind. exists dept. split; [|by apply elem_of_instances].
    apply list_elem_of_bind. exists n. split; [|by apply elem_of_objects].
    apply list_elem_of_bind. exists loc. split; [left|done].
Qed.

End UtilityFacts.

Lemma query_diseases_complete_witness :
  ∃ results,
    query_diseases_by_symptoms (λ _, None) (λ _, []) sample_kg ["fever"; "itching"]
    = Ok results
    ∧ (∀ d, d ∈ results →
         known_disease (graph sample_kg) (uri d)
         ∧ linked_to_input (graph sample_kg) (uri d) ["fever"; "itching"])
    ∧ ((λ _ : SparqlQuery, @None exn) (DiseasesBySymptoms ["fever"; "itching"]) = None →
       ∀ disease diseaseName,
         known_disease (graph sample_kg) disease →
         (disease, MED "diseaseName", diseaseName) ∈ graph sample_kg →
         linked_to_input (graph sample_kg) disease ["fever"; "itching"] →
         ∃ d, d ∈ results ∧ uri d = disease
              ∧ name d = str_or "Unknown" (Some diseaseName)).
Proof.
  apply (query_diseases_complete (λ _, None) (λ _, []) sample_kg ["fever"; "itching"]
           ["fever"; "itching"]).
  reflexivity.
Defined.

Lemma query_diseases_fields_agree_witness :
  ∃ results,
    query_diseases_by_symptoms (λ _, None) (λ _, []) sample_kg ["fever"; "itching"] = Ok results
    ∧ ∀ d, d ∈ results →
        matched_symptoms d `sublist_of` ["fever"; "itching"]
        ∧ (∀ s, s ∈ matched_symptoms d ↔ s ∈ ["fever"; "itching"] ∧ s ∈ symptoms d)
        ∧ match_score d
          = Some (Qc_of_nat (length (matched_symptoms d))
                  / Qc_of_nat (length ["fever"; "itching"]) * Qc_of_nat 10)%Qc.
Proof.
  apply (query_diseases_fields_agree (λ _, None) (λ _, []) sample_kg ["fever"; "itching"]).
  apply (bool_decide_unpack _). vm_compute. reflexivity.
Defined.

Lemma sample_diseases_plain disease :
  known_disease (graph sample_kg) disease → plain_iri disease.
Proof.
  unfold known_disease. simpl. unfold sample_graph. intros Hin.
  repeat (apply elem_of_cons in Hin as [Hin|Hin];
          [try discriminate Hin; injection Hin as ->; reflexivity|]).
  by apply elem_of_nil in Hin.
Qed.

Lemma query_diseases_match_something_witness :
  ∃ results,
    query_diseases_by_symptoms (λ _, None) (λ _, []) sample_kg ["fever"; "itching"] = Ok results
    ∧ ∀ d, d ∈ results →
        matched_symptoms d ≠ []
        ∧ ∃ s, match_score d = Some s ∧ (Qc_of_nat 0 < s)%Qc.
Proof.
  apply (query_diseases_match_something (λ _, None) (λ _, []) sample_kg
           ["fever"; "itching"]).
  - repeat constructor.
  - apply sample_diseases_plain.
  - intros uri. reflexivity.
Defined.

Section SpecialtyLookup.
Variable query_error : SparqlQuery → option exn.
Variable foreign : SparqlQuery → list Solution.

(** X11. For a disease id whose text stands for the IRI [iri] between the
    angle brackets of the query, [get_specialty_for_disease] reads the
    first row of its query: the answer names a specialty that treats the
    disease [iri], its department is ["General"] and its location
    ["Main Building"] when the specialty belongs to no named department,
    and the answer is [None] only when the query failed or no named
    specialty treats the disease. *)
Theorem get_specialty_for_disease_answer (self : MedicalKnowledgeGraph)
    (disease_uri iri : string) :
  iri_ref disease_uri = Some iri →
  match get_specialty_for_disease query_error foreign self disease_uri with
  | Ok (Some spec) =>
      ∃ specialty specialtyName,
        (iri, MED "treatedBy", URIRef specialty) ∈ graph self
        ∧ (specialty, MED "specialtyName", specialtyName) ∈ graph self
        ∧ specialty_name spec = node_str specialtyName
        ∧ ((∀ dept departmentName,
              (specialty, MED "belongsToDepartment", URIRef dept) ∈ graph self →
              (dept, MED "departmentName", departmentName) ∉ graph self) →
           department spec = "General" ∧ location spec = "Main Building")
  | Ok None =>
      query_error (SpecialtyFor disease_uri) ≠ None
      ∨ ∀ specialty specialtyName,
          (iri, MED "treatedBy", URIRef specialty) ∈ graph self →
          (specialty, MED "specialtyName", specialtyName) ∉ graph self
  | Raise _ => False
  end.
Proof.
  intros Hread. unfold get_specialty_for_disease, graph_query.
  destruct (query_error _) as [e|]; simpl; [by left|].
  rewrite (specialty_rows_meant foreign self disease_uri iri Hread).
  destruct (select_specialty (graph self) iri) as [|[[sn dp] lo] rows] eqn:Hsel;
    simpl.
  - right. intros specialty specialtyName Ht Hn.
    destruct (optional_inhabited
                (dept ← object_iris (graph self) specialty (MED "belongsToDepartment");
                 department ← objects (graph self) dept (MED "departmentName");
                 location ← optional (objects (graph self) dept (MED "location"));
                 [(department, location)])) as [in_dept Hin].
    assert (∃ row, row ∈ select_specialty (graph self) iri) as [row Hrow].
    { exists (match in_dept with
              | Some (department, location) => (specialtyName, Some department, location)
              | None => (specialtyName, None, None)
              end).
      unfold select_specialty.
      apply list_elem_of_bind. exists specialty.
      split; [|by apply elem_of_object_iris].
      apply list_elem_of_bind. exists specialtyName.
      split; [|by apply elem_of_objects].
      apply list_elem_of_bind. exists in_dept. split; [|done].
      destruct in_dept as [[? ?]|]; left. }
    rewrite Hsel in Hrow. by apply elem_of_nil in Hrow.
  - assert ((sn, dp, lo) ∈ select_specialty (graph self) iri) as Hrow
      by (rewrite Hsel; left).
    unfold select_specialty in Hrow.
    apply list_elem_of_bind in Hrow as (specialty & Hrow & Ht%elem_of_object_iris).
    apply list_elem_of_bind in Hrow as (n & Hrow & Hn%elem_of_objects).
    apply list_elem_of_bind in Hrow as (in_dept & Hrow & Hin).
    exists specialty, n.
    destruct in_dept as [[department location]|].
    + apply list_elem_of_singleton in Hrow. simplify_eq.
      split_and!; [done|done|done|]. intros Hno. exfalso.
      unfold optional in Hin.
      destruct (_ ≫= _) as [|r rs] eqn:Hrows in Hin;
        [by apply list_elem_of_singleton in Hin|].
      change (map Some) with (fmap (M:=list) (@Some (Node * option Node))) in Hin.
      apply list_elem_of_fmap in Hin as (r' & [= <-] & Hr).
      rewrite <-Hrows in Hr.
      apply list_elem_of_bind in Hr as (dept & Hr & Hd%elem_of_object_iris).
      apply list_elem_of_bind in Hr as (dn & _ & Hdn%elem_of_objects).
      by apply (Hno dept dn).
    + apply list_elem_of_singleton in Hrow. simplify_eq.
      by split_and!.
Qed.

End SpecialtyLookup.

Lemma get_specialty_for_disease_answer_witness :
  iri_ref escaped_malaria_id = Some "http://medbot.org/instances#Disease_Malaria"
  ∧ ∃ spec specialty specialtyName,
      get_specialty_for_disease (λ _, None) (λ _, []) sample_kg escaped_malaria_id
      = Ok (Some spec)
      ∧ ("http://medbot.org/instances#Disease_Malaria", MED "treatedBy", URIRef specialty)
          ∈ graph sample_kg
      ∧ (specialty, MED "specialtyName", specialtyName) ∈ graph sample_kg
      ∧ specialty_name spec = node_str specialtyName
      ∧ ((∀ dept departmentName,
            (specialty, MED "belongsToDepartment", URIRef dept) ∈ graph sample_kg →
            (dept, MED "departmentName", departmentName) ∉ graph sample_kg) →
         department spec = "General" ∧ location spec = "Main Building").
Proof.
  split; [reflexivity|].
  pose proof (get_specialty_for_disease_answer (λ _, None) (λ _, []) sample_kg
                escaped_malaria_id "http://medbot.org/instances#Disease_Malaria"
                eq_refl) as H.
  destruct (get_specialty_for_disease _ _ sample_kg escaped_malaria_id)
    as [[spec|]|e] eqn:Hs; [|discriminate Hs|discriminate Hs].
  destruct H as (specialty & specialtyName & H).
  exists spec, specialty, specialtyName. split; [reflexivity|exact H].
Defined.

(** ** Building the extractor *)

Section DictBuild.
Context {V : Type}.
Implicit Types (d : list (string * V)) (k : string) (v : V).

Lemma dict_keys_set k v d :
  Py.dict_keys (Py.dict_set k v d)
  = if bool_decide (k ∈ Py.dict_keys d) then Py.dict_keys d else Py.dict_keys d ++ [k].
Proof.
  case_bool_decide as Hk.
  - by apply dict_keys_set_present.
  - apply dict_get_None in Hk. rewrite dict_set_absent by done.
    unfold Py.dict_keys. by rewrite fmap_app.
Qed.

Lemma dict_keys_set_NoDup k v d :
  NoDup (Py.dict_keys d) → NoDup (Py.dict_keys (Py.dict_set k v d)).
Proof.
  intros Hnd. rewrite dict_keys_set. case_bool_decide as Hk; [done|].
  apply NoDup_app. split_and!; [done| |apply NoDup_singleton].
  intros x Hx ->%list_elem_of_singleton. done.
Qed.

Lemma dict_keys_set_elem k v d k' :
  k' ∈ Py.dict_keys (Py.dict_set k v d) ↔ k' = k ∨ k' ∈ Py.dict_keys d.
Proof.
  rewrite dict_keys_set. case_bool_decide as Hk.
  - split; [by right|]. by intros [->|?].
  - rewrite elem_of_app, list_elem_of_singleton. tauto.
Qed.

Lemma dict_set_elem k v d k' v' :
  (k', v') ∈ Py.dict_set k v d → (k', v') = (k, v) ∨ (k', v') ∈ d.
Proof.
  induction d as [|[k0 v0] d IH]; simpl.
  - intros ->%list_elem_of_singleton. by left.
  - destruct (String.eqb_spec k k0) as [->|Hne].
    + intros [->|Hin]%elem_of_cons; [by left|]. right. by right.
    + intros [->|Hin]%elem_of_cons; [right; left|].
      destruct (IH Hin) as [->|?]; [by left|]. right. by right.
Qed.

Lemma dict_set_length k v d :
  length (Py.dict_set k v d) ≤ S (length d).
Proof.
  induction d as [|[k0 v0] d IH]; simpl; [lia|].
  destruct (String.eqb k k0); simpl; lia.
Qed.

End DictBuild.

(** The loop [for symptom in all_symptoms: symptoms_dict[normalized] =
    symptom], over the names [L] in the order of the iteration. *)
Lemma build_loop (L : list string) (d0 : list (string * string)) :
  let d := fold_left (λ d symptom, Py.dict_set (_normalize_symptom_name symptom) symptom d)
                     L d0 in
  (NoDup (Py.dict_keys d0) → NoDup (Py.dict_keys d))
  ∧ (∀ k v, (k, v) ∈ d → (k, v) ∈ d0 ∨ (v ∈ L ∧ k = _normalize_symptom_name v))
  ∧ (∀ s, s ∈ L → _normalize_symptom_name s ∈ Py.dict_keys d)
  ∧ (∀ k, k ∈ Py.dict_keys d0 → k ∈ Py.dict_keys d)
  ∧ length d ≤ length d0 + length L.
Proof.
  revert d0. induction L as [|s L IH]; intros d0; simpl.
  { split_and!; [done|by left|by intros s ?%elem_of_nil|done|lia]. }
  destruct (IH (Py.dict_set (_normalize_symptom_name s) s d0))
    as (Hnd & Hel & Hkey & Hold & Hlen).
  split_and!.
  - intros H0. by apply Hnd, dict_keys_set_NoDup.
  - intros k v [Hin|[Hv ->]]%Hel.
    + apply dict_set_elem in Hin as [[= -> ->]|Hin]; [right|by left].
      split; [left|done].
    + right. split; [by right|done].
  - intros s' [->|Hin]%elem_of_cons; [|by apply Hkey].
    apply Hold, dict_keys_set_elem. by left.
  - intros k Hk. apply Hold, dict_keys_set_elem. by right.
  - pose proof (dict_set_length (_normalize_symptom_name s) s d0). lia.
Qed.

(** A name is in [all_symptoms] when a disease of the data lists it, as a
    string or as the ['name'] of a dictionary. *)
Lemma elem_of_all_symptoms medical_data s :
  s ∈ all_symptoms medical_data
  ↔ ∃ disease,
      disease ∈ diseases medical_data
      ∧ (SymptomStr s ∈ entry_symptoms disease
         ∨ (s ≠ "" ∧ SymptomDict (Some s) ∈ entry_symptoms disease)).
Proof.
  unfold all_symptoms. rewrite elem_of_list_to_set, list_elem_of_bind.
  split.
  - intros (disease & Hs & Hd). exists disease. split; [done|].
    apply list_elem_of_bind in Hs as (symptom & Hs & Hin).
    destruct symptom as [[[|c n]|]|s'|]; simpl in Hs.
    + by apply elem_of_nil in Hs.
    + apply list_elem_of_singleton in Hs as ->. by right.
    + by apply elem_of_nil in Hs.
    + apply list_elem_of_singleton in Hs as ->. by left.
    + by apply elem_of_nil in Hs.
  - intros (disease & Hd & [Hs|[Hne Hs]]); exists disease; (split; [|done]);
      apply list_elem_of_bind.
    + exists (SymptomStr s). split; [left|done].
    + exists (SymptomDict (Some s)). split; [|done]. simpl.
      destruct s; [done|left].
Qed.

Lemma candidates_display self text language c :
  NoDup (Py.dict_keys (symptoms_dict self)) →
  c ∈ candidates self text language →
  Py.dict_get (normalized c) (symptoms_dict self) = Some (symptom c).
Proof.
  intros Hnd.
  assert (Hknown : ∀ conf meth t, c ∈ known_symptom_matches self conf meth t →
            Py.dict_get (normalized c) (symptoms_dict self) = Some (symptom c)).
  { intros conf meth t ([k v] & He & Hkv)%list_elem_of_bind.
    destruct (_ || _); [|by apply elem_of_nil in He].
    apply list_elem_of_singleton in He as ->. simpl.
    by apply dict_get_elem_NoDup. }
  assert (Hsyn : ∀ conf meth t, c ∈ synonym_matches self conf meth t →
            Py.dict_get (normalized c) (symptoms_dict self) = Some (symptom c)).
  { intros conf meth t ([synonym target] & He & _)%list_elem_of_bind.
    destruct (Py.contains _ _); [|by apply elem_of_nil in He].
    cbv zeta in He.
    destruct (Py.dict_get _ _) as [display|] eqn:E in He;
      [|by apply elem_of_nil in He].
    by apply list_elem_of_singleton in He as ->. }
  unfold candidates. destruct (select_nlp _ _) as [nlp|].
  - unfold full_candidates. rewrite !elem_of_app. intros [H|[H|H]]; eauto.
    apply list_elem_of_bind in H as (chunk & He & _).
    cbv zeta in He.
    destruct (Py.dict_get _ _) as [display|] eqn:E in He;
      [|by apply elem_of_nil in He].
    by apply list_elem_of_singleton in He as ->.
  - unfold fallback_candidates. rewrite !elem_of_app. intros [H|H]; eauto.
Qed.

Section BuildFacts.
Variable set_iter : gset string → list string.
Hypothesis set_iter_elements : ∀ X, set_iter X ≡ₚ elements X.

Lemma elem_of_set_iter X s : s ∈ set_iter X ↔ s ∈ X.
Proof. by rewrite set_iter_elements, elem_of_elements. Qed.

Lemma built_entries (self : SymptomExtractor) (medical_data : MedicalData) :
  symptoms_dict self = [] →
  let built := _build_symptom_dictionaries set_iter self medical_data in
  NoDup (Py.dict_keys (symptoms_dict built))
  ∧ ∀ k v, (k, v) ∈ symptoms_dict built →
      k = _normalize_symptom_name v ∧ v ∈ all_symptoms medical_data.
Proof.
  intros Hempty built. unfold built, _build_symptom_dictionaries. simpl.
  rewrite Hempty.
  destruct (build_loop (set_iter (all_symptoms medical_data)) [])
    as (Hnd & Hel & _).
  split; [apply Hnd; constructor|].
  intros k v [Hin|[Hv ->]]%Hel; [by apply elem_of_nil in Hin|].
  split; [done|]. by apply elem_of_set_iter.
Qed.

(** X12. The vocabulary that [_build_symptom_dictionaries] builds on an empty
    dictionary, whatever the order in which the set of names is iterated: its
    keys are distinct, each entry maps the token of a symptom of the data to
    that symptom, the token of every symptom of the data is a key, and there
    are no more entries than distinct names. *)
Theorem build_symptom_dictionaries_vocabulary (self : SymptomExtractor)
    (medical_data : MedicalData) :
  symptoms_dict self = [] →
  let built := _build_symptom_dictionaries set_iter self medical_data in
  NoDup (Py.dict_keys (symptoms_dict built))
  ∧ (∀ k v, (k, v) ∈ symptoms_dict built →
       k = _normalize_symptom_name v ∧ v ∈ all_symptoms medical_data)
  ∧ (∀ s, s ∈ all_symptoms medical_data →
       ∃ v, Py.dict_get (_normalize_symptom_name s) (symptoms_dict built) = Some v
            ∧ v ∈ all_symptoms medical_data
            ∧ _normalize_symptom_name v = _normalize_symptom_name s)
  ∧ length (get_all_symptoms built) ≤ size (all_symptoms medical_data)
  ∧ symptom_synonyms built = symptom_synonyms_table.
Proof.
  intros Hempty built.
  destruct (built_entries self medical_data Hempty) as [Hnd Hentries].
  fold built in Hnd, Hentries.
  assert (symptoms_dict built
          = fold_left (λ d symptom, Py.dict_set (_normalize_symptom_name symptom) symptom d)
              (set_iter (all_symptoms medical_data)) []) as Hd
    by (unfold built, _build_symptom_dictionaries; simpl; by rewrite Hempty).
  destruct (build_loop (set_iter (all_symptoms medical_data)) [])
    as (_ & _ & Hkey & _ & Hlen).
  rewrite <-Hd in Hkey, Hlen.
  split_and!; [done|done| | |done].
  - intros s Hs%elem_of_set_iter. apply Hkey in Hs.
    destruct (Py.dict_get (_normalize_symptom_name s) _) as [v|] eqn:E.
    + exists v. split; [done|].
      apply dict_get_Some_elem, Hentries in E as [E Hv]. by split.
    + by apply dict_get_None in E.
  - unfold get_all_symptoms, Py.dict_values. rewrite length_fmap.
    simpl in Hlen. unfold size, set_size. simpl.
    by rewrite <-(Permutation_length (set_iter_elements _)).
Qed.

(** X13. Every symptom that an extractor built by
    [_build_symptom_dictionaries] extracts, in either mode, is a symptom of
    the medical data, reported under its own token. *)
Theorem extracted_symptom_from_data (self : SymptomExtractor)
    (medical_data : MedicalData) (text : string) (language : option string) :
  symptoms_dict self = [] →
  let built := _build_symptom_dictionaries set_iter self medical_data in
  ∀ e, e ∈ extract_symptoms built text language →
    symptom e ∈ all_symptoms medical_data
    ∧ normalized e = _normalize_symptom_name (symptom e)
    ∧ symptom e ∈ get_all_symptoms built.
Proof.
  intros Hempty built e He.
  destruct (built_entries self medical_data Hempty) as (Hnd & Hent).
  destruct (extract_symptoms_properties built text language) as (_ & _ & Hcand & _).
  destruct (Hcand e He) as [Hc _].
  apply (candidates_display _ _ _ _ Hnd), dict_get_Some_elem in Hc.
  destruct (Hent _ _ Hc) as [Hk Hv]. split_and!; [done|done|].
  unfold get_all_symptoms, Py.dict_values. apply list_elem_of_fmap.
  by exists (normalized e, symptom e).
Qed.

End BuildFacts.

Lemma build_symptom_dictionaries_vocabulary_witness :
  NoDup (Py.dict_keys (symptoms_dict
           (_build_symptom_dictionaries elements sample_fresh_extractor
                                        sample_medical_data)))
  ∧ (∀ k v, (k, v) ∈ symptoms_dict
                       (_build_symptom_dictionaries elements sample_fresh_extractor
                                                    sample_medical_data) →
       k = _normalize_symptom_name v ∧ v ∈ all_symptoms sample_medical_data)
  ∧ (∀ s, s ∈ all_symptoms sample_medical_data →
       ∃ v, Py.dict_get (_normalize_symptom_name s)
              (symptoms_dict (_build_symptom_dictionaries elements sample_fresh_extractor
                                                          sample_medical_data)) = Some v
            ∧ v ∈ all_symptoms sample_medical_data
            ∧ _normalize_symptom_name v = _normalize_symptom_name s)
  ∧ length (get_all_symptoms (_build_symptom_dictionaries elements sample_fresh_extractor
                                                          sample_medical_data))
    ≤ size (all_symptoms sample_medical_data)
  ∧ symptom_synonyms (_build_symptom_dictionaries elements sample_fresh_extractor
                                                  sample_medical_data)
    = symptom_synonyms_table.
Proof.
  apply (build_symptom_dictionaries_vocabulary elements (λ X, reflexivity _)
           sample_fresh_extractor sample_medical_data).
  reflexivity.
Defined.

Lemma extracted_symptom_from_data_witness :
  Forall (λ e,
    symptom e ∈ all_symptoms sample_medical_data
    ∧ normalized e = _normalize_symptom_name (symptom e)
    ∧ symptom e ∈ get_all_symptoms
                    (_build_symptom_dictionaries elements sample_fresh_extractor
                                                 sample_medical_data))
    (extract_symptoms
       (_build_symptom_dictionaries elements sample_fresh_extractor sample_medical_data)
       "I have a skin rash and itching" None).
Proof.
  apply Forall_forall.
  apply (extracted_symptom_from_data elements (λ X, reflexivity _)
           sample_fresh_extractor sample_medical_data
           "I have a skin rash and itching" None).
  reflexivity.
Defined.

(** The sample vocabulary: three entries for the three distinct names, and
    the text above yields two of them. *)
Example build_sample :
  symptoms_dict (_build_symptom_dictionaries elements sample_fresh_extractor
                                             sample_medical_data)
    ≡ₚ [("skin_rash", "Skin Rash"); ("itching", "itching"); ("high_fever", "high-fever")]
  ∧ normalized <$> extract_symptoms
                     (_build_symptom_dictionaries elements sample_fresh_extractor
                                                  sample_medical_data)
                     "I have a skin rash and itching" None
    ≡ₚ ["skin_rash"; "itching"].
Proof. split; apply (bool_decide_unpack _); vm_compute; reflexivity. Qed.

(** ** An extractor without vocabulary *)

Lemma extract_symptoms_empty_vocabulary self text language :
  symptoms_dict self = [] → extract_symptoms self text language = [].
Proof.
  intros Hd. apply elem_of_nil_inv. intros e He.
  destruct (extract_symptoms_properties self text language) as (_ & _ & Hcand & _).
  destruct (Hcand e He) as [Hc%candidates_in_vocabulary _].
  rewrite Hd in Hc. by apply elem_of_nil in Hc.
Qed.

Section InitFacts.
Variable set_iter : gset string → list string.
Hypothesis set_iter_elements : ∀ X, set_iter X ≡ₚ elements X.

(** X14. A missing data file does not stop the constructor: it logs an
    error and builds an extractor with an empty vocabulary, which extracts
    nothing from any text; the synonym table is installed all the same. Any
    other exception of the read leaves the constructor. *)
Theorem init_without_data_file (getenv : option string)
    (read_json : string → result MedicalData)
    (load_model : string → option Chunker) (data_path : option string) :
  let path := resolve_data_path getenv data_path in
  match read_json path with
  | Raise (FileNotFoundError _) =>
      (_load_medical_data read_json path).2
      = [(ERROR, "Medical data file not found: " +:+ path)]
      ∧ ∃ self,
          SymptomExtractor_init set_iter getenv read_json load_model data_path = Ok self
          ∧ get_all_symptoms self = []
          ∧ symptom_synonyms self = symptom_synonyms_table
          ∧ ∀ text language, extract_symptoms self text language = []
  | Raise e =>
      SymptomExtractor_init set_iter getenv read_json load_model data_path = Raise e
  | Ok medical_data =>
      ∃ self,
        SymptomExtractor_init set_iter getenv read_json load_model data_path = Ok self
        ∧ ∀ v, v ∈ get_all_symptoms self → v ∈ all_symptoms medical_data
  end.
Proof.
  intros path. unfold SymptomExtractor_init, _load_medical_data. fold path.
  destruct (read_json path) as [medical_data|[m|m]]; simpl.
  - eexists. split; [reflexivity|]. intros v Hv.
    unfold get_all_symptoms, Py.dict_values in Hv.
    apply list_elem_of_fmap in Hv as ([k v'] & -> & Hkv).
    simpl in Hkv.
    destruct (build_loop (set_iter (all_symptoms medical_data)) []) as (_ & Hel & _).
    apply Hel in Hkv as [Hkv|[Hv _]]; [by apply elem_of_nil in Hkv|].
    simpl. by rewrite set_iter_elements, elem_of_elements in Hv.
  - split; [done|]. eexists. split; [reflexivity|].
    assert (set_iter (all_symptoms {| diseases := [] |}) = []) as Hnil.
    { apply Permutation_nil. rewrite set_iter_elements.
      change (all_symptoms {| diseases := [] |}) with (list_to_set [] : gset string).
      by rewrite list_to_set_nil, elements_empty. }
    assert (symptoms_dict
              (_build_symptom_dictionaries set_iter
                 {| nlp_fr := load_model "fr_core_news_sm";
                    nlp_en := load_model "en_core_web_sm";
                    symptoms_dict := []; symptom_synonyms := [] |}
                 {| diseases := [] |}) = []) as Hd
      by (unfold _build_symptom_dictionaries; simpl; by rewrite Hnil).
    split_and!.
    + unfold get_all_symptoms. by rewrite Hd.
    + done.
    + intros text language. by apply extract_symptoms_empty_vocabulary.
  - done.
Qed.

End InitFacts.

Lemma init_without_data_file_witness :
  (_load_medical_data (λ p, Raise (FileNotFoundError p))
                      "data/processed/consolidated_medical_data.json").2
  = [(ERROR, "Medical data file not found: "
             +:+ "data/processed/consolidated_medical_data.json")]
  ∧ ∃ self,
      SymptomExtractor_init elements None (λ p, Raise (FileNotFoundError p))
                            (λ _, None) None = Ok self
      ∧ get_all_symptoms self = []
      ∧ symptom_synonyms self = symptom_synonyms_table
      ∧ ∀ text language, extract_symptoms self text language = [].
Proof.
  apply (init_without_data_file elements (λ X, reflexivity _) None
           (λ p, Raise (FileNotFoundError p)) (λ _, None) None).
Defined.

(** ** Methods and confidence *)

Lemma known_symptom_matches_method self conf meth text_lower e :
  e ∈ known_symptom_matches self conf meth text_lower →
  (method e, confidence e) = (meth, conf).
Proof.
  intros ([k v] & He & _)%list_elem_of_bind.
  destruct (_ || _); [|by apply elem_of_nil in He].
  by apply list_elem_of_singleton in He as ->.
Qed.

Lemma synonym_matches_method self conf meth text_lower e :
  e ∈ synonym_matches self conf meth text_lower →
  (method e, confidence e) = (meth, conf).
Proof.
  intros ([synonym target] & He & _)%list_elem_of_bind.
  destruct (Py.contains _ _); [|by apply elem_of_nil in He].
  cbv zeta in He.
  destruct (Py.dict_get _ _) as [display|] eqn:E in He; [|by apply elem_of_nil in He].
  by apply list_elem_of_singleton in He as ->.
Qed.

Lemma noun_chunk_matches_method self nlp text_lower e :
  e ∈ noun_chunk_matches self nlp text_lower →
  (method e, confidence e) = ("noun_chunk", conf_0_7).
Proof.
  intros (chunk & He & _)%list_elem_of_bind.
  cbv zeta in He.
  destruct (Py.dict_get _ _) as [display|] eqn:E in He; [|by apply elem_of_nil in He].
  by apply list_elem_of_singleton in He as ->.
Qed.

Lemma candidates_resolve self text language :
  candidates self text language
  = match select_nlp self (resolve_language text language) with
    | None => fallback_candidates self text
    | Some nlp => full_candidates self nlp text
    end.
Proof. by destruct language. Qed.

(** X15. Each extracted entry carries the method that found it and the
    confidence of that method: 0.9, 0.85 or 0.7 when the model of the
    language is loaded, 0.8 or 0.75 otherwise; so every confidence lies
    between 0.7 and 0.9. *)
Theorem extract_symptoms_methods (self : SymptomExtractor) (text : string)
    (language : option string) :
  Forall (λ e,
    (method e, confidence e)
      ∈ match select_nlp self (resolve_language text language) with
        | Some _ => full_methods
        | None => fallback_methods
        end
    ∧ (dec 7 10 ≤ confidence e)%Qc ∧ (confidence e ≤ dec 9 10)%Qc)
    (extract_symptoms self text language).
Proof.
  apply Forall_forall. intros e He.
  destruct (extract_symptoms_properties self text language) as (_ & _ & Hcand & _).
  destruct (Hcand e He) as [Hc _]. clear Hcand He.
  rewrite candidates_resolve in Hc.
  assert (Hrange : ∀ l, (method e, confidence e) ∈ l →
            l = full_methods ∨ l = fallback_methods →
            (dec 7 10 ≤ confidence e)%Qc ∧ (confidence e ≤ dec 9 10)%Qc).
  { intros l Hin [-> | ->]; unfold full_methods, fallback_methods in Hin;
      repeat (apply elem_of_cons in Hin as [[= _ ->]|Hin]; [by split|]);
      by apply elem_of_nil in Hin. }
  destruct (select_nlp _ _) as [nlp|].
  - assert ((method e, confidence e) ∈ full_methods) as Hm.
    { unfold full_candidates in Hc. rewrite !elem_of_app in Hc.
      destruct Hc as [H|[H|H]].
      + rewrite (known_symptom_matches_method _ _ _ _ _ H). left.
      + rewrite (synonym_matches_method _ _ _ _ _ H). right; left.
      + rewrite (noun_chunk_matches_method _ _ _ _ H). right; right; left. }
    split; [done|]. apply (Hrange _ Hm). by left.
  - assert ((method e, confidence e) ∈ fallback_methods) as Hm.
    { unfold fallback_candidates in Hc. rewrite !elem_of_app in Hc.
      destruct Hc as [H|H].
      + rewrite (known_symptom_matches_method _ _ _ _ _ H). left.
      + rewrite (synonym_matches_method _ _ _ _ _ H). right; left. }
    split; [done|]. apply (Hrange _ Hm). by right.
Qed.

(** ** Language detection *)

Lemma two_elements `{Countable A} (X : gset A) :
  2 ≤ size X ↔ ∃ x y, x ≠ y ∧ x ∈ X ∧ y ∈ X.
Proof.
  split.
  - intros Hsize.
    destruct (set_choose_L X) as [x Hx].
    { intros ->. rewrite size_empty in Hsize. lia. }
    assert (size (X ∖ {[x]}) ≠ 0) as Hrest.
    { rewrite size_difference by (by apply singleton_subseteq_l).
      rewrite size_singleton. lia. }
    destruct (set_choose_L (X ∖ {[x]})) as [y Hy].
    { intros E. rewrite E, size_empty in Hrest. done. }
    apply elem_of_difference in Hy as [Hy Hne].
    exists x, y. split_and!; [|done|done].
    intros ->. apply Hne. by apply elem_of_singleton.
  - intros (x & y & Hne & Hx & Hy).
    assert (size ({[x; y]} : gset A) = 2) as <-.
    { rewrite size_union by (apply disjoint_singleton_l; by rewrite elem_of_singleton).
      by rewrite !size_singleton. }
    apply subseteq_size. intros z [->%elem_of_singleton| ->%elem_of_singleton]%elem_of_union;
      done.
Qed.

(** X16. [detect_language] answers ["fr"] exactly when two different words
    of its list occur among the white-space separated words of the
    lower-cased text, and ["en"] otherwise; repeating one listed word is
    not enough, and the answer does not depend on the case of the text. *)
Theorem detect_language_two_words (text : string) :
  (detect_language text = "fr"
   ↔ ∃ w1 w2, w1 ≠ w2
        ∧ w1 ∈ french_words ∧ w2 ∈ french_words
        ∧ w1 ∈ Py.split (Py.lower text) ∧ w2 ∈ Py.split (Py.lower text))
  ∧ (detect_language text = "fr" ∨ detect_language text = "en")
  ∧ detect_language (Py.lower text) = detect_language text.
Proof.
  split_and!.
  - unfold detect_language. cbv zeta.
    destruct (Nat.leb_spec 2 (size ((list_to_set (Py.split (Py.lower text)) : gset string)
                                     ∩ french_words))) as [Hge|Hlt].
    + split; [intros _|done].
      apply two_elements in Hge as (x & y & Hne & Hx & Hy).
      apply elem_of_intersection in Hx as [Hx1 Hx2].
      apply elem_of_intersection in Hy as [Hy1 Hy2].
      apply elem_of_list_to_set in Hx1, Hy1.
      by exists x, y.
    + split; [done|]. intros (x & y & Hne & Hx & Hy & Hx' & Hy').
      exfalso. apply (Nat.lt_irrefl 2). eapply Nat.le_lt_trans; [|exact Hlt].
      apply two_elements. exists x, y.
      split_and!; [done| |]; apply elem_of_intersection; split; try done;
        by apply elem_of_list_to_set.
  - unfold detect_language. cbv zeta. destruct (_ <=? _); [by left|by right].
  - unfold detect_language. by rewrite lower_idem.
Qed.

Example detect_language_samples :
  detect_language "J'AI de la fièvre" = "fr"
  ∧ detect_language "je je je" = "en"
  ∧ detect_language "I have a fever" = "en"
  ∧ detect_language "" = "en".
Proof. split_and!; vm_compute; reflexivity. Qed.

(** ** The two modes *)

(** X17. The text counts only in lower case: an extraction from the
    lower-cased text is the extraction from the text, in both modes and
    with or without a given language. *)
Theorem extract_symptoms_case_insensitive (self : SymptomExtractor) (text : string)
    (language : option string) :
  extract_symptoms self (Py.lower text) language = extract_symptoms self text language
  ∧ ∀ text', Py.lower text' = Py.lower text →
      extract_symptoms self text' language = extract_symptoms self text language.
Proof.
  assert (H : ∀ text', Py.lower text' = Py.lower text →
      extract_symptoms self text' language = extract_symptoms self text language).
  { intros text' E.
    unfold extract_symptoms, _fallback_extraction, full_candidates,
      fallback_candidates, detect_language.
    cbv zeta. by rewrite E. }
  split; [|done]. apply H, lower_idem.
Qed.

Lemma elem_of_fold_see ks seen k :
  k ∈ fold_left see ks seen ↔ k ∈ seen ∨ k ∈ ks.
Proof.
  revert seen. induction ks as [|k0 ks IH]; intros seen; simpl.
  - split; [by left|]. by intros [?|?%elem_of_nil].
  - rewrite IH. unfold see. case_bool_decide as Hk.
    + rewrite elem_of_cons. split; [tauto|]. intros [?|[->|?]]; tauto.
    + rewrite elem_of_app, list_elem_of_singleton, elem_of_cons. tauto.
Qed.

Lemma elem_of_first_seen_order cands k :
  k ∈ first_seen_order cands ↔ ∃ c, c ∈ cands ∧ normalized c = k.
Proof.
  unfold first_seen_order. rewrite elem_of_fold_see, list_elem_of_fmap.
  split.
  - intros [?%elem_of_nil|(c & -> & Hc)]; [done|]. by exists c.
  - intros (c & Hc & <-). right. by exists c.
Qed.

(** A token of the candidates is a token of the result, with a confidence
    that is not below the candidate's. *)
Lemma extract_symptoms_covers self text language c :
  c ∈ candidates self text language →
  ∃ e, e ∈ extract_symptoms self text language
       ∧ normalized e = normalized c
       ∧ (confidence c ≤ confidence e)%Qc.
Proof.
  intros Hc.
  destruct (extract_symptoms_properties self text language)
    as (_ & Hperm & Hcand & _).
  assert (normalized c ∈ normalized <$> extract_symptoms self text language) as Hin.
  { rewrite Hperm. apply elem_of_first_seen_order. by exists c. }
  apply list_elem_of_fmap in Hin as (e & He & Hin).
  exists e. split_and!; [done|done|].
  destruct (Hcand e Hin) as [_ Hmax]. by apply Hmax.
Qed.





(** ** The conversation *)

Lemma messages_of_app ex1 ex2 :
  messages_of (ex1 ++ ex2) = messages_of ex1 ++ messages_of ex2.
Proof. unfold messages_of. apply bind_app. Qed.

Lemma messages_of_length ex : length (messages_of ex) = 2 * length ex.
Proof. induction ex as [|x ex IH]; simpl; [done|]. rewrite IH. lia. Qed.

Lemma messages_of_drop k ex : drop (2 * k) (messages_of ex) = messages_of (drop k ex).
Proof.
  revert ex. induction k as [|k IH]; intros ex; [done|].
  destruct ex as [|x ex]; [done|].
  replace (2 * S k) with (S (S (2 * k))) by lia. simpl. apply IH.
Qed.

Lemma messages_of_last ex : Py.last_n 6 (messages_of ex) = messages_of (Py.last_n 3 ex).
Proof.
  unfold Py.last_n. rewrite messages_of_length, <-messages_of_drop.
  f_equal. lia.
Qed.

Lemma history_labels ex :
  imap (λ i msg, (if Nat.even i then "Patient" else "MedBot") +:+ ": " +:+ msg)
       (messages_of ex)
  = ex ≫= λ x, ["Patient: " +:+ x.1; "MedBot: " +:+ x.2].
Proof.
  induction ex as [|x ex IH]; [done|].
  change (messages_of (x :: ex)) with (x.1 :: x.2 :: messages_of ex).
  rewrite !imap_cons.
  transitivity (("Patient: " +:+ x.1) :: ("MedBot: " +:+ x.2)
                :: (ex ≫= λ x, ["Patient: " +:+ x.1; "MedBot: " +:+ x.2])); [|done].
  rewrite <-IH. do 2 (apply (f_equal2 cons); [done|]).
  apply imap_ext. intros i msg _. done.
Qed.

Section Conversation.
Variable format_f : nat → Qc → string.

Lemma generate_response_step (self : MedBotRAG) user_input query_results language_arg :
  let after := (generate_response format_f self user_input query_results language_arg).2 in
  llm after = llm self ∧ language after = language self
  ∧ (conversation_history after = conversation_history self
     ∨ ∃ response, conversation_history after
                   = conversation_history self ++ [user_input; response]).
Proof.
  unfold generate_response. destruct (llm self) as [the_llm|] eqn:Hl; simpl.
  - destruct (the_llm _) as [response|e]; simpl.
    + split_and!; [done|done|]. right. by exists response.
    + split_and!; [done|done|]. by left.
  - split_and!; [done|done|]. by left.
Qed.

Lemma session_exchanges (calls : list Call) (self : MedBotRAG)
    (before : list (string * string)) :
  conversation_history self = messages_of before →
  ∃ exchanges,
    conversation_history (session format_f self calls) = messages_of exchanges
    ∧ Forall (λ x, x ∈ before ∨ ∃ q l, Generate x.1 q l ∈ calls) exchanges
    ∧ llm (session format_f self calls) = llm self
    ∧ language (session format_f self calls) = language self.
Proof.
  revert self before. induction calls as [|c calls IH]; intros self before Hh.
  { exists before. split_and!; [done| |done|done].
    apply Forall_forall. intros x Hx. by left. }
  assert (∃ mid, conversation_history (call format_f self c) = messages_of mid
                 ∧ Forall (λ x, x ∈ before ∨ ∃ q l, Generate x.1 q l = c) mid
                 ∧ llm (call format_f self c) = llm self
                 ∧ language (call format_f self c) = language self)
    as (mid & Hmid & Hfrom & Hl & Hla).
  { destruct c as [u q l|]; simpl.
    - destruct (generate_response_step self u q l) as (Hl & Hla & [Hh'|[r Hh']]).
      + exists before. split_and!; [by rewrite Hh'| |done|done].
        apply Forall_forall. intros x Hx. by left.
      + exists (before ++ [(u, r)]). split_and!; [|  |done|done].
        * by rewrite Hh', Hh, messages_of_app.
        * apply Forall_app. split.
          -- apply Forall_forall. intros x Hx. by left.
          -- apply Forall_singleton. right. by exists q, l.
    - exists []. split_and!; [done|constructor|done|done]. }
  destruct (IH (call format_f self c) mid Hmid) as (ex & Hex & Hall & Hl' & Hla').
  exists ex. simpl. split_and!; [done| |congruence|congruence].
  apply Forall_forall. intros x Hx.
  rewrite Forall_forall in Hall. rewrite Forall_forall in Hfrom.
  destruct (Hall x Hx) as [Hin|(q & l & Hin)].
  - destruct (Hfrom x Hin) as [?|(q & l & <-)]; [by left|].
    right. exists q, l. left.
  - right. exists q, l. by right.
Qed.

(** X19. Whatever calls of [generate_response] and [reset_conversation]
    follow the constructor, the history is a list of exchanges, each the
    message of one of the calls followed by the answer to it; so the history
    part of the next prompt is the last three exchanges with each message
    labelled [Patient] and each answer [MedBot]. The collaborator and the
    default language never change. *)
Theorem session_history_exchanges (connect : result LLM) (language0 : string)
    (calls : list Call) :
  let self := session format_f (MedBotRAG_init connect language0) calls in
  ∃ exchanges,
    get_conversation_history self = messages_of exchanges
    ∧ Forall (λ x, ∃ q l, Generate x.1 q l ∈ calls) exchanges
    ∧ format_history (conversation_history self)
      = Py.join nl (Py.last_n 3 exchanges
                      ≫= λ x, ["Patient: " +:+ x.1; "MedBot: " +:+ x.2])
    ∧ llm self = llm (MedBotRAG_init connect language0)
    ∧ language self = language0.
Proof.
  intros self.
  destruct (session_exchanges calls (MedBotRAG_init connect language0) [] eq_refl)
    as (ex & Hex & Hall & Hl & Hla).
  exists ex. fold self in Hex, Hl, Hla. split_and!; [done| | |done|done].
  - apply Forall_forall. intros x Hx. rewrite Forall_forall in Hall.
    destruct (Hall x Hx) as [?%elem_of_nil|?]; done.
  - unfold format_history. rewrite Hex, messages_of_last. f_equal.
    apply history_labels.
Qed.

(** X20. [generate_response] never raises, and a call either leaves the
    history as it was or appends the message and the answer returned: the
    answer of the collaborator is returned as it is, and the text returned
    instead is the fallback text. *)
Theorem generate_response_outcomes (self : MedBotRAG) (user_input : string)
    (query_results : list Disease) (language_arg : option string) :
  let out := generate_response format_f self user_input query_results language_arg in
  let lang := str_or_else language_arg (language self) in
  ∃ response,
    out.1 = Ok response
    ∧ ((conversation_history out.2 = conversation_history self ++ [user_input; response]
        ∧ ∃ the_llm, llm self = Some the_llm
            ∧ the_llm (prompt_of format_f self user_input query_results lang)
              = Ok response)
       ∨ (out.2 = self
          ∧ response = _fallback_response format_f query_results lang
          ∧ (llm self = None
             ∨ ∃ the_llm e, llm self = Some the_llm
                 ∧ the_llm (prompt_of format_f self user_input query_results lang)
                   = Raise e))).
Proof.
  unfold generate_response. destruct (llm self) as [the_llm|] eqn:Hl; simpl.
  - destruct (the_llm _) as [response|e] eqn:E; simpl.
    + exists response. split; [done|]. left. split; [done|]. by exists the_llm.
    + eexists. split; [done|]. right. split_and!; [done|done|].
      right. by exists the_llm, e.
  - eexists. split; [done|]. right. split_and!; [done|done|by left].
Qed.

(** X21. [format_context] reads the first three entries only, and of each
    only the name, the percentage, the urgency, the matched symptoms, the
    specialty, five symptoms and three precautions. *)
Theorem format_context_reads (query_results : list Disease) :
  format_context format_f (take 3 query_results) = format_context format_f query_results
  ∧ format_context format_f (context_view <$> query_results)
    = format_context format_f query_results.
Proof.
  split.
  - unfold format_context. by destruct query_results as [|d1 [|d2 [|d3 rest]]].
  - unfold format_context. destruct query_results as [|d rest]; [done|].
    change (context_view <$> d :: rest) with (context_view d :: (context_view <$> rest)).
    cbv iota. f_equal.
    rewrite <-fmap_cons, <-fmap_take, imap_fmap.
    apply imap_ext. intros i x _. unfold disease_context. simpl.
    rewrite !take_take. simpl.
    destruct (precautions x) as [|p ps]; simpl; [done|].
    by rewrite take_take.
Qed.

End Conversation.

Example session_sample :
  get_conversation_history
    (session sample_format_f (MedBotRAG_init (Ok (λ _, Ok "Bonjour")) "fr")
       [Generate "j'ai de la fièvre" [] None; ResetConversation;
        Generate "et une toux" [] None])
  = ["et une toux"; "Bonjour"].
Proof. reflexivity. Qed.

(** ** One message of the chat *)

Lemma rank_diseases_sorted diseases user_symptoms :
  StronglySorted ranked_before (rank_diseases diseases user_symptoms).
Proof.
  unfold rank_diseases. eapply StronglySorted_weaken;
    [|apply sort_reverse_sorted; [apply sort_key_lt_asym|apply sort_key_ge_trans]].
  intros x y Hxy. unfold Py.not_below in Hxy. by apply sort_key_lt_false in Hxy.
Qed.

Lemma same_match_refl d : same_match d d.
Proof. by repeat split. Qed.

Lemma same_match_ranked l l' :
  Forall2 same_match l l' →
  StronglySorted ranked_before l → StronglySorted ranked_before l'.
Proof.
  assert (Hkey : ∀ a a' b b', same_match a a' → same_match b b' →
            ranked_before a b → ranked_before a' b').
  { intros a a' b b' (_ & _ & _ & Hu & _ & _ & Hs & _) (_ & _ & _ & Hu' & _ & _ & Hs' & _).
    unfold ranked_before, score, urgency_score. by rewrite Hu, Hs, Hu', Hs'. }
  induction 1 as [|a a' l l' Ha Hl IH]; [done|].
  intros [Hsorted Hall]%StronglySorted_inv. constructor; [by apply IH|].
  clear IH Hsorted. induction Hl as [|b b' l l' Hb Hl IH]; [done|].
  apply Forall_cons in Hall as [Hab Hall]. constructor; [by eapply Hkey|by apply IH].
Qed.

Section ChatFacts.
Variable query_error : SparqlQuery → option exn.
Variable foreign : SparqlQuery → list Solution.
Variable format_f : nat → Qc → string.

(** [query_diseases_by_symptoms] returns a ranked list of entries built
    from rows of the query. *)
Lemma query_diseases_sorted self symptom_names :
  ∃ results,
    query_diseases_by_symptoms query_error foreign self symptom_names = Ok results
    ∧ StronglySorted ranked_before results
    ∧ ∀ d, d ∈ results →
        ∃ row, row ∈ disease_rows foreign self symptom_names
               ∧ disease_of_row query_error foreign self symptom_names row = Ok d.
Proof.
  destruct (query_diseases_total query_error foreign self symptom_names)
    as (results & Hq & Hrows).
  exists results. split_and!; [done| |done].
  unfold query_diseases_by_symptoms in Hq.
  case_bool_decide; [injection Hq as <-; constructor|].
  destruct (graph_query _ _ _) as [qres|e]; [|injection Hq as <-; constructor].
  destruct (collect_rows_complete query_error foreign self symptom_names qres [])
    as (built & Hc & _).
  rewrite Hc in Hq. injection Hq as <-. apply rank_diseases_sorted.
Qed.

Lemma enrich_total knowledge_graph disease :
  ∃ d', enrich query_error foreign knowledge_graph disease = Ok d'
        ∧ same_match disease d'
        ∧ ((get_disease_details query_error foreign knowledge_graph (uri disease) = Ok None
            ∧ d' = disease)
           ∨ ∃ details,
               get_disease_details query_error foreign knowledge_graph (uri disease)
               = Ok (Some details)
               ∧ specialty d' = details_specialty details
               ∧ precautions d' = details_precautions details).
Proof.
  unfold enrich.
  destruct (get_disease_details_cases query_error foreign knowledge_graph (uri disease))
    as [[E _]|(row & sy & sp & ps & _ & _ & _ & _ & _ & E)]; rewrite E; simpl.
  - exists disease. split_and!; [done|apply same_match_refl|by left].
  - eexists. split_and!; [done|by repeat split|]. right. eexists. by split_and!.
Qed.

Lemma mapM_enrich knowledge_graph diseases :
  ∃ top, mapM (enrich query_error foreign knowledge_graph) diseases = Ok top
         ∧ Forall2 (λ d d', enrich query_error foreign knowledge_graph d = Ok d') diseases top.
Proof.
  induction diseases as [|d diseases (top & IH & Hall)]; simpl.
  - by exists [].
  - destruct (enrich_total knowledge_graph d) as (d' & Hd & _).
    exists (d' :: top). rewrite Hd. simpl. rewrite IH. simpl.
    split; [done|]. by constructor.
Qed.

(** X22. A chat message never reaches the error branch of the handler.
    Either the extractor finds nothing: the answer is the request to
    describe the symptoms, the graph is not consulted and the generation
    engine is untouched. Or the tokens found, which are distinct, are sent to
    the query, and the generation receives the ranked entries, still in
    ranking order and equal to the query's entries in all that the query
    computed, the first three completed by the specialty and precautions of
    their details, the others as they are; the answer is the text that
    [generate_response] returns for them. *)
Theorem process_message_turn (symptom_extractor : SymptomExtractor)
    (knowledge_graph : MedicalKnowledgeGraph) (rag_engine : MedBotRAG)
    (language prompt : string) :
  let symptoms := extract_symptoms symptom_extractor prompt (Some language) in
  let turn := process_message query_error foreign format_f symptom_extractor knowledge_graph
                              rag_engine language prompt in
  (symptoms = []
   ∧ turn = {| turn_response := no_symptoms_message language; turn_diseases := [];
               turn_rag := rag_engine |})
  ∨ (symptoms ≠ []
     ∧ NoDup (normalized <$> symptoms)
     ∧ ∃ ranked diseases,
         query_diseases_by_symptoms query_error foreign knowledge_graph (normalized <$> symptoms)
         = Ok ranked
         ∧ Forall2 same_match ranked diseases
         ∧ StronglySorted ranked_before diseases
         ∧ Forall2 (λ d d', enrich query_error foreign knowledge_graph d = Ok d')
                   (take 3 ranked) (take 3 diseases)
         ∧ drop 3 diseases = drop 3 ranked
         ∧ generate_response format_f rag_engine prompt diseases (Some language)
           = (Ok (turn_response turn), turn_rag turn)
         ∧ turn_diseases turn = take 3 diseases).
Proof.
  intros found turn. subst turn. unfold process_message. cbv zeta.
  change (extract_symptoms symptom_extractor prompt (Some language)) with found.
  destruct (extract_symptoms_properties symptom_extractor prompt (Some language))
    as (Hnd & _).
  change (extract_symptoms symptom_extractor prompt (Some language)) with found in Hnd.
  clearbody found. destruct found as [|s0 rest0]; [by left|right].
  split; [done|]. split; [done|].
  destruct (query_diseases_sorted knowledge_graph (normalized <$> s0 :: rest0))
    as (ranked & Hq & Hsorted & _).
  rewrite Hq.
  destruct (mapM_enrich knowledge_graph (take 3 ranked)) as (top & Htop & Hall).
  rewrite Htop.
  assert (length top = length (take 3 ranked)) as Hlen
    by (symmetry; by eapply Forall2_length).
  assert (take 3 (top ++ drop 3 ranked) = top
          ∧ drop 3 (top ++ drop 3 ranked) = drop 3 ranked) as [Htake Hdrop].
  { rewrite length_take in Hlen.
    destruct (decide (length ranked ≤ 3)) as [Hle|Hgt].
    - rewrite (drop_ge ranked) by done. rewrite app_nil_r.
      split; [apply take_ge|apply drop_ge]; lia.
    - split; [apply take_app_length'|apply drop_app_length']; lia. }
  assert (Forall2 same_match ranked (top ++ drop 3 ranked)) as Hsame.
  { rewrite <-(take_drop 3 ranked) at 1. apply Forall2_app.
    - eapply Forall2_impl; [exact Hall|]. intros d d' Hd. simpl in Hd.
      destruct (enrich_total knowledge_graph d) as (d'' & Hd'' & Hm & _).
      rewrite Hd in Hd''. by injection Hd'' as <-.
    - apply Forall2_same_length_lookup_2; [done|].
      intros i x y Hx Hy. rewrite Hx in Hy. injection Hy as <-.
      apply same_match_refl. }
  exists ranked, (top ++ drop 3 ranked).
  destruct (generate_response format_f rag_engine prompt (top ++ drop 3 ranked)
              (Some language)) as [[response|e] rag] eqn:Hgen.
  - simpl. rewrite Htake. split_and!; try done.
    by eapply same_match_ranked.
  - exfalso. revert Hgen. unfold generate_response.
    destruct (llm rag_engine) as [the_llm|]; [|done].
    simpl. by destruct (the_llm _).
Qed.

(** X23. The details of a returned entry: the IRI of an entry that
    [query_diseases_by_symptoms] returned is a disease of the store, and
    when it stands for itself in the text of the details query,
    [get_disease_details] on it finds the disease, unless rdflib rejects
    the details query, and reports the symptoms that the entry lists. *)
Theorem query_then_details (self : MedicalKnowledgeGraph) (symptom_names : list string) :
  ∃ results,
    query_diseases_by_symptoms query_error foreign self symptom_names = Ok results
    ∧ ∀ d, d ∈ results →
        known_disease (graph self) (uri d)
        ∧ (plain_iri (uri d) →
           query_error (DiseaseDetailsOf (uri d)) = None →
           ∃ details,
             get_disease_details query_error foreign self (uri d) = Ok (Some details)
             ∧ details_uri details = uri d
             ∧ details_symptoms details = symptoms d).
Proof.
  destruct (query_diseases_sorted self symptom_names) as (results & Hq & _ & Hrows).
  exists results. split; [done|]. intros d Hd.
  destruct (Hrows d Hd) as ([[[disease dn] de] ur] & Hrow & Hbuild).
  destruct (disease_of_row_fields _ _ _ _ _ _ Hbuild) as (Huri & _ & Hsym).
  simpl in Huri. rewrite Huri in *.
  apply disease_rows_known in Hrow as [Hk Hname]. simpl in Hk, Hname.
  split; [done|]. intros Hplain Hok.
  destruct (get_disease_details_cases query_error foreign self disease)
    as [[_ [E|E]]|(row & sy' & sp & ps & _ & _ & Hsy & _ & _ & E)].
  - done.
  - rewrite (details_rows_meant foreign self disease disease Hplain) in E.
    by destruct (select_disease_details_named _ _ _ Hk Hname).
  - eexists. split; [exact E|]. simpl. split; [done|]. congruence.
Qed.

End ChatFacts.

(** ** The graph of the medical data *)

Global Arguments graph_add_all : simpl never.

Lemma elem_of_graph_add g t t' : t' ∈ graph_add g t ↔ t' ∈ g ∨ t' = t.
Proof.
  unfold graph_add. case_bool_decide as Hin.
  - split; [by left|]. by intros [?| ->].
  - by rewrite elem_of_app, list_elem_of_singleton.
Qed.

Lemma elem_of_graph_add_all ts g t : t ∈ graph_add_all g ts ↔ t ∈ g ∨ t ∈ ts.
Proof.
  unfold graph_add_all. revert g. induction ts as [|t0 ts IH]; intros g; simpl.
  - split; [by left|]. by intros [?|?%elem_of_nil].
  - rewrite IH, elem_of_graph_add, elem_of_cons. tauto.
Qed.

Lemma graph_add_NoDup g t : NoDup g → NoDup (graph_add g t).
Proof.
  intros Hnd. unfold graph_add. case_bool_decide as Hin; [done|].
  apply NoDup_app. split_and!; [done| |apply NoDup_singleton].
  by intros x Hx ->%list_elem_of_singleton.
Qed.

Lemma elem_of_add_symptoms dis_uri ss g t :
  t ∈ fold_left (add_symptom dis_uri) ss g
  ↔ t ∈ g ∨ ∃ s, s ∈ ss ∧ t ∈ [(sym_uri_of (sym_name s), RDF_type, URIRef (MED "Symptom"));
                              (sym_uri_of (sym_name s), MED "symptomName",
                               Literal (sym_name s));
                              (sym_uri_of (sym_name s), MED "severityLevel",
                               Literal (pretty (sym_severity s)));
                              (dis_uri, MED "hasSymptom",
                               URIRef (sym_uri_of (sym_name s)))].
Proof.
  revert g. induction ss as [|s ss IH]; intros g; simpl.
  - split; [by left|]. by intros [?|(s & ?%elem_of_nil & _)].
  - rewrite IH. unfold add_symptom. cbv zeta. rewrite elem_of_graph_add_all. split.
    + intros [[?|Hin]|(s' & Hs' & Hin)]; [by left| |].
      * right. exists s. split; [left|done].
      * right. exists s'. split; [by right|done].
    + intros [?|(s' & [->|Hs']%elem_of_cons & Hin)]; [by left; left| |].
      * left. by right.
      * right. by exists s'.
Qed.

Lemma add_department_mono st d t : t ∈ pg st → t ∈ pg (add_department st d).
Proof. intros Ht. unfold add_department. simpl. apply elem_of_graph_add_all. by left. Qed.

Lemma add_disease_facts st d :
  spec_cache_ok st →
  (∀ t, t ∈ pg st → t ∈ pg (add_disease st d))
  ∧ spec_cache_ok (add_disease st d)
  ∧ known_disease (pg (add_disease st d)) (dis_uri_of (rec_disease d))
  ∧ (dis_uri_of (rec_disease d), MED "diseaseName", Literal (rec_disease d))
      ∈ pg (add_disease st d)
  ∧ (dis_uri_of (rec_disease d), MED "urgencyLevel", Literal (rec_urgency d))
      ∈ pg (add_disease st d)
  ∧ (∃ spec_uri,
       (dis_uri_of (rec_disease d), MED "treatedBy", URIRef spec_uri)
         ∈ pg (add_disease st d)
       ∧ (spec_uri, MED "specialtyName", Literal (rec_specialty d))
           ∈ pg (add_disease st d)
       ∧ (spec_uri, RDF_type, URIRef (MED "MedicalSpecialty"))
           ∈ pg (add_disease st d))
  ∧ ∀ s, s ∈ rec_symptoms d →
      (dis_uri_of (rec_disease d), MED "hasSymptom", URIRef (sym_uri_of (sym_name s)))
        ∈ pg (add_disease st d)
      ∧ (sym_uri_of (sym_name s), MED "symptomName", Literal (sym_name s))
          ∈ pg (add_disease st d)
      ∧ (sym_uri_of (sym_name s), RDF_type, URIRef (MED "Symptom"))
          ∈ pg (add_disease st d).
Proof.
  intros Hok. unfold add_disease, known_disease. cbv zeta.
  set (g1 := graph_add_all (pg st) _).
  assert (Hg1 : ∀ t, t ∈ pg st → t ∈ g1)
    by (intros t Ht; apply elem_of_graph_add_all; by left).
  destruct (Py.dict_get (rec_specialty d) (spec_cache st)) as [u|] eqn:Hc.
  - simpl. split_and!.
    + intros t Ht. apply elem_of_add_symptoms. left.
      apply elem_of_graph_add. left. by apply Hg1.
    + intros n u' Hn. simpl in Hn. simpl. destruct (Hok n u' Hn) as [H1 H2].
      split; apply elem_of_add_symptoms; left; apply elem_of_graph_add; left;
        by apply Hg1.
    + apply elem_of_add_symptoms. left. apply elem_of_graph_add. left.
      apply elem_of_graph_add_all. right. left.
    + apply elem_of_add_symptoms. left. apply elem_of_graph_add. left.
      apply elem_of_graph_add_all. right. right. left.
    + apply elem_of_add_symptoms. left. apply elem_of_graph_add. left.
      apply elem_of_graph_add_all. right. right. right. left.
    + exists u. destruct (Hok _ _ Hc) as [H1 H2]. split_and!.
      * apply elem_of_add_symptoms. left. apply elem_of_graph_add. by right.
      * apply elem_of_add_symptoms. left. apply elem_of_graph_add. left.
        by apply Hg1.
      * apply elem_of_add_symptoms. left. apply elem_of_graph_add. left.
        by apply Hg1.
    + intros s Hs. split_and!; apply elem_of_add_symptoms; right; exists s;
        (split; [done|]).
      * right. right. right. left.
      * right. left.
      * left.
  - set (g2 := graph_add_all g1 _).
    assert (Hg2 : ∀ t, t ∈ g1 → t ∈ g2)
      by (intros t Ht; apply elem_of_graph_add_all; by left).
    set (g3 := match Py.dict_get (rec_department d) (dept_cache st) with
               | Some dept_uri => _
               | None => g2
               end).
    assert (Hg3 : ∀ t, t ∈ g2 → t ∈ g3).
    { intros t Ht. unfold g3.
      destruct (Py.dict_get (rec_department d) (dept_cache st)); [|done].
      apply elem_of_graph_add_all. by left. }
    assert (Hname : (spec_uri_of (rec_specialty d), MED "specialtyName",
                     Literal (rec_specialty d)) ∈ g3).
    { apply Hg3, elem_of_graph_add_all. right. right. left. }
    assert (Htype : (spec_uri_of (rec_specialty d), RDF_type,
                     URIRef (MED "MedicalSpecialty")) ∈ g3).
    { apply Hg3, elem_of_graph_add_all. right. left. }
    simpl. split_and!.
    + intros t Ht. apply elem_of_add_symptoms. left.
      apply elem_of_graph_add. left. by apply Hg3, Hg2, Hg1.
    + intros n u' Hn. simpl in Hn. simpl.
      rewrite dict_get_set in Hn.
      destruct (String.eqb_spec n (rec_specialty d)) as [->|Hne].
      * injection Hn as <-.
        split; apply elem_of_add_symptoms; left; apply elem_of_graph_add; by left.
      * destruct (Hok n u' Hn) as [H1 H2].
        split; apply elem_of_add_symptoms; left; apply elem_of_graph_add; left;
          by apply Hg3, Hg2, Hg1.
    + apply elem_of_add_symptoms. left. apply elem_of_graph_add. left.
      apply Hg3, Hg2, elem_of_graph_add_all. right. left.
    + apply elem_of_add_symptoms. left. apply elem_of_graph_add. left.
      apply Hg3, Hg2, elem_of_graph_add_all. right. right. left.
    + apply elem_of_add_symptoms. left. apply elem_of_graph_add. left.
      apply Hg3, Hg2, elem_of_graph_add_all. right. right. right. left.
    + exists (spec_uri_of (rec_specialty d)). split_and!.
      * apply elem_of_add_symptoms. left. apply elem_of_graph_add. by right.
      * apply elem_of_add_symptoms. left. apply elem_of_graph_add. by left.
      * apply elem_of_add_symptoms. left. apply elem_of_graph_add. by left.
    + intros s Hs. split_and!; apply elem_of_add_symptoms; right; exists s;
        (split; [done|]).
      * right. right. right. left.
      * right. left.
      * left.
Qed.

Lemma add_diseases_mono ds st :
  spec_cache_ok st →
  spec_cache_ok (fold_left add_disease ds st)
  ∧ ∀ t, t ∈ pg st → t ∈ pg (fold_left add_disease ds st).
Proof.
  revert st. induction ds as [|d ds IH]; intros st Hok; simpl; [done|].
  destruct (add_disease_facts st d Hok) as (Hmono & Hok' & _).
  destruct (IH _ Hok') as [Hok'' Hmono']. split; [done|]. auto.
Qed.

Lemma add_departments_facts ds st :
  spec_cache st = [] →
  spec_cache (fold_left add_department ds st) = []
  ∧ (∀ t, t ∈ pg st → t ∈ pg (fold_left add_department ds st))
  ∧ ∀ d, d ∈ ds →
      (dept_uri_of (row_Department d), RDF_type, URIRef (MED "Department"))
        ∈ pg (fold_left add_department ds st)
      ∧ (dept_uri_of (row_Department d), MED "departmentName",
         Literal (row_Department d)) ∈ pg (fold_left add_department ds st)
      ∧ (dept_uri_of (row_Department d), MED "location", Literal (row_Location d))
          ∈ pg (fold_left add_department ds st).
Proof.
  revert st. induction ds as [|d ds IH]; intros st Hc; simpl.
  { split_and!; [done|done|]. by intros d ?%elem_of_nil. }
  destruct (IH (add_department st d) Hc) as (Hc' & Hmono & Hall).
  split_and!; [done| |].
  - intros t Ht. by apply Hmono, add_department_mono.
  - intros d' [->|Hd']%elem_of_cons; [|by apply Hall].
    split_and!; apply Hmono; unfold add_department; simpl;
      apply elem_of_graph_add_all; right.
    + left.
    + right. left.
    + right. right. left.
Qed.

Lemma add_diseases_written ds st d :
  spec_cache_ok st → d ∈ ds → disease_written (pg (fold_left add_disease ds st)) d.
Proof.
  revert st. induction ds as [|d0 ds IH]; intros st Hok Hd.
  { by apply elem_of_nil in Hd. }
  simpl. destruct (add_disease_facts st d0 Hok)
    as (_ & Hok' & Hk & Hn & Hu & (sp & Ht & Hs & Hty) & Hsym).
  apply elem_of_cons in Hd as [->|Hd]; [|by apply IH].
  destruct (add_diseases_mono ds _ Hok') as [_ Hmono].
  unfold disease_written, known_disease in *.
  split_and!; [by apply Hmono..| |].
  - exists sp. split_and!; by apply Hmono.
  - intros s Hs'. destruct (Hsym s Hs') as (H1 & H2 & _). split; by apply Hmono.
Qed.

Lemma populate_diseases g data d :
  d ∈ data_diseases data → disease_written (populate_knowledge_graph g data) d.
Proof.
  intros Hd. unfold populate_knowledge_graph. cbv zeta.
  apply add_diseases_written; [|done].
  destruct (add_departments_facts (data_departments data)
              {| pg := g; dept_cache := []; spec_cache := [] |} eq_refl) as (Hc & _).
  intros n u Hn. by rewrite Hc in Hn.
Qed.

(** X24. [populate_knowledge_graph] keeps the triples it is given and
    writes the data into the graph: every department with its name and
    location; every disease as a [med:Disease] with its name, its urgency
    and a [med:MedicalSpecialty] of the name that the record gives; and
    every symptom of a disease under its name, linked to the disease. *)
Theorem populate_writes_data (g : list Triple) (data : ConsolidatedData) :
  let built := populate_knowledge_graph g data in
  (∀ t, t ∈ g → t ∈ built)
  ∧ (∀ d, d ∈ data_departments data →
       (dept_uri_of (row_Department d), RDF_type, URIRef (MED "Department")) ∈ built
       ∧ (dept_uri_of (row_Department d), MED "departmentName",
          Literal (row_Department d)) ∈ built
       ∧ (dept_uri_of (row_Department d), MED "location", Literal (row_Location d))
           ∈ built)
  ∧ ∀ d, d ∈ data_diseases data →
      known_disease built (dis_uri_of (rec_disease d))
      ∧ (dis_uri_of (rec_disease d), MED "diseaseName", Literal (rec_disease d)) ∈ built
      ∧ (dis_uri_of (rec_disease d), MED "urgencyLevel", Literal (rec_urgency d)) ∈ built
      ∧ (∃ spec_uri,
           (dis_uri_of (rec_disease d), MED "treatedBy", URIRef spec_uri) ∈ built
           ∧ (spec_uri, MED "specialtyName", Literal (rec_specialty d)) ∈ built
           ∧ (spec_uri, RDF_type, URIRef (MED "MedicalSpecialty")) ∈ built)
      ∧ ∀ s, s ∈ rec_symptoms d →
          (dis_uri_of (rec_disease d), MED "hasSymptom",
           URIRef (sym_uri_of (sym_name s))) ∈ built
          ∧ (sym_uri_of (sym_name s), MED "symptomName", Literal (sym_name s)) ∈ built.
Proof.
  intros built. split_and!; [| |intros d Hd; by apply populate_diseases].
  all: unfold built, populate_knowledge_graph; cbv zeta.
  all: set (st0 := {| pg := g; dept_cache := []; spec_cache := [] |}).
  all: destruct (add_departments_facts (data_departments data) st0 eq_refl)
         as (Hc & Hmono1 & Hdepts).
  all: set (st1 := fold_left add_department (data_departments data) st0) in *.
  all: assert (Hok1 : spec_cache_ok st1) by (intros n u Hn; by rewrite Hc in Hn).
  all: destruct (add_diseases_mono (data_diseases data) st1 Hok1) as [_ Hmono2].
  - intros t Ht. by apply Hmono2, Hmono1.
  - intros d Hd. destruct (Hdepts d Hd) as (H1 & H2 & H3).
    split_and!; by apply Hmono2.
Qed.

Ltac other_predicate :=
  let H := fresh in
  intros H; simpl in H; apply String.eqb_eq in H; vm_compute in H; discriminate H.

Ltac known_class :=
  intros _; simpl; apply (bool_decide_unpack _); vm_compute; reflexivity.

Lemma schema_triples t :
  t ∈ create_ontology_structure [] → schema_triple t = true.
Proof.
  assert (forallb schema_triple (create_ontology_structure []) = true) as Hall
    by (vm_compute; reflexivity).
  rewrite forallb_forall in Hall. intros Ht%list_elem_of_In. exact (Hall t Ht).
Qed.

Lemma schema_triple_of_data data t : schema_triple t = true → triple_of_data data t.
Proof.
  unfold schema_triple. intros [[H1 H2]%andb_prop H3]%andb_prop.
  apply negb_true_iff, String.eqb_neq in H2, H3.
  split_and!; [|done|done].
  intros E. rewrite E, String.eqb_refl in H1. by apply bool_decide_eq_true in H1.
Qed.

Lemma add_department_of_data data st d :
  (∀ t, t ∈ pg st → triple_of_data data t) →
  ∀ t, t ∈ pg (add_department st d) → triple_of_data data t.
Proof.
  intros Hst t Ht. unfold add_department in Ht. simpl in Ht.
  apply elem_of_graph_add_all in Ht as [Ht|Ht]; [by apply Hst|].
  repeat (apply elem_of_cons in Ht as [->|Ht];
          [split_and!; first [other_predicate|known_class]|]).
  by apply elem_of_nil in Ht.
Qed.

Lemma add_disease_of_data data st d :
  d ∈ data_diseases data →
  (∀ t, t ∈ pg st → triple_of_data data t) →
  ∀ t, t ∈ pg (add_disease st d) → triple_of_data data t.
Proof.
  intros Hd Hst t Ht. unfold add_disease in Ht. cbv zeta in Ht.
  assert (Hg1 : ∀ t, t ∈ graph_add_all (pg st)
             [(dis_uri_of (rec_disease d), RDF_type, URIRef (MED "Disease"));
              (dis_uri_of (rec_disease d), MED "diseaseName", Literal (rec_disease d));
              (dis_uri_of (rec_disease d), MED "urgencyLevel", Literal (rec_urgency d))] →
            triple_of_data data t).
  { clear t Ht. intros t [Ht|Ht]%elem_of_graph_add_all; [by apply Hst|].
    repeat (apply elem_of_cons in Ht as [->|Ht];
            [split_and!; first [other_predicate|known_class]|]).
    by apply elem_of_nil in Ht. }
  assert (Hsym : ∀ g u, (∀ t, t ∈ g → triple_of_data data t) →
            t ∈ fold_left (add_symptom (dis_uri_of (rec_disease d))) (rec_symptoms d)
                  (graph_add g (dis_uri_of (rec_disease d), MED "treatedBy", URIRef u)) →
            triple_of_data data t).
  { intros g u Hg [Hin|(s & Hs & Hin)]%elem_of_add_symptoms.
    - apply elem_of_graph_add in Hin as [Hin| ->]; [by apply Hg|].
      split_and!; other_predicate.
    - repeat (apply elem_of_cons in Hin as [->|Hin];
              [split_and!; try first [other_predicate|known_class]|]).
      + intros _. exists s. split; [|done].
        apply list_elem_of_bind. by exists d.
      + intros _. by exists d, s.
      + by apply elem_of_nil in Hin. }
  destruct (Py.dict_get (rec_specialty d) (spec_cache st)) as [u|]; simpl in Ht.
  - by apply (Hsym _ u Hg1).
  - apply (Hsym _ _) in Ht; [done|]. clear t Ht Hsym. intros t Ht.
    assert (Hg2 : ∀ t, t ∈ graph_add_all
              (graph_add_all (pg st)
                 [(dis_uri_of (rec_disease d), RDF_type, URIRef (MED "Disease"));
                  (dis_uri_of (rec_disease d), MED "diseaseName", Literal (rec_disease d));
                  (dis_uri_of (rec_disease d), MED "urgencyLevel",
                   Literal (rec_urgency d))])
              [(spec_uri_of (rec_specialty d), RDF_type, URIRef (MED "MedicalSpecialty"));
               (spec_uri_of (rec_specialty d), MED "specialtyName",
                Literal (rec_specialty d))] →
            triple_of_data data t).
    { clear t Ht. intros t [Ht|Ht]%elem_of_graph_add_all; [by apply Hg1|].
      repeat (apply elem_of_cons in Ht as [->|Ht];
              [split_and!; first [other_predicate|known_class]|]).
      by apply elem_of_nil in Ht. }
    destruct (Py.dict_get (rec_department d) (dept_cache st)) as [dept_uri|];
      [|by apply Hg2].
    apply elem_of_graph_add_all in Ht as [Ht|Ht]; [by apply Hg2|].
    repeat (apply elem_of_cons in Ht as [->|Ht];
            [split_and!; first [other_predicate|known_class]|]).
    by apply elem_of_nil in Ht.
Qed.

Lemma build_graph_of_data data t : t ∈ build_graph data → triple_of_data data t.
Proof.
  revert t.
  unfold build_graph, populate_knowledge_graph. cbv zeta.
  set (st0 := {| pg := create_ontology_structure []; dept_cache := [];
                 spec_cache := [] |}).
  assert (H0 : ∀ t, t ∈ pg st0 → triple_of_data data t)
    by (intros t Ht; by apply schema_triple_of_data, schema_triples).
  assert (H1 : ∀ t, t ∈ pg (fold_left add_department (data_departments data) st0) →
                    triple_of_data data t).
  { revert H0. generalize st0. induction (data_departments data) as [|d ds IH];
      intros st Hst; simpl; [done|].
    apply IH. by apply add_department_of_data. }
  revert H1. generalize (fold_left add_department (data_departments data) st0).
  assert (Hsub : ∀ d, d ∈ data_diseases data → d ∈ data_diseases data) by done.
  revert Hsub. generalize (data_diseases data) at 1 3.
  induction l as [|d ds IH]; intros Hsub st Hst; simpl; [done|].
  apply IH; [intros d' Hd'; apply Hsub; by right|].
  apply add_disease_of_data; [apply Hsub; left|done].
Qed.

(** X25. Every triple of a built graph comes from the schema or from the
    data: nothing has the type [med:Specialty], a symptom name is the name
    of a symptom record, under the IRI minted for that name, and a symptom
    link goes from the IRI of a disease record to the IRI of one of its
    symptoms. *)
Theorem build_graph_triples (data : ConsolidatedData) :
  Forall (triple_of_data data) (build_graph data)
  ∧ ∀ s, (s, RDF_type, URIRef (MED "Specialty")) ∉ build_graph data.
Proof.
  pose proof (build_graph_of_data data) as Hall.
  split; [by apply Forall_forall|].
  intros s Hs. destruct (Hall _ Hs) as (Hty & _).
  specialize (Hty eq_refl). simpl in Hty.
  apply (bool_decide_pack _) in Hty. vm_compute in Hty. done.
Qed.

(** ** Queries on a built graph *)

Lemma lacks_map_chars f ch s :
  (∀ c, Ascii.eqb (f c) ch = false) → lacks ch (Py.map_chars f s) = true.
Proof. intros Hf. induction s as [|c s IH]; simpl; [done|]. by rewrite Hf, IH. Qed.

Lemma sep_char_not_space c : Ascii.eqb (sep_char c) " " = false.
Proof. each_char c. Qed.

Lemma sep_char_not_hyphen c : Ascii.eqb (sep_char c) "-" = false.
Proof. each_char c. Qed.

(** A token is its own token, and holds neither space nor hyphen. *)
Lemma token_plain x :
  let t := _normalize_symptom_name x in
  _normalize_symptom_name t = t ∧ lacks " " t = true ∧ lacks "-" t = true.
Proof.
  intros t. unfold t. split_and!.
  - rewrite !normalize_unfold.
    set (u := Py.strip (Py.lower x)).
    assert (Hu : Py.strip u = u) by apply strip_idem.
    assert (Hl : Py.lower u = u) by (unfold u; by rewrite strip_lower, lower_idem).
    assert (E : Py.lower (Py.map_chars sep_char u) = Py.map_chars sep_char u).
    { unfold Py.lower. rewrite map_chars_compose.
      rewrite (map_chars_ext _ (λ c, sep_char (Py.lower_char c)))
        by apply sep_char_lower.
      rewrite <-map_chars_compose. fold (Py.lower u). by rewrite Hl. }
    rewrite E, strip_fixed_map by (apply sep_char_nonspace || done).
    rewrite map_chars_compose. apply map_chars_ext, sep_char_idem.
  - rewrite normalize_unfold. apply lacks_map_chars, sep_char_not_space.
  - rewrite normalize_unfold. apply lacks_map_chars, sep_char_not_hyphen.
Qed.

Section BuiltGraphQueries.
Variable query_error : SparqlQuery → option exn.
Variable foreign : SparqlQuery → list Solution.

(** An entry returned from a built graph, for names that stand for the
    terms [terms], is a disease record, found through a symptom record whose
    name is one of the terms. *)
Lemma built_query_sound data path symptom_names terms results e :
  in_list symptom_names = Some terms →
  query_diseases_by_symptoms query_error foreign
    {| graph := build_graph data; ontology_path := path |} symptom_names = Ok results →
  e ∈ results →
  ∃ d s s',
    d ∈ data_diseases data ∧ s ∈ rec_symptoms d
    ∧ uri e = dis_uri_of (rec_disease d)
    ∧ s' ∈ data_symptoms data
    ∧ sym_uri_of (sym_name s') = sym_uri_of (sym_name s)
    ∧ sym_name s' ∈ terms.
Proof.
  intros Hread Hq He.
  destruct (query_diseases_linked query_error foreign _ _ _ _ _ Hread Hq He)
    as (_ & sym & n & Hsym & Hname & Hin).
  simpl in Hsym, Hname.
  destruct (build_graph_of_data data _ Hsym) as (_ & _ & Hlink).
  destruct (Hlink eq_refl) as (d & s & Hd & Hs & Hdis & Hobj). simpl in Hdis, Hobj.
  destruct (build_graph_of_data data _ Hname) as (_ & Hsn & _).
  destruct (Hsn eq_refl) as (s' & Hs' & Hsub & Hlit). simpl in Hsub, Hlit.
  injection Hobj as Hobj. injection Hlit as Hlit.
  exists d, s, s'. split_and!; [done|done|congruence|done|congruence|by rewrite <-Hlit].
Qed.

(** A disease record with a symptom named by one of the terms is returned
    from a built graph, when rdflib accepts the disease query. *)
Lemma built_query_complete data path symptom_names terms results d s :
  in_list symptom_names = Some terms →
  query_error (DiseasesBySymptoms symptom_names) = None →
  query_diseases_by_symptoms query_error foreign
    {| graph := build_graph data; ontology_path := path |} symptom_names = Ok results →
  d ∈ data_diseases data → s ∈ rec_symptoms d → sym_name s ∈ terms →
  ∃ e, e ∈ results
       ∧ uri e = dis_uri_of (rec_disease d)
       ∧ name e = str_or "Unknown" (Some (Literal (rec_disease d))).
Proof.
  intros Hread Hok Hq Hd Hs Hin.
  destruct (populate_diseases (create_ontology_structure []) data d Hd)
    as (Hk & Hn & _ & _ & Hsym).
  destruct (Hsym s Hs) as [Hlink Hname].
  destruct (query_finds_linked query_error foreign
              {| graph := build_graph data; ontology_path := path |}
              symptom_names terms (dis_uri_of (rec_disease d))
              (Literal (rec_disease d)) Hread Hok Hk Hn)
    as (results' & e & Hq' & He & Hu & Hnm).
  { exists (sym_uri_of (sym_name s)), (sym_name s). by split_and!. }
  rewrite Hq in Hq'. injection Hq' as <-. by exists e.
Qed.

(** X26. A query on a built graph answers by the data, for input names
    whose texts stand for the terms [terms] in the text of the query. Every
    returned entry is a disease record, reached through a symptom record
    whose name is one of the terms; and when rdflib accepts the query, every
    disease record with a symptom named by one of the terms is returned,
    under its IRI and name. *)
Theorem build_graph_query (data : ConsolidatedData) (path : string)
    (symptom_names terms : list string) :
  in_list symptom_names = Some terms →
  let kg := {| graph := build_graph data; ontology_path := path |} in
  ∃ results,
    query_diseases_by_symptoms query_error foreign kg symptom_names = Ok results
    ∧ (∀ e, e ∈ results →
         ∃ d s s',
           d ∈ data_diseases data ∧ s ∈ rec_symptoms d
           ∧ uri e = dis_uri_of (rec_disease d)
           ∧ s' ∈ data_symptoms data
           ∧ sym_uri_of (sym_name s') = sym_uri_of (sym_name s)
           ∧ sym_name s' ∈ terms)
    ∧ (query_error (DiseasesBySymptoms symptom_names) = None →
       ∀ d s, d ∈ data_diseases data → s ∈ rec_symptoms d →
         sym_name s ∈ terms →
         ∃ e, e ∈ results
              ∧ uri e = dis_uri_of (rec_disease d)
              ∧ name e = str_or "Unknown" (Some (Literal (rec_disease d)))).
Proof.
  intros Hread kg.
  destruct (query_diseases_total query_error foreign kg symptom_names)
    as (results & Hq & _).
  exists results. split_and!; [done| |].
  - intros e He. by eapply built_query_sound.
  - intros Hok d s Hd Hs Hin. by eapply built_query_complete.
Qed.

End BuiltGraphQueries.

Section BuiltGraphListings.
Variable utility_error : UtilityQuery → option exn.

(** X27. On every built graph [get_all_specialties] returns the empty list,
    since the graph types its specialties [med:MedicalSpecialty] and the
    listing asks for [med:Specialty]; the statistics, which count
    [med:MedicalSpecialty], find at least one specialty as soon as the data
    has a disease. *)
Theorem build_graph_specialties (data : ConsolidatedData) (path : string) :
  let kg := {| graph := build_graph data; ontology_path := path |} in
  get_all_specialties utility_error kg = Ok []
  ∧ (data_diseases data ≠ [] →
     ∀ stats, get_graph_statistics utility_error kg = Ok stats →
       0 < stats_specialties stats).
Proof.
  intros kg. split.
  - unfold get_all_specialties, utility_query.
    destruct (utility_error AllSpecialties); [done|].
    assert (select_all_specialties (graph kg) = []) as ->; [|done].
    apply elem_of_nil_inv. intros n Hn. unfold select_all_specialties in Hn.
    rewrite merge_sort_Permutation, elem_of_remove_dups in Hn.
    apply list_elem_of_bind in Hn as (sp & _ & Hsp%elem_of_instances).
    destruct (build_graph_of_data data _ Hsp) as (Hty & _).
    specialize (Hty eq_refl). simpl in Hty.
    apply (bool_decide_pack _) in Hty. vm_compute in Hty. done.
  - intros Hne stats Hstats.
    destruct (data_diseases data) as [|d ds] eqn:Hds; [done|].
    assert (d ∈ data_diseases data) as Hd by (rewrite Hds; left).
    destruct (populate_diseases (create_ontology_structure []) data d Hd)
      as (_ & _ & _ & (sp & _ & _ & Hty) & _).
    assert (sp ∈ instances (graph kg) (MED "MedicalSpecialty")) as Hin
      by by apply elem_of_instances.
    assert (0 < length (instances (graph kg) (MED "MedicalSpecialty"))) as Hpos.
    { destruct (instances (graph kg) (MED "MedicalSpecialty"));
        [by apply elem_of_nil in Hin|simpl; lia]. }
    revert Hstats. unfold get_graph_statistics.
    destruct (count_instances_cases utility_error kg (MED "Disease") 0)
      as [[_ ->]|(e & _ & ->)]; [|done].
    destruct (count_instances_cases utility_error kg (MED "Symptom") 0)
      as [[_ ->]|(e & _ & ->)]; [|done].
    destruct (count_instances_cases utility_error kg (MED "MedicalSpecialty") 0)
      as [[_ ->]|(e & _ & ->)]; [|done].
    destruct (count_instances_cases utility_error kg (MED "Department") 0)
      as [[_ ->]|(e & _ & ->)]; [|done].
    intros [= <-]. exact Hpos.
Qed.

End BuiltGraphListings.

(** ** The extractor and the graph of the same data *)

Lemma elem_of_all_symptoms_of data n :
  n ∈ all_symptoms (medical_data_of data)
  ↔ n ≠ "" ∧ ∃ s, s ∈ data_symptoms data ∧ sym_name s = n.
Proof.
  rewrite elem_of_all_symptoms. unfold medical_data_of, data_symptoms. simpl. split.
  - intros (entry & (d & -> & Hd)%list_elem_of_fmap & [Hs|[Hne Hs]]); simpl in Hs;
      apply list_elem_of_fmap in Hs as (s & Hs & Hin); [done|].
    injection Hs as ->. split; [done|]. exists s. split; [|done].
    apply list_elem_of_bind. by exists d.
  - intros (Hne & s & (d & Hs & Hd)%list_elem_of_bind & <-).
    eexists. split; [apply list_elem_of_fmap; by exists d|]. right.
    split; [done|]. simpl. apply list_elem_of_fmap. by exists s.
Qed.

Lemma known_candidate self text language k v :
  (k, v) ∈ symptoms_dict self →
  Py.contains k (Py.lower text) = true →
  ∃ c, c ∈ candidates self text language ∧ normalized c = k.
Proof.
  intros Hkv Hc.
  assert (∀ conf meth, ∃ c, c ∈ known_symptom_matches self conf meth (Py.lower text)
                            ∧ normalized c = k) as Hknown.
  { intros conf meth.
    exists {| symptom := v; normalized := k; confidence := conf; method := meth |}.
    split; [|done]. apply list_elem_of_bind. exists (k, v). split; [|done].
    rewrite Hc. simpl. left. }
  unfold candidates. destruct (select_nlp _ _) as [nlp|].
  - destruct (Hknown conf_0_9 "exact_match") as (c & Hin & Hn).
    exists c. split; [|done]. unfold full_candidates. apply elem_of_app. by left.
  - destruct (Hknown conf_0_8 "keyword_match") as (c & Hin & Hn).
    exists c. split; [|done]. unfold fallback_candidates. apply elem_of_app. by left.
Qed.

Section SameData.
Variable set_iter : gset string → list string.
Hypothesis set_iter_elements : ∀ X, set_iter X ≡ₚ elements X.
Variable query_error : SparqlQuery → option exn.
Variable foreign : SparqlQuery → list Solution.

Lemma built_keys self medical_data s :
  s ∈ all_symptoms medical_data →
  _normalize_symptom_name s
    ∈ Py.dict_keys (symptoms_dict
                      (_build_symptom_dictionaries set_iter self medical_data)).
Proof.
  intros Hs. unfold _build_symptom_dictionaries. simpl.
  destruct (build_loop (set_iter (all_symptoms medical_data)) (symptoms_dict self))
    as (_ & _ & Hkey & _).
  apply Hkey. by rewrite set_iter_elements, elem_of_elements.
Qed.

(** The tokens that the built extractor finds are tokens of symptom names
    of the data. *)
Lemma built_extraction_names self data text language n :
  symptoms_dict self = [] →
  n ∈ normalized <$> extract_symptoms
        (_build_symptom_dictionaries set_iter self (medical_data_of data)) text language →
  ∃ s, s ∈ data_symptoms data ∧ n = _normalize_symptom_name (sym_name s).
Proof.
  intros Hempty (e & -> & He)%list_elem_of_fmap.
  destruct (built_entries set_iter set_iter_elements self (medical_data_of data) Hempty)
    as (Hnd & Hent).
  destruct (extract_symptoms_properties
              (_build_symptom_dictionaries set_iter self (medical_data_of data))
              text language) as (_ & _ & Hcand & _).
  destruct (Hcand e He) as [Hc _].
  apply (candidates_display _ _ _ _ Hnd), dict_get_Some_elem in Hc.
  destruct (Hent _ _ Hc) as [Hk Hv].
  apply elem_of_all_symptoms_of in Hv as (_ & s & Hs & Hname).
  exists s. split; [done|]. by rewrite Hname.
Qed.

(** X28. The extractor and the graph of the same data meet on plain names
    only, for data whose symptom names hold no quote, backslash, line feed
    or carriage return. The tokens found in a text are sent to a graph built
    from the data the vocabulary was built from: every entry that comes back
    is a disease record, reached through a symptom record whose name in the
    data is one of the tokens, so a name that is its own token, without
    space or hyphen; and when rdflib accepts the query, a disease with a
    symptom of such a name, not empty, that occurs in the lower-cased text
    is returned. *)
Theorem extractor_graph_agreement (self : SymptomExtractor) (data : ConsolidatedData)
    (path text : string) (language : option string) :
  symptoms_dict self = [] →
  Forall (λ s, all_chars literal_char (sym_name s) = true) (data_symptoms data) →
  let extractor := _build_symptom_dictionaries set_iter self (medical_data_of data) in
  let kg := {| graph := build_graph data; ontology_path := path |} in
  let names := normalized <$> extract_symptoms extractor text language in
  ∃ results,
    query_diseases_by_symptoms query_error foreign kg names = Ok results
    ∧ (∀ e, e ∈ results →
         ∃ d s s',
           d ∈ data_diseases data ∧ s ∈ rec_symptoms d
           ∧ uri e = dis_uri_of (rec_disease d)
           ∧ s' ∈ data_symptoms data
           ∧ sym_uri_of (sym_name s') = sym_uri_of (sym_name s)
           ∧ sym_name s' ∈ names
           ∧ _normalize_symptom_name (sym_name s') = sym_name s'
           ∧ lacks " " (sym_name s') = true
           ∧ lacks "-" (sym_name s') = true)
    ∧ (query_error (DiseasesBySymptoms names) = None →
       ∀ d s, d ∈ data_diseases data → s ∈ rec_symptoms d →
         sym_name s ≠ "" →
         _normalize_symptom_name (sym_name s) = sym_name s →
         Py.contains (sym_name s) (Py.lower text) = true →
         ∃ e, e ∈ results ∧ uri e = dis_uri_of (rec_disease d)).
Proof.
  intros Hempty Hchars extractor kg names.
  assert (in_list names = Some names) as Hread.
  { apply in_list_plain, Forall_forall. intros n Hn.
    apply (built_extraction_names _ _ _ _ _ Hempty) in Hn as (s & Hs & ->).
    apply plain_literal_chars, normalize_literal_chars.
    by apply (proj1 (Forall_forall _ _) Hchars). }
  destruct (query_diseases_total query_error foreign kg names) as (results & Hq & _).
  exists results. split_and!; [done| |].
  - intros e He.
    destruct (built_query_sound query_error foreign data path names names results e
                Hread Hq He)
      as (d & s & s' & Hd & Hs & Hu & Hs' & Hsame & Hin).
    exists d, s, s'. split_and!; try done.
    all: apply (built_extraction_names _ _ _ _ _ Hempty) in Hin as (s0 & _ & ->);
      apply token_plain.
  - intros Hok d s Hd Hs Hne Hplain Hc.
    assert (sym_name s ∈ all_symptoms (medical_data_of data)) as Hall.
    { apply elem_of_all_symptoms_of. split; [done|]. exists s. split; [|done].
      apply list_elem_of_bind. by exists d. }
    apply (built_keys self) in Hall. rewrite Hplain in Hall. fold extractor in Hall.
    apply list_elem_of_fmap in Hall as ([k v] & Hk & Hkv). simpl in Hk. subst k.
    destruct (known_candidate extractor text language _ _ Hkv Hc) as (c & Hcin & Hcn).
    destruct (extract_symptoms_covers extractor text language c Hcin)
      as (x & Hx & Hxn & _).
    assert (sym_name s ∈ names) as Hin.
    { apply list_elem_of_fmap. exists x. split; [congruence|done]. }
    destruct (built_query_complete query_error foreign data path names names results
                d s Hread Hok Hq Hd Hs Hin) as (e & He & Hu & _).
    by exists e.
Qed.

End SameData.

Lemma build_graph_query_witness :
  ∃ results,
    query_diseases_by_symptoms (λ _, None) (λ _, [])
      {| graph := build_graph sample_data; ontology_path := "medical_ontology.ttl" |}
      ["itching"]
    = Ok results
    ∧ (∀ e, e ∈ results →
         ∃ d s s',
           d ∈ data_diseases sample_data ∧ s ∈ rec_symptoms d
           ∧ uri e = dis_uri_of (rec_disease d)
           ∧ s' ∈ data_symptoms sample_data
           ∧ sym_uri_of (sym_name s') = sym_uri_of (sym_name s)
           ∧ sym_name s' ∈ ["itching"])
    ∧ ((λ _ : SparqlQuery, @None exn) (DiseasesBySymptoms ["itching"]) = None →
       ∀ d s, d ∈ data_diseases sample_data → s ∈ rec_symptoms d →
         sym_name s ∈ ["itching"] →
         ∃ e, e ∈ results
              ∧ uri e = dis_uri_of (rec_disease d)
              ∧ name e = str_or "Unknown" (Some (Literal (rec_disease d)))).
Proof.
  apply (build_graph_query (λ _, None) (λ _, []) sample_data "medical_ontology.ttl"
           ["itching"] ["itching"]).
  reflexivity.
Defined.

Lemma extractor_graph_agreement_witness :
  ∃ results,
    query_diseases_by_symptoms (λ _, None) (λ _, [])
      {| graph := build_graph sample_data; ontology_path := "medical_ontology.ttl" |}
      (normalized <$> extract_symptoms
                        (_build_symptom_dictionaries elements sample_fresh_extractor
                                                     (medical_data_of sample_data))
                        "itching and a skin rash" None)
    = Ok results
    ∧ (∀ e, e ∈ results →
         ∃ d s s',
           d ∈ data_diseases sample_data ∧ s ∈ rec_symptoms d
           ∧ uri e = dis_uri_of (rec_disease d)
           ∧ s' ∈ data_symptoms sample_data
           ∧ sym_uri_of (sym_name s') = sym_uri_of (sym_name s)
           ∧ sym_name s'
               ∈ normalized <$> extract_symptoms
                    (_build_symptom_dictionaries elements sample_fresh_extractor
                                                 (medical_data_of sample_data))
                    "itching and a skin rash" None
           ∧ _normalize_symptom_name (sym_name s') = sym_name s'
           ∧ lacks " " (sym_name s') = true
           ∧ lacks "-" (sym_name s') = true)
    ∧ ((λ _ : SparqlQuery, @None exn)
         (DiseasesBySymptoms
            (normalized <$> extract_symptoms
                        (_build_symptom_dictionaries elements sample_fresh_extractor
                                                     (medical_data_of sample_data))
                        "itching and a skin rash" None)) = None →
       ∀ d s, d ∈ data_diseases sample_data → s ∈ rec_symptoms d →
         sym_name s ≠ "" →
         _normalize_symptom_name (sym_name s) = sym_name s →
         Py.contains (sym_name s) (Py.lower "itching and a skin rash") = true →
         ∃ e, e ∈ results ∧ uri e = dis_uri_of (rec_disease d)).
Proof.
  apply (extractor_graph_agreement elements (λ X, reflexivity _) (λ _, None) (λ _, [])
           sample_fresh_extractor sample_data "medical_ontology.ttl"
           "itching and a skin rash" None).
  - reflexivity.
  - apply (bool_decide_unpack _). vm_compute. reflexivity.
Defined.

(** On the sample data the one-word name is matched and the two-word name
    is not: its token is sent, and the graph holds the name. *)
Example sample_tokens_and_names :
  normalized <$> extract_symptoms
                   (_build_symptom_dictionaries elements sample_fresh_extractor
                                                (medical_data_of sample_data))
                   "I have a skin rash" None
  = ["skin_rash"]
  ∧ query_diseases_by_symptoms (λ _, None) (λ _, [])
      {| graph := build_graph sample_data; ontology_path := "medical_ontology.ttl" |}
      ["skin_rash"]
    = Ok []
  ∧ uri <$> default [] (match query_diseases_by_symptoms (λ _, None) (λ _, [])
                                {| graph := build_graph sample_data;
                                   ontology_path := "medical_ontology.ttl" |}
                                ["itching"] with
                        | Ok r => Some r
                        | Raise _ => None
                        end)
    = [dis_uri_of "fungal infection"].
Proof. split_and!; vm_compute; reflexivity. Qed.

(** ** The names of the data *)

Lemma sub_whitespace_spaced b s : single_spaced b (sub_whitespace b s) = true.
Proof.
  revert b. induction s as [|c s IH]; intros b; simpl; [done|].
  destruct (Py.isspace c) eqn:Hc.
  - destruct b; [apply IH|]. simpl. by rewrite IH.
  - simpl. by rewrite Hc, IH.
Qed.

Lemma sub_whitespace_fixed b s : single_spaced b s = true → sub_whitespace b s = s.
Proof.
  revert b. induction s as [|c s IH]; intros b; simpl; [done|].
  destruct (Py.isspace c).
  - intros [[Hb Hc%Ascii.eqb_eq]%andb_prop Hs]%andb_prop.
    destruct b; [done|]. subst c. by rewrite IH.
  - intros Hs. by rewrite IH.
Qed.

Lemma lstrip_spaced b s : single_spaced b s = true → single_spaced false (Py.lstrip s) = true.
Proof.
  revert b. induction s as [|c s IH]; intros b; simpl; [done|].
  destruct (Py.isspace c) eqn:Hc.
  - intros [_ Hs]%andb_prop. by eapply IH.
  - intros Hs. simpl. by rewrite Hc.
Qed.

Lemma rstrip_spaced b s : single_spaced b s = true → single_spaced b (Py.rstrip s) = true.
Proof.
  revert b. induction s as [|c s IH]; intros b; [done|].
  rewrite rstrip_cons. simpl.
  destruct (Py.isspace c) eqn:Hc.
  - intros [Hb Hs]%andb_prop. apply IH in Hs.
    destruct (Py.rstrip s) as [|c' r] eqn:Hr; [done|].
    simpl. rewrite Hc. simpl in Hs. by rewrite Hb.
  - intros Hs. apply IH in Hs.
    destruct (Py.rstrip s) as [|c' r] eqn:Hr; simpl; by rewrite Hc.
Qed.

Lemma lacks_sub_whitespace b s :
  lacks "_" s = true → lacks "_" (sub_whitespace b s) = true.
Proof.
  revert b. induction s as [|c s IH]; intros b; simpl; [done|].
  intros [Hc Hs]%andb_prop. destruct (Py.isspace c).
  - destruct b; [by apply IH|]. simpl. by apply IH.
  - simpl. rewrite Hc. by apply IH.
Qed.

Lemma lacks_lstrip ch s : lacks ch s = true → lacks ch (Py.lstrip s) = true.
Proof.
  induction s as [|c s IH]; simpl; [done|].
  intros [Hc Hs]%andb_prop. destruct (Py.isspace c); [by apply IH|].
  simpl. by rewrite Hc.
Qed.

Lemma lacks_rstrip ch s : lacks ch s = true → lacks ch (Py.rstrip s) = true.
Proof.
  induction s as [|c s IH]; [done|]. rewrite rstrip_cons. simpl.
  intros [Hc Hs]%andb_prop. apply IH in Hs.
  destruct (Py.rstrip s) as [|c' r].
  - destruct (Py.isspace c); [done|]. simpl. by rewrite Hc.
  - simpl. simpl in Hs. by rewrite Hc.
Qed.

Lemma lacks_replace s : lacks "_" (Py.replace "_" " " s) = true.
Proof.
  unfold Py.replace. apply lacks_map_chars. intros c. each_char c.
Qed.

Lemma replace_fixed s : lacks "_" s = true → Py.replace "_" " " s = s.
Proof.
  unfold Py.replace. induction s as [|c s IH]; simpl; [done|].
  intros [Hc Hs]%andb_prop. apply negb_true_iff in Hc. by rewrite Hc, IH.
Qed.

Lemma lower_sub_whitespace b s :
  Py.lower (sub_whitespace b s) = sub_whitespace b (Py.lower s).
Proof.
  unfold Py.lower. revert b. induction s as [|c s IH]; intros b; simpl; [done|].
  rewrite isspace_lower_char. destruct (Py.isspace c).
  - destruct b; [apply IH|]. simpl. by rewrite IH.
  - simpl. by rewrite IH.
Qed.

Lemma lower_replace s :
  Py.lower (Py.replace "_" " " s) = Py.replace "_" " " (Py.lower s).
Proof.
  unfold Py.lower, Py.replace. rewrite !map_chars_compose.
  apply map_chars_ext. intros c. each_char c.
Qed.

(** The steps of [clean_text] before the corrections. *)
Lemma cleaned_form s :
  let x := Py.strip (sub_whitespace false (Py.replace "_" " " (Py.lower s))) in
  Py.lower x = x ∧ Py.strip x = x ∧ lacks "_" x = true
  ∧ single_spaced false x = true.
Proof.
  intros x. unfold x. split_and!.
  - by rewrite <-strip_lower, lower_sub_whitespace, lower_replace, lower_idem.
  - apply strip_idem.
  - unfold Py.strip. apply lacks_rstrip, lacks_lstrip, lacks_sub_whitespace, lacks_replace.
  - unfold Py.strip. apply rstrip_spaced.
    eapply lstrip_spaced, sub_whitespace_spaced.
Qed.

Lemma cleaned_fixed x :
  Py.lower x = x → Py.strip x = x → lacks "_" x = true →
  single_spaced false x = true →
  Py.strip (sub_whitespace false (Py.replace "_" " " (Py.lower x))) = x.
Proof.
  intros Hl Hs Hu Hsp. by rewrite Hl, replace_fixed, sub_whitespace_fixed.
Qed.

Lemma sep_char_fixed c :
  Ascii.eqb (sep_char c) c = negb (Ascii.eqb c " ") && negb (Ascii.eqb c "-").
Proof. each_char c. Qed.

Lemma map_sep_char_fixed s :
  Py.map_chars sep_char s = s ↔ lacks " " s = true ∧ lacks "-" s = true.
Proof.
  induction s as [|c s IH]; simpl; [done|]. split.
  - intros [= Hc Hs]. apply Ascii.eqb_eq in Hc. rewrite sep_char_fixed in Hc.
    apply andb_prop in Hc as [H1 H2]. apply IH in Hs as [H3 H4].
    by rewrite H1, H2, H3, H4.
  - intros [[H1 H3]%andb_prop [H2 H4]%andb_prop].
    assert (Ascii.eqb (sep_char c) c = true) as Hc%Ascii.eqb_eq
      by (by rewrite sep_char_fixed, H1, H2).
    rewrite Hc. f_equal. by apply IH.
Qed.

(** X29. [clean_text] gives a missing value for a missing value, and for a
    text a name in lower case, trimmed, without underscore, that it leaves
    as it is when applied again. Such a name is its own token for the
    symptom extractor exactly when it holds neither space nor hyphen. *)
Theorem clean_text_names (text : string) :
  clean_text None = None
  ∧ ∃ n,
      clean_text (Some text) = Some n
      ∧ clean_text (Some n) = Some n
      ∧ Py.lower n = n ∧ Py.strip n = n ∧ lacks "_" n = true
      ∧ (_normalize_symptom_name n = n ↔ lacks " " n = true ∧ lacks "-" n = true).
Proof.
  split; [done|]. unfold clean_text. cbv zeta.
  set (x := Py.strip (sub_whitespace false (Py.replace "_" " " (Py.lower text)))).
  destruct (cleaned_form text) as (Hl & Hs & Hu & Hsp). fold x in Hl, Hs, Hu, Hsp.
  assert (∃ n, default x (Py.dict_get x corrections) = n
               ∧ Py.lower n = n ∧ Py.strip n = n ∧ lacks "_" n = true
               ∧ single_spaced false n = true
               ∧ Py.dict_get n corrections = None) as (n & Hn & Hl' & Hs' & Hu' & Hsp' & Hc).
  { destruct (Py.dict_get x corrections) as [v|] eqn:E.
    - exists v. split; [done|]. apply dict_get_Some_elem in E.
      unfold corrections in E.
      repeat (apply elem_of_cons in E as [[= _ ->]|E];
              [split_and!; vm_compute; reflexivity|]).
      by apply elem_of_nil in E.
    - exists x. by split_and!. }
  exists n. rewrite Hn. split_and!; [done| |done|done|done|].
  - rewrite (cleaned_fixed n) by done. by rewrite Hc.
  - rewrite normalize_unfold, Hl', Hs'. apply map_sep_char_fixed.
Qed.

Example clean_text_samples :
  clean_text (Some "  Skin_Rash ") = Some "skin rash"
  ∧ clean_text (Some "Peptic ulcer  diseae") = Some "peptic ulcer disease"
  ∧ _normalize_symptom_name "skin rash" = "skin_rash".
Proof. split_and!; vm_compute; reflexivity. Qed.
